(** * F1 MCP server: the data-fetching and aggregation layer

    A shallow embedding of [src/api_client.py] and of tool handlers of
    [src/tools/], followed by the properties of the specification stated
    and settled against it, and by further properties of the sources.

    Layout: Part I holds the model (Python values, exceptions, the
    operations the sources apply to loosely typed JSON, then one module per
    source file or handler, then the vocabulary of the properties); Part II
    holds the properties of the specification, for every client and every
    envelope; Part III runs them on concrete clients; Part IV holds the
    further properties, each followed by a concrete run. *)

From Stdlib Require Import ZArith List String Ascii Bool Lia FinFun.
From Stdlib Require Import DecimalString Decimal DecimalZ DecimalPos.
From Stdlib Require Import Floats.SpecFloat.
From Stdlib Require Import Sorting.Permutation Sorting.Sorted.
Import ListNotations.

Open Scope string_scope.
Open Scope Z_scope.

(* ================================================================== *)
(** * Part I. The model *)
(* ================================================================== *)

(** ** Text

    A Python [str] is kept as its UTF-8 encoding, one [ascii] per byte.
    Every character the sources test for ('/', 'Z', '+', '-') is ASCII, and
    an ASCII byte never occurs inside a multi-byte sequence, so the byte-wise
    tests below agree with the code-point-wise ones of Python. *)

Definition LF : string := String (ascii_of_nat 10) EmptyString.

(** [str(n)] for a Python [int]. *)
Definition string_of_Z (z : Z) : string := NilZero.string_of_int (Z.to_int z).

(** [s.lstrip(c)] for a one-character argument. *)
Fixpoint lstrip (c : ascii) (s : string) : string :=
  match s with
  | EmptyString => EmptyString
  | String a rest => if Ascii.eqb a c then lstrip c rest else s
  end.

(** [needle in haystack] on two strings. *)
Fixpoint is_substring (needle haystack : string) : bool :=
  String.prefix needle haystack
  || match haystack with
     | EmptyString => false
     | String _ rest => is_substring needle rest
     end.

(** [s.endswith(c)] for a one-character argument. *)
Fixpoint endswith_char (c : ascii) (s : string) : bool :=
  match s with
  | EmptyString => false
  | String a EmptyString => Ascii.eqb a c
  | String _ rest => endswith_char c rest
  end.

(** [s.replace(c, by)] for a one-character pattern. *)
Fixpoint replace_char (c : ascii) (by_ : string) (s : string) : string :=
  match s with
  | EmptyString => EmptyString
  | String a rest =>
      if Ascii.eqb a c then by_ ++ replace_char c by_ rest
      else String a (replace_char c by_ rest)
  end.

(** Continuation bytes of UTF-8 are the bytes 10xxxxxx. *)
Definition is_continuation (a : ascii) : bool :=
  let n := nat_of_ascii a in (Nat.leb 128 n && Nat.ltb n 192)%bool.

Definition starts_with_continuation (s : string) : bool :=
  match s with
  | EmptyString => false
  | String a _ => is_continuation a
  end.

(** The characters of a string, in order: what iterating a [str] yields. *)
Fixpoint py_chars (s : string) : list string :=
  match s with
  | EmptyString => []
  | String a rest =>
      if starts_with_continuation rest then
        match py_chars rest with
        | c :: cs => String a c :: cs
        | [] => [String a EmptyString]
        end
      else String a EmptyString :: py_chars rest
  end.

(** ** JSON values as Python objects

    [response.json()] yields [None], [bool], [int], [float], [str], [list]
    and [dict] objects.  A [float] is an IEEE 754 value.  A [dict] is kept as
    its items in insertion order; lookup takes the first binding of a key. *)

#[warnings="-register-all"]
Inductive json : Type :=
| JNull
| JBool (b : bool)
| JInt (n : Z)
| JFloat (f : spec_float)
| JStr (s : string)
| JList (items : list json)
| JDict (items : list (string * json)).

Definition type_name (v : json) : string :=
  match v with
  | JNull => "NoneType"
  | JBool _ => "bool"
  | JInt _ => "int"
  | JFloat _ => "float"
  | JStr _ => "str"
  | JList _ => "list"
  | JDict _ => "dict"
  end.

Fixpoint lookup (key : string) (items : list (string * json)) : option json :=
  match items with
  | [] => None
  | (k, v) :: rest => if String.eqb k key then Some v else lookup key rest
  end.

Definition dict_keys (items : list (string * json)) : list string :=
  nodup string_dec (map fst items).

(** [bool(v)]: the test of [if v:] and of [not v]. *)
Definition truthy (v : json) : bool :=
  match v with
  | JNull => false
  | JBool b => b
  | JInt n => negb (n =? 0)
  | JFloat (S754_zero _) => false
  | JFloat _ => true
  | JStr s => negb (String.eqb s "")
  | JList xs => match xs with [] => false | _ => true end
  | JDict kvs => match kvs with [] => false | _ => true end
  end.

(** [v == s] for a string literal [s]: only a [str] can be equal to it. *)
Definition eq_str (v : json) (s : string) : bool :=
  match v with
  | JStr t => String.eqb t s
  | _ => false
  end.

(** ** Exceptions

    The handlers of the sources select by class.  [PyError] stands for the
    instances of [Exception] the interpreter and the libraries raise;
    [PySignal] for what derives from [BaseException] only, which an
    [except Exception] clause does not catch.

    An exception raised while another one is handled keeps that one as its
    [__context__].  In these sources only [McpError] is raised inside an
    [except] clause (and never [from None]), so it alone carries one. *)

Inductive error_class : Type :=
| KeyError | TypeError | AttributeError | ValueError | IndexError
| OverflowError | RuntimeError | UnicodeDecodeError | RecursionError
| OtherError (name : string).

Inductive signal_class : Type :=
| CancelledError | KeyboardInterrupt | SystemExit | GeneratorExit.

(** [mcp.ErrorData]. *)
Record ErrorData : Type := mkErrorData { code : Z; message : string }.

#[warnings="-register-all"]
Inductive exn : Type :=
| HTTPStatusError (status_code : Z) (text : string) (msg : string)
| RequestError (msg : string)
| JSONDecodeError (msg : string)
| McpError (error : ErrorData) (context : option exn)
| PyError (cls : error_class) (msg : string)
| PySignal (cls : signal_class) (msg : string).

(** [isinstance(e, Exception)]. *)
Definition is_Exception (e : exn) : bool :=
  match e with
  | PySignal _ _ => false
  | _ => true
  end.

(** [str(e)].  [McpError.__init__] passes [error.message] to [Exception]. *)
Definition str_exn (e : exn) : string :=
  match e with
  | HTTPStatusError _ _ m => m
  | RequestError m => m
  | JSONDecodeError m => m
  | McpError err _ => message err
  | PyError _ m => m
  | PySignal _ m => m
  end.

(** A computation that returns or raises. *)
Definition outcome (A : Type) : Type := (exn + A)%type.

Definition ok {A} (a : A) : outcome A := inr a.
Definition raise {A} (e : exn) : outcome A := inl e.

Definition bind_outcome {A B} (m : outcome A) (f : A -> outcome B) : outcome B :=
  match m with
  | inl e => inl e
  | inr a => f a
  end.

Declare Scope outcome_scope.
Delimit Scope outcome_scope with outcome.
Notation "x <- m ;; k" := (bind_outcome m (fun x => k))
  (at level 61, m at next level, right associativity) : outcome_scope.

(** ** Operations on loosely typed values

    Each follows CPython on the seven JSON types, with the exception CPython
    raises where the operation is not defined.  The wording of the messages
    is that of CPython 3.12; no lemma below depends on it. *)

Definition quote (s : string) : string := "'" ++ s ++ "'".

(** [key in v] for a string literal [key]. *)
Definition py_contains (key : string) (v : json) : outcome bool :=
  match v with
  | JDict kvs => ok (match lookup key kvs with Some _ => true | None => false end)
  | JList xs => ok (existsb (fun x => eq_str x key) xs)
  | JStr s => ok (is_substring key s)
  | _ => raise (PyError TypeError
                  ("argument of type " ++ quote (type_name v) ++ " is not iterable"))
  end.

(** [v[key]] for a string literal [key]. *)
Definition py_getitem (v : json) (key : string) : outcome json :=
  match v with
  | JDict kvs =>
      match lookup key kvs with
      | Some x => ok x
      | None => raise (PyError KeyError (quote key))
      end
  | JList _ =>
      raise (PyError TypeError "list indices must be integers or slices, not str")
  | JStr _ =>
      raise (PyError TypeError "string indices must be integers, not 'str'")
  | _ => raise (PyError TypeError
                  (quote (type_name v) ++ " object is not subscriptable"))
  end.

(** [v.get(key, default)]: only a [dict] has the method. *)
Definition py_get (v : json) (key : string) (default : json) : outcome json :=
  match v with
  | JDict kvs =>
      match lookup key kvs with
      | Some x => ok x
      | None => ok default
      end
  | _ => raise (PyError AttributeError
                  (quote (type_name v) ++ " object has no attribute 'get'"))
  end.

(** What [for x in v] and [list.extend(v)] run through. *)
Definition py_iter (v : json) : outcome (list json) :=
  match v with
  | JList xs => ok xs
  | JStr s => ok (map JStr (py_chars s))
  | JDict kvs => ok (map JStr (dict_keys kvs))
  | _ => raise (PyError TypeError
                  (quote (type_name v) ++ " object is not iterable"))
  end.

(** [v[0]]. *)
Definition py_first (v : json) : outcome json :=
  match v with
  | JList xs =>
      match xs with
      | x :: _ => ok x
      | [] => raise (PyError IndexError "list index out of range")
      end
  | JStr s =>
      match py_chars s with
      | c :: _ => ok (JStr c)
      | [] => raise (PyError IndexError "string index out of range")
      end
  | JDict _ => raise (PyError KeyError "0")
  | _ => raise (PyError TypeError
                  (quote (type_name v) ++ " object is not subscriptable"))
  end.

(* ------------------------------------------------------------------ *)
(** ** [src/config.py] and [mcp.types] *)

(** [mcp.types.INTERNAL_ERROR], the JSON-RPC "internal error" code. *)
Definition INTERNAL_ERROR : Z := -32603.

(** The default of [JOLPICA_BASE_URL]; the environment may override it, so
    the client below takes the base URL as an argument. *)
Definition DEFAULT_JOLPICA_BASE_URL : string := "https://api.jolpi.ca/ergast/f1".

(* ------------------------------------------------------------------ *)
(** ** [src/api_client.py]: [make_jolpica_request] *)

Module api_client.

(** What [await client.get(url)] hands back: the status code, the body as
    text, and what [response.json()] does with the body. *)
Record response : Type := mkResponse {
  status_code : Z;
  text : string;
  parsed : outcome json   (* [response.json()] *)
}.

(** [httpx.Response.is_success]. *)
Definition is_success (r : response) : bool :=
  (200 <=? status_code r) && (status_code r <=? 299).

(** [response.raise_for_status()]: an [HTTPStatusError] carrying the
    response unless the status is 2xx.  The handler reads the response out
    of the exception, never its message, which is abridged here. *)
Definition raise_for_status (r : response) : outcome unit :=
  if is_success r then ok tt
  else raise (HTTPStatusError (status_code r) (text r)
                ("HTTP status " ++ string_of_Z (status_code r))).

(** Line 17: the request URL. *)
Definition request_url (base_url endpoint : string) : string :=
  base_url ++ "/" ++ lstrip "/" endpoint ++ ".json".

(** Lines 37-45, for one [table_key]: [table_key in mr_data] and
    [mr_data[table_key]] are evaluated on whatever [mr_data] is; the rest
    of the iteration only logs. *)
Definition log_table (mr_data : json) (table_key : string) : outcome unit :=
  (present <- py_contains table_key mr_data ;;
   if present then (_ <- py_getitem mr_data table_key ;; ok tt) else ok tt)%outcome.

(** Lines 29-48: the logging of the envelope's structure.  It writes to the
    log only, but it inspects the envelope inside the [try]. *)
Definition log_structure (json_data : json) : outcome unit :=
  match json_data with
  | JDict kvs =>
      match lookup "MRData" kvs with
      | Some mr_data =>
          (_ <- log_table mr_data "DriverTable" ;;
           _ <- log_table mr_data "RaceTable" ;;
           log_table mr_data "StandingsTable")%outcome
      | None => ok tt
      end
  | _ => ok tt
  end.

(** Lines 17-50: the body of the [try]. *)
Definition request_body (client_get : string -> outcome response)
    (base_url endpoint : string) : outcome json :=
  (let url := request_url base_url endpoint in
   response <- client_get url ;;
   _ <- raise_for_status response ;;
   json_data <- parsed response ;;
   _ <- log_structure json_data ;;
   ok json_data)%outcome.

(** The four failure kinds of the specification, one per [except] clause. *)
Inductive failure_kind : Type :=
| HttpError | NetworkError | DecodeError | UnknownError.

(** The message each clause builds (lines 56, 62, 68, 74). *)
Definition failure_message (e : exn) : failure_kind * string :=
  match e with
  | HTTPStatusError status body _ =>
      (HttpError,
       "Jolpica F1 API HTTP error " ++ string_of_Z status ++ ": " ++ body)
  | RequestError m =>
      (NetworkError, "Jolpica F1 API network error: " ++ m)
  | JSONDecodeError m =>
      (DecodeError, "Invalid JSON response from Jolpica F1 API: " ++ m)
  | _ =>
      (UnknownError, "Jolpica F1 API unexpected error: " ++ str_exn e)
  end.

(** Lines 52-75: the [except] clauses, tried in order; the last one is
    [except Exception], which lets a [BaseException] through.  Each clause
    raises its [McpError] while [e] is being handled, so [e] becomes the
    [__context__] of what the caller receives. *)
Definition handle_failure (e : exn) : exn :=
  if is_Exception e then
    McpError (mkErrorData INTERNAL_ERROR (snd (failure_message e))) (Some e)
  else e.

(** [make_jolpica_request(endpoint)], over the HTTP client it awaits. *)
Definition make_jolpica_request (client_get : string -> outcome response)
    (base_url endpoint : string) : outcome json :=
  match request_body client_get base_url endpoint with
  | inr json_data => ok json_data
  | inl e => raise (handle_failure e)
  end.

End api_client.

(* ------------------------------------------------------------------ *)
(** ** Handlers that await the client

    A tool handler is a sequential program whose only interaction is
    [await make_jolpica_request(endpoint)].  [Await] keeps the endpoint and
    the rest of the handler, which receives what the call did: the envelope
    it returned or the exception it raised. *)

Inductive proc (A : Type) : Type :=
| Ret (a : A)
| Raise (e : exn)
| Await (endpoint : string) (k : outcome json -> proc A).

Arguments Ret {A} a.
Arguments Raise {A} e.
Arguments Await {A} endpoint k.

Fixpoint bind {A B} (p : proc A) (f : A -> proc B) : proc B :=
  match p with
  | Ret a => f a
  | Raise e => Raise e
  | Await endpoint k => Await endpoint (fun r => bind (k r) f)
  end.

(** [await make_jolpica_request(endpoint)] outside any [try]. *)
Definition request (endpoint : string) : proc json :=
  Await endpoint (fun r => match r with inl e => Raise e | inr v => Ret v end).

(** A step that does not await. *)
Definition lift {A} (r : outcome A) : proc A :=
  match r with
  | inl e => Raise e
  | inr a => Ret a
  end.

(** [try: p  except Exception as e: handler e]. *)
Fixpoint try_except {A} (p : proc A) (handler : exn -> proc A) : proc A :=
  match p with
  | Ret a => Ret a
  | Raise e => if is_Exception e then handler e else Raise e
  | Await endpoint k => Await endpoint (fun r => try_except (k r) handler)
  end.

Declare Scope proc_scope.
Delimit Scope proc_scope with proc.
Notation "x <- m ;; k" := (bind m (fun x => k))
  (at level 61, m at next level, right associativity) : proc_scope.

(** Running a handler against a client: [fetcher n endpoint] is what the
    [n]-th call of the run does when asked for [endpoint].  The run yields
    the handler's outcome and the endpoints it asked for, in order. *)
Fixpoint run {A} (fetcher : nat -> string -> outcome json) (n : nat)
    (p : proc A) : outcome A * list string :=
  match p with
  | Ret a => (inr a, [])
  | Raise e => (inl e, [])
  | Await endpoint k =>
      let '(r, asked) := run fetcher (S n) (k (fetcher n endpoint)) in
      (r, endpoint :: asked)
  end.

(** [range(start, stop, step)] for a non-zero [step]. *)
Definition py_range (start stop step : Z) : list Z :=
  let count :=
    if 0 <? step then (stop - start + step - 1) / step
    else (start - stop - step - 1) / (- step) in
  map (fun i => start + Z.of_nat i * step) (seq 0 (Z.to_nat count)).

(* ------------------------------------------------------------------ *)
(** ** [src/api_client.py]: [get_driver_career_standings] *)

Module career.

(** Line 122: the endpoint of one year. *)
Definition standings_endpoint (year : Z) (driver_id : string) : string :=
  string_of_Z year ++ "/drivers/" ++ driver_id ++ "/driverStandings".

(** Lines 123-127: what one year's envelope adds to [recent_standings]. *)
Definition harvest (year_data : json) (recent_standings : list json)
  : outcome (list json) :=
  if truthy year_data then
    (has_mrdata <- py_contains "MRData" year_data ;;
     if has_mrdata : bool then
       mr_data <- py_getitem year_data "MRData" ;;
       standings_table <- py_get mr_data "StandingsTable" (JDict []) ;;
       standings_lists <- py_get standings_table "StandingsLists" (JList []) ;;
       if truthy standings_lists then
         entries <- py_iter standings_lists ;;
         ok (recent_standings ++ entries)%list
       else ok recent_standings
     else ok recent_standings)%outcome
  else ok recent_standings.

(** Lines 121-131: one iteration, with its own [try]. *)
Definition probe (driver_id : string) (recent_standings : list json)
    (year : Z) : proc (list json) :=
  try_except
    (year_data <- request (standings_endpoint year driver_id) ;;
     lift (harvest year_data recent_standings))%proc
    (fun _ => Ret recent_standings).

(** Lines 120-131: the loop over the years. *)
Fixpoint scan (driver_id : string) (years : list Z)
    (recent_standings : list json) : proc (list json) :=
  match years with
  | [] => Ret recent_standings
  | year :: rest =>
      (recent_standings' <- probe driver_id recent_standings year ;;
       scan driver_id rest recent_standings')%proc
  end.

(** Lines 136-142: the synthesized envelope. *)
Definition envelope (recent_standings : list json) : json :=
  JDict [("MRData",
          JDict [("StandingsTable",
                  JDict [("StandingsLists", JList recent_standings)])])].

(** Lines 134-145. *)
Definition conclude (recent_standings : list json) : json :=
  if truthy (JList recent_standings) then envelope recent_standings
  else JNull.

(** [get_driver_career_standings(driver_id)]; [current_year] is what
    [datetime.now().year] reads.  [None] is [JNull]. *)
Definition get_driver_career_standings (current_year : Z)
    (driver_id : string) : proc json :=
  try_except
    (recent_standings <-
       scan driver_id (py_range current_year (current_year - 10) (-1)) [] ;;
     Ret (conclude recent_standings))%proc
    (fun _ => Ret JNull).

End career.

(* ------------------------------------------------------------------ *)
(** ** Built-ins the formatters call

    [repr] on floats and containers, [int] on text and the [datetime]
    class are taken from the runtime: the sources only pass their results
    on or branch on them.  [fromisoformat] is [None] where
    [datetime.fromisoformat] raises [ValueError].  [int_text s] is what
    [int(s)] does on a [str]: it returns an integer or raises [ValueError],
    here with its message; which blanks and digits it accepts, and how many
    digits, is the interpreter's business.  [dict_slice n] is the class and
    the message of what [d[:n]] raises on a [dict]: a [TypeError] for the
    unhashable slice before Python 3.12, a [KeyError] since. *)

Class PyRuntime : Type := {
  py_repr : json -> string;
  int_text : string -> string + Z;
  dict_slice : nat -> error_class * string;
  datetime : Type;
  fromisoformat : string -> option datetime;
  strftime : datetime -> string -> string
}.

Section Builtins.
Context {RT : PyRuntime}.

(** [str(v)], which is what an f-string field [{v}] inserts. *)
Definition py_str (v : json) : string :=
  match v with
  | JStr s => s
  | JNull => "None"
  | JBool true => "True"
  | JBool false => "False"
  | JInt n => string_of_Z n
  | _ => py_repr v
  end.

(** [v[:n]]. *)
Definition py_slice_to (n : nat) (v : json) : outcome json :=
  match v with
  | JList xs => ok (JList (firstn n xs))
  | JStr s => ok (JStr (String.concat "" (firstn n (py_chars s))))
  | JDict _ => raise (PyError (fst (dict_slice n)) (snd (dict_slice n)))
  | _ => raise (PyError TypeError
                  (quote (type_name v) ++ " object is not subscriptable"))
  end.

(** The integer [int(s)] returns on text, if it returns. *)
Definition int_of_text (s : string) : option Z :=
  match int_text s with
  | inr n => Some n
  | inl _ => None
  end.

End Builtins.

(** *** [int(v)]

    [int_of_string] reads ASCII numerals the way [int] does: optional
    surrounding white space (tab to carriage return, and the space), an
    optional sign, then decimal digits that single underscores may
    separate.  It serves the reference runtime; the model itself asks the
    runtime ([int_text]), whatever that one accepts. *)

Definition is_space (a : ascii) : bool :=
  let n := nat_of_ascii a in
  ((Nat.leb 9 n && Nat.leb n 13) || Nat.eqb n 32)%bool.

Definition is_digit (a : ascii) : bool :=
  let n := nat_of_ascii a in (Nat.leb 48 n && Nat.leb n 57)%bool.

Definition digit_value (a : ascii) : Z := Z.of_nat (nat_of_ascii a) - 48.

Fixpoint lstrip_space (s : string) : string :=
  match s with
  | EmptyString => EmptyString
  | String a rest => if is_space a then lstrip_space rest else s
  end.

Fixpoint rstrip_space (s : string) : string :=
  match s with
  | EmptyString => EmptyString
  | String a rest =>
      match rstrip_space rest with
      | EmptyString => if is_space a then EmptyString else String a EmptyString
      | kept => String a kept
      end
  end.

Fixpoint digits_value (acc : Z) (after_digit : bool) (s : string) : option Z :=
  match s with
  | EmptyString => if after_digit then Some acc else None
  | String a rest =>
      if is_digit a then digits_value (10 * acc + digit_value a) true rest
      else if Ascii.eqb a "_" then
        if after_digit then digits_value acc false rest else None
      else None
  end.

Definition int_of_string (s : string) : option Z :=
  match rstrip_space (lstrip_space s) with
  | String "+" rest => digits_value 0 false rest
  | String "-" rest => option_map Z.opp (digits_value 0 false rest)
  | body => digits_value 0 false body
  end.

(** Truncation toward zero of a finite float. *)
Definition trunc_float (negative : bool) (m : positive) (e : Z) : Z :=
  let magnitude := Z.shiftl (Zpos m) e in
  if negative then - magnitude else magnitude.

Section Conversions.
Context {RT : PyRuntime}.

Definition py_int (v : json) : outcome Z :=
  match v with
  | JInt n => ok n
  | JBool b => ok (if b then 1 else 0)
  | JFloat (S754_zero _) => ok 0
  | JFloat (S754_finite s m e) => ok (trunc_float s m e)
  | JFloat (S754_infinity _) =>
      raise (PyError OverflowError "cannot convert float infinity to integer")
  | JFloat S754_nan =>
      raise (PyError ValueError "cannot convert float NaN to integer")
  | JStr s =>
      match int_text s with
      | inr n => ok n
      | inl complaint => raise (PyError ValueError complaint)
      end
  | _ => raise (PyError TypeError
                  ("int() argument must be a string, a bytes-like object or a real number, not "
                   ++ quote (type_name v)))
  end.

End Conversions.

(** ** [src/api_client.py]: [format_race_datetime] *)

Module datetime_format.
Section WithRuntime.
Context {RT : PyRuntime}.

(** [time_str.endswith('Z')]: only a [str] has the method. *)
Definition endswith_Z (time_str : json) : outcome bool :=
  match time_str with
  | JStr s => ok (endswith_char "Z" s)
  | _ => raise (PyError AttributeError
                  (quote (type_name time_str) ++ " object has no attribute 'endswith'"))
  end.

(** [datetime.fromisoformat(v)] on a value that need not be a [str]. *)
Definition fromisoformat_value (v : json) : outcome datetime :=
  match v with
  | JStr s =>
      match fromisoformat s with
      | Some dt => ok dt
      | None => raise (PyError ValueError
                         ("Invalid isoformat string: " ++ py_repr v))
      end
  | _ => raise (PyError TypeError "fromisoformat: argument must be str")
  end.

(** Lines 82-105: the body of the [try]. *)
Definition format_body (date_str time_str : json) : outcome json :=
  if truthy date_str then
    if truthy time_str then
      (let with_offset := py_str date_str ++ "T" ++ py_str time_str in
       let assumed_utc := py_str date_str ++ "T" ++ py_str time_str ++ "+00:00" in
       ends_z <- endswith_Z time_str ;;
       datetime_str <-
         (if ends_z : bool then ok with_offset
          else
            has_plus <- py_contains "+" time_str ;;
            if has_plus : bool then ok with_offset
            else
              has_minus <- py_contains "-" time_str ;;
              ok (if has_minus : bool then with_offset else assumed_utc)) ;;
       dt <- fromisoformat_value (JStr (replace_char "Z" "+00:00" datetime_str)) ;;
       ok (JStr (strftime dt "%B %d, %Y at %H:%M UTC")))%outcome
    else
      (dt <- fromisoformat_value date_str ;;
       ok (JStr (strftime dt "%B %d, %Y")))%outcome
  else ok (JStr "TBD").

(** [format_race_datetime(date_str, time_str)]: lines 106-108 are the
    handler; what it returns when [time_str] is falsy is [date_str] itself,
    whatever its type. *)
Definition format_race_datetime (date_str time_str : json) : outcome json :=
  match format_body date_str time_str with
  | inr formatted => ok formatted
  | inl e =>
      if is_Exception e then
        ok (if truthy time_str
            then JStr (py_str date_str ++ " " ++ py_str time_str)
            else date_str)
      else raise e
  end.

End WithRuntime.
End datetime_format.

(* ------------------------------------------------------------------ *)
(** ** Loops *)

(** [for x in xs: acc = body(acc, x)], where the body may raise. *)
Fixpoint for_each {A B} (body : B -> A -> outcome B) (xs : list A) (acc : B)
  : outcome B :=
  match xs with
  | [] => ok acc
  | x :: rest => (acc' <- body acc x ;; for_each body rest acc')%outcome
  end.

(** [enumerate(xs, start)]. *)
Fixpoint enumerate {A} (start : Z) (xs : list A) : list (Z * A) :=
  match xs with
  | [] => []
  | x :: rest => (start, x) :: enumerate (start + 1) rest
  end.

(** The test [not data or 'MRData' not in data], with Python's
    short-circuit: the second operand is evaluated on a truthy [data] only. *)
Definition lacks_mrdata (data : json) : outcome bool :=
  if truthy data then
    (present <- py_contains "MRData" data ;; ok (negb present))%outcome
  else ok true.

(** The test
    [not data or 'MRData' not in data or table not in data['MRData']]. *)
Definition lacks_table (table : string) (data : json) : outcome bool :=
  (no_mrdata <- lacks_mrdata data ;;
   if no_mrdata : bool then ok true
   else
     mr_data <- py_getitem data "MRData" ;;
     present <- py_contains table mr_data ;;
     ok (negb present))%outcome.

(* ------------------------------------------------------------------ *)
(** ** [src/tools/analysis_tools.py]: [get_race_analysis] *)

Module analysis_tools.
Section WithRuntime.
Context {RT : PyRuntime}.

(** Line 22. *)
Definition round_identifier (round_num : Z) : string :=
  if round_num =? 0 then "last" else string_of_Z round_num.

(** Lines 31 and 37. *)
Definition no_race_data (year round_num : Z) : string :=
  "❌ No race data found for " ++ string_of_Z year ++ " round "
  ++ string_of_Z round_num ++ ".".

Definition no_race_found (year round_num : Z) : string :=
  "❌ No race found for " ++ string_of_Z year ++ " round "
  ++ string_of_Z round_num ++ ".".

(** Lines 43-47. *)
Definition header (race circuit location : json) (year : Z) : outcome string :=
  (race_name <- py_getitem race "raceName" ;;
   circuit_name <- py_getitem circuit "circuitName" ;;
   locality <- py_getitem location "locality" ;;
   country <- py_getitem location "country" ;;
   date <- py_getitem race "date" ;;
   round <- py_getitem race "round" ;;
   ok ("🏁 **" ++ py_str race_name ++ " - " ++ string_of_Z year
       ++ " Race Analysis**" ++ LF ++ LF
       ++ "**Circuit:** " ++ py_str circuit_name ++ LF
       ++ "**Location:** " ++ py_str locality ++ ", " ++ py_str country ++ LF
       ++ "**Date:** " ++ py_str date ++ LF
       ++ "🏁 **Round:** " ++ py_str round ++ LF ++ LF))%outcome.

(** Lines 55-58: one line of the qualifying block. *)
Definition qualifying_line (response : string) (numbered : Z * json)
  : outcome string :=
  (let '(i, entry) := numbered in
   driver <- py_getitem entry "Driver" ;;
   constructor <- py_getitem entry "Constructor" ;;
   q1 <- py_get entry "Q1" (JStr "N/A") ;;
   q2 <- py_get entry "Q2" q1 ;;
   q3_time <- py_get entry "Q3" q2 ;;
   given <- py_getitem driver "givenName" ;;
   family <- py_getitem driver "familyName" ;;
   team <- py_getitem constructor "name" ;;
   ok (response ++ "P" ++ string_of_Z i ++ ": " ++ py_str given ++ " "
       ++ py_str family ++ " (" ++ py_str team ++ ") - " ++ py_str q3_time
       ++ LF))%outcome.

(** [quali_data['MRData']['RaceTable']['Races']]. *)
Definition qualifying_races (quali_data : json) : outcome json :=
  (mr_data <- py_getitem quali_data "MRData" ;;
   race_table <- py_getitem mr_data "RaceTable" ;;
   py_getitem race_table "Races")%outcome.

(** Lines 50-59: the qualifying block, appended to [response]. *)
Definition qualifying_section (quali_data : json) (response : string)
  : outcome string :=
  if truthy quali_data then
    (has_mrdata <- py_contains "MRData" quali_data ;;
     if has_mrdata : bool then
       races <- qualifying_races quali_data ;;
       if truthy races then
         races' <- qualifying_races quali_data ;;
         quali_race <- py_first races' ;;
         has_results <- py_contains "QualifyingResults" quali_race ;;
         if has_results : bool then
           all <- py_getitem quali_race "QualifyingResults" ;;
           top <- py_slice_to 10 all ;;
           entries <- py_iter top ;;
           lines <- for_each qualifying_line (enumerate 1 entries)
                      (response ++ "**⏱️ QUALIFYING RESULTS:**" ++ LF) ;;
           ok (lines ++ LF)
         else ok response
       else ok response
     else ok response)%outcome
  else ok response.

(** Lines 71-75. *)
Definition time_status (entry : json) : outcome string :=
  (has_time <- py_contains "Time" entry ;;
   if has_time : bool then
     time <- py_getitem entry "Time" ;;
     t <- py_getitem time "time" ;;
     ok ("(" ++ py_str t ++ ")")
   else
     has_status <- py_contains "status" entry ;;
     if has_status : bool then
       st <- py_getitem entry "status" ;;
       ok ("(" ++ py_str st ++ ")")
     else ok "")%outcome.

(** Lines 65-77: one line of the results block. *)
Definition result_line (response : string) (entry : json) : outcome string :=
  (driver <- py_getitem entry "Driver" ;;
   constructor <- py_getitem entry "Constructor" ;;
   position <- py_getitem entry "position" ;;
   points <- py_get entry "points" (JStr "0") ;;
   shown <- time_status entry ;;
   given <- py_getitem driver "givenName" ;;
   family <- py_getitem driver "familyName" ;;
   team <- py_getitem constructor "name" ;;
   ok (response ++ "P" ++ py_str position ++ ": " ++ py_str given ++ " "
       ++ py_str family ++ " (" ++ py_str team ++ ") - " ++ py_str points
       ++ " pts " ++ shown ++ LF))%outcome.

(** Lines 88-90. *)
Definition fastest_lap_line (winner : json) (response : string)
  : outcome string :=
  (has_fastest <- py_contains "FastestLap" winner ;;
   if has_fastest : bool then
     fastest <- py_getitem winner "FastestLap" ;;
     time <- py_get fastest "Time" (JDict []) ;;
     t <- py_get time "time" (JStr "N/A") ;;
     lap <- py_get fastest "lap" (JStr "N/A") ;;
     ok (response ++ "**⚡ Fastest Lap:** " ++ py_str t ++ " (Lap "
         ++ py_str lap ++ ")" ++ LF)
   else ok response)%outcome.

(** Lines 82-90. *)
Definition winner_section (race : json) (response : string) : outcome string :=
  (results <- py_getitem race "Results" ;;
   if truthy results then
     results' <- py_getitem race "Results" ;;
     winner <- py_first results' ;;
     winner_driver <- py_getitem winner "Driver" ;;
     winner_constructor <- py_getitem winner "Constructor" ;;
     given <- py_getitem winner_driver "givenName" ;;
     family <- py_getitem winner_driver "familyName" ;;
     team <- py_getitem winner_constructor "name" ;;
     fastest_lap_line winner
       (response ++ "**🏆 Race Winner:** " ++ py_str given ++ " "
        ++ py_str family ++ " (" ++ py_str team ++ ")" ++ LF)
   else ok response)%outcome.

(** Lines 62-90: the results block, appended to [response]. *)
Definition results_section (race : json) (response : string) : outcome string :=
  (has_results <- py_contains "Results" race ;;
   if has_results : bool then
     all <- py_getitem race "Results" ;;
     top <- py_slice_to 10 all ;;
     entries <- py_iter top ;;
     lines <- for_each result_line entries
                (response ++ "**🏆 RACE RESULTS:**" ++ LF) ;;
     winner_section race (lines ++ LF)
   else ok response)%outcome.

(** Lines 30-92: what follows the two requests. *)
Definition analyse (year round_num : Z) (race_data quali_data : json)
  : outcome string :=
  (no_data <- lacks_mrdata race_data ;;
   if no_data : bool then ok (no_race_data year round_num)
   else
     mr_data <- py_getitem race_data "MRData" ;;
     race_table <- py_getitem mr_data "RaceTable" ;;
     races <- py_get race_table "Races" (JList []) ;;
     if negb (truthy races) then ok (no_race_found year round_num)
     else
       race <- py_first races ;;
       circuit <- py_getitem race "Circuit" ;;
       location <- py_getitem circuit "Location" ;;
       response <- header race circuit location year ;;
       response <- qualifying_section quali_data response ;;
       results_section race response)%outcome.

(** [get_race_analysis(year, round_num)]. *)
Definition get_race_analysis (year round_num : Z) : proc string :=
  try_except
    (race_data <- request (string_of_Z year ++ "/" ++ round_identifier round_num
                           ++ "/results") ;;
     quali_data <- request (string_of_Z year ++ "/" ++ round_identifier round_num
                            ++ "/qualifying") ;;
     lift (analyse year round_num race_data quali_data))%proc
    (fun e => Ret ("Failed to get race analysis: " ++ str_exn e)).

End WithRuntime.
End analysis_tools.

(* ------------------------------------------------------------------ *)
(** ** [src/tools/race_tools.py]: [get_latest_race_results] *)

Module race_tools.
Section WithRuntime.
Context {RT : PyRuntime}.

(** Lines 118, 122 and 128. *)
Definition no_recent_results : string :=
  "🏁 No recent race results available. API might be unavailable.".

Definition no_results_found : string := "🏁 No race results found.".

Definition results_not_available : string := "🏁 Race results not available yet.".

(** Lines 133-137. *)
Definition header (race circuit location : json) : outcome string :=
  (race_name <- py_getitem race "raceName" ;;
   round <- py_getitem race "round" ;;
   locality <- py_getitem location "locality" ;;
   country <- py_getitem location "country" ;;
   circuit_name <- py_getitem circuit "circuitName" ;;
   date <- py_getitem race "date" ;;
   time <- py_get race "time" JNull ;;
   shown <- datetime_format.format_race_datetime date time ;;
   ok ("🏁 **Latest Race Results**" ++ LF
       ++ "**" ++ py_str race_name ++ "** (Round " ++ py_str round ++ ")" ++ LF
       ++ "Location: " ++ py_str locality ++ ", " ++ py_str country ++ LF
       ++ "Circuit: " ++ py_str circuit_name ++ LF
       ++ "Date: " ++ py_str shown ++ LF ++ LF))%outcome.

(** Lines 147-150. *)
Definition time_or_status (entry : json) (response : string) : outcome string :=
  (has_time <- py_contains "Time" entry ;;
   if has_time : bool then
     time <- py_getitem entry "Time" ;;
     t <- py_getitem time "time" ;;
     ok (response ++ "   Time: " ++ py_str t ++ LF)
   else
     has_status <- py_contains "status" entry ;;
     if has_status : bool then
       st <- py_getitem entry "status" ;;
       ok (response ++ "   Status: " ++ py_str st ++ LF)
     else ok response)%outcome.

(** Lines 153-154. *)
Definition points_line (entry : json) (response : string) : outcome string :=
  (has_points <- py_contains "points" entry ;;
   if has_points : bool then
     points <- py_getitem entry "points" ;;
     ok (response ++ "   Points: " ++ py_str points ++ LF)
   else ok response)%outcome.

(** Lines 141-156: one finisher. *)
Definition position_block (response : string) (entry : json) : outcome string :=
  (driver <- py_getitem entry "Driver" ;;
   constructor <- py_getitem entry "Constructor" ;;
   position <- py_getitem entry "position" ;;
   given <- py_getitem driver "givenName" ;;
   family <- py_getitem driver "familyName" ;;
   team <- py_getitem constructor "name" ;;
   response <- time_or_status entry
     (response ++ "**P" ++ py_str position ++ ": " ++ py_str given ++ " "
      ++ py_str family ++ "** (" ++ py_str team ++ ")" ++ LF) ;;
   response <- points_line entry response ;;
   ok (response ++ LF))%outcome.

(** Lines 117-158: what follows the request. *)
Definition render (data : json) : outcome string :=
  (missing <- lacks_table "RaceTable" data ;;
   if missing : bool then ok no_recent_results
   else
     mr_data <- py_getitem data "MRData" ;;
     race_table <- py_getitem mr_data "RaceTable" ;;
     races <- py_getitem race_table "Races" ;;
     if negb (truthy races) then ok no_results_found
     else
       races' <- py_getitem race_table "Races" ;;
       race <- py_first races' ;;
       results <- py_get race "Results" (JList []) ;;
       if negb (truthy results) then ok results_not_available
       else
         circuit <- py_getitem race "Circuit" ;;
         location <- py_getitem circuit "Location" ;;
         response <- header race circuit location ;;
         entries <- py_iter results ;;
         for_each position_block entries
           (response ++ "**Final Positions:**" ++ LF))%outcome.

(** [get_latest_race_results()]. *)
Definition get_latest_race_results : proc string :=
  try_except
    (data <- request "current/last/results" ;;
     lift (render data))%proc
    (fun e => Ret ("Failed to get race results: " ++ str_exn e)).

End WithRuntime.
End race_tools.

(* ------------------------------------------------------------------ *)
(** ** [src/tools/driver_tools.py]: the career statistics of
    [get_driver_profile] *)

Module driver_tools.
Section WithRuntime.
Context {RT : PyRuntime}.

(** Lines 123-126: the four tallies. *)
Record stats : Type := mkStats {
  wins : Z;
  podiums : Z;
  points_total : Z;
  dnfs : Z
}.

Definition initial : stats := mkStats 0 0 0 0.

(** [except ValueError] and [except (ValueError, TypeError)];
    [json.JSONDecodeError] and [UnicodeDecodeError] derive from
    [ValueError]. *)
Definition is_ValueError (e : exn) : bool :=
  match e with
  | PyError ValueError _ => true
  | PyError UnicodeDecodeError _ => true
  | JSONDecodeError _ => true
  | _ => false
  end.

Definition is_TypeError (e : exn) : bool :=
  match e with
  | PyError TypeError _ => true
  | _ => false
  end.

(** Lines 136-139. *)
Definition count_finish (pos_int : Z) (st : stats) : stats :=
  let st := if pos_int =? 1
            then mkStats (wins st + 1) (podiums st) (points_total st) (dnfs st)
            else st in
  if pos_int <=? 3
  then mkStats (wins st) (podiums st + 1) (points_total st) (dnfs st)
  else st.

(** Lines 131-143. *)
Definition count_position (entry : json) (st : stats) : outcome stats :=
  (position <- py_get entry "position" (JStr "N/A") ;;
   if negb (eq_str position "N/A") then
     match py_int position with
     | inr pos_int => ok (count_finish pos_int st)
     | inl e => if is_ValueError e then ok st else raise e
     end
   else ok (mkStats (wins st) (podiums st) (points_total st) (dnfs st + 1)))%outcome.

(** Lines 146-150. *)
Definition count_points (entry : json) (st : stats) : outcome stats :=
  match (raw <- py_get entry "points" (JInt 0) ;; py_int raw)%outcome with
  | inr points =>
      ok (mkStats (wins st) (podiums st) (points_total st + points) (dnfs st))
  | inl e => if (is_ValueError e || is_TypeError e)%bool then ok st else raise e
  end.

(** Lines 130-150: the body of the inner loop. *)
Definition count_result (st : stats) (entry : json) : outcome stats :=
  (st <- count_position entry st ;; count_points entry st)%outcome.

(** Lines 129-150: the body of the outer loop. *)
Definition count_race (st : stats) (race : json) : outcome stats :=
  (results <- py_get race "Results" (JList []) ;;
   entries <- py_iter results ;;
   for_each count_result entries st)%outcome.

(** Lines 123-150: the scan over [races]. *)
Definition career_statistics (races : json) : outcome stats :=
  (each <- py_iter races ;; for_each count_race each initial)%outcome.

End WithRuntime.
End driver_tools.

(* ------------------------------------------------------------------ *)
(** ** [src/tools/analysis_tools.py]: [calculate_stats]

    The function [compare_drivers] defines to tally the results and the
    standings of one driver.  Its [stats] dictionary has a fixed set of
    keys, hence a record. *)

(** [len(v)]. *)
Definition py_len (v : json) : outcome Z :=
  match v with
  | JList xs => ok (Z.of_nat (List.length xs))
  | JStr s => ok (Z.of_nat (List.length (py_chars s)))
  | JDict kvs => ok (Z.of_nat (List.length (dict_keys kvs)))
  | _ => raise (PyError TypeError
                  ("object of type " ++ quote (type_name v) ++ " has no len()"))
  end.

Module comparison.
Section WithRuntime.
Context {RT : PyRuntime}.

(** Lines 240-244. *)
Record stats : Type := mkStats {
  races : Z;
  wins : Z;
  podiums : Z;
  points : Z;
  poles : Z;
  fastest_laps : Z;
  championships : Z;
  best_championship_pos : Z;
  dnfs : Z
}.

Definition initial : stats := mkStats 0 0 0 0 0 0 0 99 0.

Definition set_races (n : Z) (st : stats) : stats :=
  mkStats n (wins st) (podiums st) (points st) (poles st) (fastest_laps st)
    (championships st) (best_championship_pos st) (dnfs st).

Definition add_win (st : stats) : stats :=
  mkStats (races st) (wins st + 1) (podiums st) (points st) (poles st)
    (fastest_laps st) (championships st) (best_championship_pos st) (dnfs st).

Definition add_podium (st : stats) : stats :=
  mkStats (races st) (wins st) (podiums st + 1) (points st) (poles st)
    (fastest_laps st) (championships st) (best_championship_pos st) (dnfs st).

Definition add_points (n : Z) (st : stats) : stats :=
  mkStats (races st) (wins st) (podiums st) (points st + n) (poles st)
    (fastest_laps st) (championships st) (best_championship_pos st) (dnfs st).

Definition add_fastest_lap (st : stats) : stats :=
  mkStats (races st) (wins st) (podiums st) (points st) (poles st)
    (fastest_laps st + 1) (championships st) (best_championship_pos st)
    (dnfs st).

Definition add_championship (st : stats) : stats :=
  mkStats (races st) (wins st) (podiums st) (points st) (poles st)
    (fastest_laps st) (championships st + 1) (best_championship_pos st)
    (dnfs st).

Definition set_best_championship_pos (n : Z) (st : stats) : stats :=
  mkStats (races st) (wins st) (podiums st) (points st) (poles st)
    (fastest_laps st) (championships st) n (dnfs st).

Definition add_dnf (st : stats) : stats :=
  mkStats (races st) (wins st) (podiums st) (points st) (poles st)
    (fastest_laps st) (championships st) (best_championship_pos st)
    (dnfs st + 1).

(** Lines 256-268. *)
Definition count_position (entry : json) (st : stats) : outcome stats :=
  (position <- py_get entry "position" (JStr "N/A") ;;
   if negb (eq_str position "N/A") then
     match py_int position with
     | inr pos_int =>
         let st := if pos_int =? 1 then add_win st else st in
         ok (if pos_int <=? 3 then add_podium st else st)
     | inl e => if driver_tools.is_ValueError e then ok st else raise e
     end
   else ok (add_dnf st))%outcome.

(** Lines 271-275. *)
Definition count_points (entry : json) (st : stats) : outcome stats :=
  match (raw <- py_get entry "points" (JInt 0) ;; py_int raw)%outcome with
  | inr n => ok (add_points n st)
  | inl e =>
      if (driver_tools.is_ValueError e || driver_tools.is_TypeError e)%bool
      then ok st else raise e
  end.

(** Lines 278-281. *)
Definition count_fastest_lap (entry : json) (st : stats) : outcome stats :=
  (has_fastest <- py_contains "FastestLap" entry ;;
   if has_fastest : bool then
     fastest_lap <- py_getitem entry "FastestLap" ;;
     match fastest_lap with
     | JDict _ =>
         rank <- py_get fastest_lap "rank" JNull ;;
         ok (if eq_str rank "1" then add_fastest_lap st else st)
     | _ => ok st
     end
   else ok st)%outcome.

(** Lines 255-281: the body of the inner loop. *)
Definition count_result (st : stats) (entry : json) : outcome stats :=
  (st <- count_position entry st ;;
   st <- count_points entry st ;;
   count_fastest_lap entry st)%outcome.

(** Lines 254-281: the body of the outer loop. *)
Definition count_race (st : stats) (race : json) : outcome stats :=
  (results <- py_get race "Results" (JList []) ;;
   entries <- py_iter results ;;
   for_each count_result entries st)%outcome.

(** Lines 247-283: the results. *)
Definition scan_results (results_data : json) (st : stats) : outcome stats :=
  if truthy results_data then
    (has_mrdata <- py_contains "MRData" results_data ;;
     if has_mrdata : bool then
       mr_data <- py_getitem results_data "MRData" ;;
       race_table <- py_get mr_data "RaceTable" (JDict []) ;;
       all <- py_get race_table "Races" (JList []) ;;
       n <- py_len all ;;
       each <- py_iter all ;;
       for_each count_race each (set_races n st)
     else ok st)%outcome
  else ok st.

(** Lines 292-303: one season of the standings. *)
Definition count_season (st : stats) (season_standings : json) : outcome stats :=
  (driver_standings <- py_get season_standings "DriverStandings" (JList []) ;;
   if truthy driver_standings then
     standing <- py_first driver_standings ;;
     match (raw <- py_get standing "position" (JInt 99) ;; py_int raw) with
     | inr position =>
         let st := if position =? 1 then add_championship st else st in
         ok (if position <? best_championship_pos st
             then set_best_championship_pos position st else st)
     | inl e =>
         if (driver_tools.is_ValueError e || driver_tools.is_TypeError e)%bool
         then ok st else raise e
     end
   else ok st)%outcome.

(** Lines 286-305: the standings. *)
Definition scan_standings (standings_data : json) (st : stats) : outcome stats :=
  if truthy standings_data then
    (has_mrdata <- py_contains "MRData" standings_data ;;
     if has_mrdata : bool then
       mr_data <- py_getitem standings_data "MRData" ;;
       standings_table <- py_get mr_data "StandingsTable" (JDict []) ;;
       standings_lists <- py_get standings_table "StandingsLists" (JList []) ;;
       _ <- py_len standings_lists ;;
       seasons <- py_iter standings_lists ;;
       for_each count_season seasons st
     else ok st)%outcome
  else ok st.

(** [calculate_stats(results_data, standings_data, driver_name)]; the name
    goes to the log only. *)
Definition calculate_stats (results_data standings_data : json)
    (driver_name : string) : outcome stats :=
  (st <- scan_results results_data initial ;;
   scan_standings standings_data st)%outcome.

End WithRuntime.
End comparison.

(* ------------------------------------------------------------------ *)
(** ** More built-ins *)

(** [v[-1]]. *)
Definition py_last (v : json) : outcome json :=
  match v with
  | JList xs =>
      match List.rev xs with
      | x :: _ => ok x
      | [] => raise (PyError IndexError "list index out of range")
      end
  | JStr s =>
      match List.rev (py_chars s) with
      | c :: _ => ok (JStr c)
      | [] => raise (PyError IndexError "string index out of range")
      end
  | JDict _ => raise (PyError KeyError "-1")
  | _ => raise (PyError TypeError
                  (quote (type_name v) ++ " object is not subscriptable"))
  end.

(** [sorted(xs, key=key)] for integer keys.  The sort of Python is stable:
    elements with equal keys keep their order, which determines the result;
    insertion from the right, before the first element whose key is not
    smaller, yields it. *)
Fixpoint insert_by {A} (key : A -> Z) (x : A) (xs : list A) : list A :=
  match xs with
  | [] => [x]
  | y :: rest =>
      if key x <=? key y then x :: y :: rest else y :: insert_by key x rest
  end.

Definition sorted_by {A} (key : A -> Z) (xs : list A) : list A :=
  fold_right (insert_by key) [] xs.

(** [sorted(xs)] for integers. *)
Definition sorted (xs : list Z) : list Z := sorted_by (fun x => x) xs.

(** [min(xs, key=key)] on a non-empty list: the first of the smallest. *)
Fixpoint min_by {A} (key : A -> Z) (best : A) (xs : list A) : A :=
  match xs with
  | [] => best
  | x :: rest => min_by key (if key x <? key best then x else best) rest
  end.

(** [d[k]] and [k in d] for a dictionary with integer keys, kept in
    insertion order. *)
Fixpoint lookup_int {A} (key : Z) (items : list (Z * A)) : option A :=
  match items with
  | [] => None
  | (k, v) :: rest => if k =? key then Some v else lookup_int key rest
  end.

(* ------------------------------------------------------------------ *)
(** ** [src/tools/analysis_tools.py]: [get_qualifying_results] *)

Module grid.
Section WithRuntime.
Context {RT : PyRuntime}.

(** Lines 138, 141 and 144: the tuple
    [(position, driver, constructor, time, session)]. *)
Record classified : Type := mkClassified {
  position : json;
  driver : json;
  constructor : json;
  time : json;
  session : string
}.

(** Lines 127-129: the three lists. *)
Record sessions : Type := mkSessions {
  q3_drivers : list classified;
  q2_drivers : list classified;
  q1_drivers : list classified
}.

(** Lines 107, 110 and 115. *)
Definition round_identifier (round_num : Z) : string :=
  if round_num =? 0 then "last" else string_of_Z round_num.

Definition no_qualifying_data (year round_num : Z) : string :=
  "❌ No qualifying data found for " ++ string_of_Z year ++ " round "
  ++ string_of_Z round_num ++ ".".

Definition no_qualifying_results (year round_num : Z) : string :=
  "❌ No qualifying results found for " ++ string_of_Z year ++ " round "
  ++ string_of_Z round_num ++ ".".

(** Lines 131-145: the body of the loop over the results. *)
Definition classify (st : sessions) (result : json) : outcome sessions :=
  (driver <- py_getitem result "Driver" ;;
   constructor <- py_getitem result "Constructor" ;;
   position <- py_getitem result "position" ;;
   in_q3 <- py_contains "Q3" result ;;
   if in_q3 : bool then
     q3_time <- py_getitem result "Q3" ;;
     ok (mkSessions
           (q3_drivers st
            ++ [mkClassified position driver constructor q3_time "Q3"])%list
           (q2_drivers st) (q1_drivers st))
   else
     in_q2 <- py_contains "Q2" result ;;
     if in_q2 : bool then
       q2_time <- py_getitem result "Q2" ;;
       ok (mkSessions (q3_drivers st)
             (q2_drivers st
              ++ [mkClassified position driver constructor q2_time "Q2"])%list
             (q1_drivers st))
     else
       in_q1 <- py_contains "Q1" result ;;
       if in_q1 : bool then
         q1_time <- py_getitem result "Q1" ;;
         ok (mkSessions (q3_drivers st) (q2_drivers st)
               (q1_drivers st
                ++ [mkClassified position driver constructor q1_time "Q1"])%list)
       else ok st)%outcome.

(** The keys [int(x[0])] of a list, computed in order: the first that
    cannot be read raises. *)
Fixpoint keyed (xs : list classified) : outcome (list (Z * classified)) :=
  match xs with
  | [] => ok []
  | x :: rest =>
      (key <- py_int (position x) ;;
       others <- keyed rest ;;
       ok ((key, x) :: others))%outcome
  end.

(** Line 148: [sorted(xs, key=lambda x: int(x[0]))]. *)
Definition grid_order (xs : list classified) : outcome (list classified) :=
  (keys <- keyed xs ;; ok (map snd (sorted_by fst keys)))%outcome.

(** Line 151. *)
Definition session_indicator (session : string) : string :=
  if String.eqb session "Q3" then "🏆"
  else if String.eqb session "Q2" then "⚡" else "📊".

(** Lines 150-152: one line of the grid. *)
Definition grid_line (response : string) (x : classified) : outcome string :=
  (given <- py_getitem (driver x) "givenName" ;;
   family <- py_getitem (driver x) "familyName" ;;
   team <- py_getitem (constructor x) "name" ;;
   ok (response ++ "P" ++ py_str (position x) ++ ": "
       ++ session_indicator (session x) ++ " " ++ py_str given ++ " "
       ++ py_str family ++ " (" ++ py_str team ++ ") - " ++ py_str (time x)
       ++ LF))%outcome.

(** Lines 157-159: [min(q3_drivers, key=lambda x: int(x[0]))] and its
    line. *)
Definition pole_position (q3 : list classified) (response : string)
  : outcome string :=
  match q3 with
  | [] => ok response
  | _ :: _ =>
      (keys <- keyed q3 ;;
       match keys with
       | [] => raise (PyError ValueError "min() arg is an empty sequence")
       | first :: others =>
           let pole_sitter := snd (min_by fst first others) in
           given <- py_getitem (driver pole_sitter) "givenName" ;;
           family <- py_getitem (driver pole_sitter) "familyName" ;;
           team <- py_getitem (constructor pole_sitter) "name" ;;
           ok (response ++ "**🏆 POLE POSITION:** " ++ py_str given ++ " "
               ++ py_str family ++ " (" ++ py_str team ++ ") - "
               ++ py_str (time pole_sitter) ++ LF)
       end)%outcome
  end.

(** The test [not races or 'QualifyingResults' not in races[0]]. *)
Definition lacks_results (races : json) : outcome bool :=
  if negb (truthy races) then ok true
  else
    (first <- py_first races ;;
     present <- py_contains "QualifyingResults" first ;;
     ok (negb present))%outcome.

(** Lines 109-163: what follows the request. *)
Definition render (year round_num : Z) (quali_data : json) : outcome string :=
  (no_mrdata <- lacks_mrdata quali_data ;;
   if no_mrdata : bool then ok (no_qualifying_data year round_num)
   else
     mr_data <- py_getitem quali_data "MRData" ;;
     race_table <- py_getitem mr_data "RaceTable" ;;
     races <- py_get race_table "Races" (JList []) ;;
     absent <- lacks_results races ;;
     if absent : bool then ok (no_qualifying_results year round_num)
     else
       race <- py_first races ;;
       circuit <- py_getitem race "Circuit" ;;
       race_name <- py_getitem race "raceName" ;;
       circuit_name <- py_getitem circuit "circuitName" ;;
       date <- py_getitem race "date" ;;
       results <- py_getitem race "QualifyingResults" ;;
       each <- py_iter results ;;
       st <- for_each classify each (mkSessions [] [] []) ;;
       all_results <-
         grid_order (q3_drivers st ++ q2_drivers st ++ q1_drivers st)%list ;;
       response <-
         for_each grid_line all_results
           ("⏱️ **" ++ py_str race_name ++ " - Qualifying Results**"
            ++ LF ++ LF
            ++ "**Circuit:** " ++ py_str circuit_name ++ LF
            ++ "📅 **Date:** " ++ py_str date ++ LF ++ LF
            ++ "**🏁 STARTING GRID:**" ++ LF) ;;
       response <- pole_position (q3_drivers st) (response ++ LF) ;;
       ok (response ++ LF
           ++ "🏆 Q3 (Top 10) | ⚡ Q2 (P11-15) | 📊 Q1 (P16-20)"))%outcome.

(** [get_qualifying_results(year, round_num)]. *)
Definition get_qualifying_results (year round_num : Z) : proc string :=
  try_except
    (quali_data <- request (string_of_Z year ++ "/"
                            ++ round_identifier round_num ++ "/qualifying") ;;
     lift (render year round_num quali_data))%proc
    (fun e => Ret ("Failed to get qualifying results: " ++ str_exn e)).

End WithRuntime.
End grid.

(* ------------------------------------------------------------------ *)
(** ** [src/tools/racing_tools.py]: [get_sprint_results] *)

Module racing_tools.
Section WithRuntime.
Context {RT : PyRuntime}.

(** Lines 20, 24 and 29. *)
Definition round_identifier (round_num : Z) : string :=
  if round_num =? 0 then "last" else string_of_Z round_num.

Definition no_sprint_data (year round_num : Z) : string :=
  "No sprint data found for " ++ string_of_Z year ++ " round "
  ++ string_of_Z round_num ++ ".".

Definition no_sprint_results (year round_num : Z) : string :=
  "No sprint results found for " ++ string_of_Z year ++ " round "
  ++ string_of_Z round_num ++ ".".

(** Lines 47-51. *)
Definition time_status (result : json) : outcome string :=
  (has_time <- py_contains "Time" result ;;
   if has_time : bool then
     time <- py_getitem result "Time" ;;
     t <- py_getitem time "time" ;;
     ok ("(" ++ py_str t ++ ")")
   else
     has_status <- py_contains "status" result ;;
     if has_status : bool then
       st <- py_getitem result "status" ;;
       ok ("(" ++ py_str st ++ ")")
     else ok "")%outcome.

(** Lines 42-53: one line of the sprint results. *)
Definition sprint_line (response : string) (result : json) : outcome string :=
  (driver <- py_getitem result "Driver" ;;
   constructor <- py_getitem result "Constructor" ;;
   position <- py_getitem result "position" ;;
   points <- py_get result "points" (JStr "0") ;;
   shown <- time_status result ;;
   given <- py_getitem driver "givenName" ;;
   family <- py_getitem driver "familyName" ;;
   team <- py_getitem constructor "name" ;;
   ok (response ++ "P" ++ py_str position ++ ": " ++ py_str given ++ " "
       ++ py_str family ++ " (" ++ py_str team ++ ") - " ++ py_str points
       ++ " pts " ++ shown ++ LF))%outcome.

(** The test [not races or 'SprintResults' not in races[0]]. *)
Definition lacks_sprint (races : json) : outcome bool :=
  if negb (truthy races) then ok true
  else
    (first <- py_first races ;;
     present <- py_contains "SprintResults" first ;;
     ok (negb present))%outcome.

(** Lines 23-55: what follows the request. *)
Definition render_sprint (year round_num : Z) (data : json) : outcome string :=
  (missing <- lacks_table "RaceTable" data ;;
   if missing : bool then ok (no_sprint_data year round_num)
   else
     mr_data <- py_getitem data "MRData" ;;
     race_table <- py_getitem mr_data "RaceTable" ;;
     races <- py_get race_table "Races" (JList []) ;;
     absent <- lacks_sprint races ;;
     if absent : bool then ok (no_sprint_results year round_num)
     else
       race <- py_first races ;;
       circuit <- py_getitem race "Circuit" ;;
       location <- py_getitem circuit "Location" ;;
       race_name <- py_getitem race "raceName" ;;
       circuit_name <- py_getitem circuit "circuitName" ;;
       locality <- py_getitem location "locality" ;;
       country <- py_getitem location "country" ;;
       date <- py_getitem race "date" ;;
       results <- py_getitem race "SprintResults" ;;
       each <- py_iter results ;;
       for_each sprint_line each
         ("**" ++ py_str race_name ++ " - Sprint Results**" ++ LF ++ LF
          ++ "**Circuit:** " ++ py_str circuit_name ++ LF
          ++ "**Location:** " ++ py_str locality ++ ", " ++ py_str country ++ LF
          ++ "**Date:** " ++ py_str date ++ LF ++ LF
          ++ "**SPRINT RACE RESULTS:**" ++ LF))%outcome.

(** [get_sprint_results(year, round_num)]. *)
Definition get_sprint_results (year round_num : Z) : proc string :=
  try_except
    (data <- request (string_of_Z year ++ "/" ++ round_identifier round_num
                      ++ "/sprint") ;;
     lift (render_sprint year round_num data))%proc
    (fun e => Ret ("Failed to get sprint results: " ++ str_exn e)).

End WithRuntime.
End racing_tools.

(* ------------------------------------------------------------------ *)
(** ** [src/tools/standings_tools.py] *)

Module standings_tools.
Section WithRuntime.
Context {RT : PyRuntime}.

(** [year if year else 'current season'], as an f-string field shows it. *)
Definition shown_year (year : option Z) : string :=
  match year with
  | Some y => if y =? 0 then "current season" else string_of_Z y
  | None => "current season"
  end.

(** Lines 20-23 and 61-64. *)
Definition endpoint (table : string) (year : option Z) : string :=
  match year with
  | None => "current/" ++ table
  | Some y => string_of_Z y ++ "/" ++ table
  end.

(** Line 42: the team of a standing. *)
Definition first_constructor (standing : json) : outcome json :=
  (constructors <- py_getitem standing "Constructors" ;;
   if truthy constructors then
     constructors' <- py_getitem standing "Constructors" ;;
     py_first constructors'
   else ok (JDict [("name", JStr "Unknown")]))%outcome.

(** Lines 41-47: one driver. *)
Definition driver_block (response : string) (standing : json) : outcome string :=
  (driver <- py_getitem standing "Driver" ;;
   constructor <- first_constructor standing ;;
   position <- py_getitem standing "position" ;;
   given <- py_getitem driver "givenName" ;;
   family <- py_getitem driver "familyName" ;;
   team <- py_getitem constructor "name" ;;
   points <- py_getitem standing "points" ;;
   wins <- py_getitem standing "wins" ;;
   nationality <- py_getitem driver "nationality" ;;
   ok (response ++ "**P" ++ py_str position ++ ": " ++ py_str given ++ " "
       ++ py_str family ++ "**" ++ LF
       ++ "Team: " ++ py_str team ++ LF
       ++ "Points: " ++ py_str points ++ " | Wins: " ++ py_str wins ++ LF
       ++ "Nationality: " ++ py_str nationality ++ LF ++ LF))%outcome.

(** Lines 82-86: one team. *)
Definition constructor_block (response : string) (standing : json)
  : outcome string :=
  (constructor <- py_getitem standing "Constructor" ;;
   position <- py_getitem standing "position" ;;
   team <- py_getitem constructor "name" ;;
   nationality <- py_getitem constructor "nationality" ;;
   points <- py_getitem standing "points" ;;
   wins <- py_getitem standing "wins" ;;
   ok (response ++ "**P" ++ py_str position ++ ": " ++ py_str team ++ "**" ++ LF
       ++ "Nationality: " ++ py_str nationality ++ LF
       ++ "Points: " ++ py_str points ++ " | Wins: " ++ py_str wins ++ LF
       ++ LF))%outcome.

(** Lines 27-49: what follows the request for the drivers. *)
Definition render_drivers (year : option Z) (data : json) : outcome string :=
  (missing <- lacks_table "StandingsTable" data ;;
   if missing : bool then
     ok ("No driver standings available for " ++ shown_year year
         ++ ". API might be unavailable.")
   else
     mr_data <- py_getitem data "MRData" ;;
     table <- py_getitem mr_data "StandingsTable" ;;
     standings_list <- py_getitem table "StandingsLists" ;;
     if negb (truthy standings_list) then
       ok ("No driver standings found for " ++ shown_year year ++ ".")
     else
       first <- py_first standings_list ;;
       standings <- py_getitem first "DriverStandings" ;;
       mr_data' <- py_getitem data "MRData" ;;
       table' <- py_getitem mr_data' "StandingsTable" ;;
       season <- py_getitem table' "season" ;;
       each <- py_iter standings ;;
       for_each driver_block each
         ("**F1 " ++ py_str season ++ " Driver Championship Standings**"
          ++ LF ++ LF))%outcome.

(** [get_current_standings(year)]. *)
Definition get_current_standings (year : option Z) : proc string :=
  try_except
    (data <- request (endpoint "driverStandings" year) ;;
     lift (render_drivers year data))%proc
    (fun e => Ret ("Failed to get standings: " ++ str_exn e)).

(** Lines 68-88: what follows the request for the teams. *)
Definition render_constructors (year : option Z) (data : json)
  : outcome string :=
  (missing <- lacks_table "StandingsTable" data ;;
   if missing : bool then
     ok ("No constructor standings available for " ++ shown_year year
         ++ ". API might be unavailable.")
   else
     mr_data <- py_getitem data "MRData" ;;
     table <- py_getitem mr_data "StandingsTable" ;;
     standings_list <- py_getitem table "StandingsLists" ;;
     if negb (truthy standings_list) then
       ok ("No constructor standings found for " ++ shown_year year ++ ".")
     else
       first <- py_first standings_list ;;
       standings <- py_getitem first "ConstructorStandings" ;;
       mr_data' <- py_getitem data "MRData" ;;
       table' <- py_getitem mr_data' "StandingsTable" ;;
       season <- py_getitem table' "season" ;;
       each <- py_iter standings ;;
       for_each constructor_block each
         ("**F1 " ++ py_str season ++ " Constructor Championship Standings**"
          ++ LF ++ LF))%outcome.

(** [get_constructor_standings(year)]. *)
Definition get_constructor_standings (year : option Z) : proc string :=
  try_except
    (data <- request (endpoint "constructorStandings" year) ;;
     lift (render_constructors year data))%proc
    (fun e => Ret ("Failed to get constructor standings: " ++ str_exn e)).

End WithRuntime.
End standings_tools.

(* ------------------------------------------------------------------ *)
(** ** [src/tools/historical_tools.py] *)

Module historical_tools.
Section WithRuntime.
Context {RT : PyRuntime}.

(** Lines 35-39: one race of the calendar. *)
Definition schedule_line (response : string) (race : json) : outcome string :=
  (circuit <- py_getitem race "Circuit" ;;
   location <- py_getitem circuit "Location" ;;
   date_only <- py_getitem race "date" ;;
   round <- py_getitem race "round" ;;
   race_name <- py_getitem race "raceName" ;;
   locality <- py_getitem location "locality" ;;
   ok (response ++ "R" ++ py_str round ++ ": " ++ py_str race_name ++ " - "
       ++ py_str locality ++ " (" ++ py_str date_only ++ ")" ++ LF))%outcome.

(** Lines 22-41: what follows the request. *)
Definition render_schedule (year : Z) (data : json) : outcome string :=
  (missing <- lacks_table "RaceTable" data ;;
   if missing : bool then
     ok ("No race schedule found for " ++ string_of_Z year
         ++ ". API might be unavailable.")
   else
     mr_data <- py_getitem data "MRData" ;;
     race_table <- py_getitem mr_data "RaceTable" ;;
     races <- py_getitem race_table "Races" ;;
     mr_data' <- py_getitem data "MRData" ;;
     race_table' <- py_getitem mr_data' "RaceTable" ;;
     season <- py_getitem race_table' "season" ;;
     if negb (truthy races) then
       ok ("No races found for " ++ py_str season ++ " season.")
     else
       count <- py_len races ;;
       each <- py_iter races ;;
       for_each schedule_line each
         ("**F1 " ++ py_str season ++ " Calendar** (" ++ string_of_Z count
          ++ " races)" ++ LF ++ LF))%outcome.

(** [get_historical_schedule(year)]. *)
Definition get_historical_schedule (year : Z) : proc string :=
  try_except
    (data <- request (string_of_Z year) ;;
     lift (render_schedule year data))%proc
    (fun e => Ret ("Failed to get " ++ string_of_Z year ++ " schedule: "
                   ++ str_exn e)).

(** Lines 67-69: [decades[decade].append(year)], the list created first
    when the decade is new. *)
Fixpoint record_year (decade year : Z) (decades : list (Z * list Z))
  : list (Z * list Z) :=
  match decades with
  | [] => [(decade, [year])]
  | (d, years) :: rest =>
      if d =? decade then (d, (years ++ [year])%list) :: rest
      else (d, years) :: record_year decade year rest
  end.

(** Lines 64-69: the body of the grouping loop. *)
Definition group_season (decades : list (Z * list Z)) (season : json)
  : outcome (list (Z * list Z)) :=
  (raw <- py_getitem season "season" ;;
   year <- py_int raw ;;
   let decade := (year / 10) * 10 in
   ok (record_year decade year decades))%outcome.

(** Lines 71-73: the line of one decade. *)
Definition decade_line (decades : list (Z * list Z)) (response : string)
    (decade : Z) : outcome string :=
  match lookup_int decade decades with
  | Some years =>
      ok (response ++ "**" ++ string_of_Z decade ++ "s:** "
          ++ String.concat ", " (map string_of_Z (sorted years)) ++ LF)
  | None => raise (PyError KeyError (string_of_Z decade))
  end.

(** Lines 52-77: what follows the request. *)
Definition render_seasons (data : json) : outcome string :=
  (missing <- lacks_table "SeasonTable" data ;;
   if missing : bool then ok "No season data available."
   else
     mr_data <- py_getitem data "MRData" ;;
     table <- py_getitem mr_data "SeasonTable" ;;
     seasons <- py_get table "Seasons" (JList []) ;;
     if negb (truthy seasons) then ok "No seasons found."
     else
       each <- py_iter seasons ;;
       decades <- for_each group_season each [] ;;
       response <- for_each (decade_line decades) (sorted (map fst decades))
                     ("**Available F1 Seasons**" ++ LF ++ LF) ;;
       count <- py_len seasons ;;
       first <- py_first seasons ;;
       first_season <- py_getitem first "season" ;;
       last <- py_last seasons ;;
       last_season <- py_getitem last "season" ;;
       ok (response ++ LF ++ "**Total Seasons:** " ++ string_of_Z count
           ++ " (from " ++ py_str first_season ++ " to " ++ py_str last_season
           ++ ")"))%outcome.

(** [get_all_seasons()]. *)
Definition get_all_seasons : proc string :=
  try_except
    (data <- request "seasons" ;; lift (render_seasons data))%proc
    (fun e => Ret ("Failed to get seasons: " ++ str_exn e)).

End WithRuntime.
End historical_tools.

(* ------------------------------------------------------------------ *)
(** ** The envelopes of the upstream API

    The records below are the race-table schema of the service, with the
    fields the formatters read; the [_json] functions give the objects
    [response.json()] builds for them.  An optional field that is [None] is
    absent from the object. *)

Module ergast.

Record Driver : Type := mkDriver { givenName : string; familyName : string }.

Record Constructor : Type := mkConstructor { name : string }.

Record FastestLap : Type := mkFastestLap {
  lap_time : option string;
  lap : option string
}.

Record Result : Type := mkResult {
  position : option string;
  driver : Driver;
  constructor : Constructor;
  points : option string;
  time : option string;
  status : option string;
  fastest_lap : option FastestLap
}.

Record Location : Type := mkLocation { locality : string; country : string }.

Record Circuit : Type := mkCircuit { circuitName : string; location : Location }.

Record Race : Type := mkRace {
  raceName : string;
  round : string;
  date : string;
  circuit : Circuit;
  results : list Result
}.

Definition field {A} (key : string) (f : A -> json) (o : option A)
  : list (string * json) :=
  match o with
  | Some a => [(key, f a)]
  | None => []
  end.

Definition driver_json (d : Driver) : json :=
  JDict [("givenName", JStr (givenName d)); ("familyName", JStr (familyName d))].

Definition constructor_json (c : Constructor) : json :=
  JDict [("name", JStr (name c))].

Definition time_json (t : string) : json := JDict [("time", JStr t)].

Definition fastest_lap_json (f : FastestLap) : json :=
  JDict (field "lap" JStr (lap f) ++ field "Time" time_json (lap_time f))%list.

Definition result_json (r : Result) : json :=
  JDict (field "position" JStr (position r)
         ++ field "points" JStr (points r)
         ++ [("Driver", driver_json (driver r));
             ("Constructor", constructor_json (constructor r))]
         ++ field "status" JStr (status r)
         ++ field "Time" time_json (time r)
         ++ field "FastestLap" fastest_lap_json (fastest_lap r))%list.

Definition location_json (l : Location) : json :=
  JDict [("locality", JStr (locality l)); ("country", JStr (country l))].

Definition circuit_json (c : Circuit) : json :=
  JDict [("circuitName", JStr (circuitName c));
         ("Location", location_json (location c))].

Definition race_json (r : Race) : json :=
  JDict [("round", JStr (round r));
         ("raceName", JStr (raceName r));
         ("Circuit", circuit_json (circuit r));
         ("date", JStr (date r));
         ("Results", JList (map result_json (results r)))].

(** [{"MRData": {"RaceTable": {"Races": [...]}}}]. *)
Definition race_table_json (races : list Race) : json :=
  JDict [("MRData",
          JDict [("RaceTable", JDict [("Races", JList (map race_json races))])])].

End ergast.

(* ------------------------------------------------------------------ *)
(** ** A runtime to evaluate the model with

    [reference_runtime] implements the built-ins on the values the examples
    use, and is no more than that: [repr] on text without quotes,
    backslashes or control characters and on containers of such text and of
    integers (no example holds a float: a finite one is shown by mantissa
    and exponent, not as [repr] shows it); [int] on ASCII numerals
    ([int_of_string]: no other digits or blanks, no limit on the number of
    digits); [d[:n]] on a [dict] as before Python 3.12; [fromisoformat] on
    [YYYY-MM-DD] optionally followed by [THH:MM] or [THH:MM:SS] and a UTC
    offset; [strftime] on the two formats of [format_race_datetime].  The
    general lemmas hold for every runtime; this one only serves to run the
    handlers on concrete envelopes. *)

Module reference.

Definition float_repr (f : spec_float) : string :=
  match f with
  | S754_zero false => "0.0"
  | S754_zero true => "-0.0"
  | S754_infinity false => "inf"
  | S754_infinity true => "-inf"
  | S754_nan => "nan"
  | S754_finite s m e =>
      (if s then "-" else "") ++ string_of_Z (Zpos m) ++ "*2**" ++ string_of_Z e
  end.

Fixpoint repr (v : json) : string :=
  match v with
  | JNull => "None"
  | JBool true => "True"
  | JBool false => "False"
  | JInt n => string_of_Z n
  | JFloat f => float_repr f
  | JStr s => quote s
  | JList xs => "[" ++ String.concat ", " (map repr xs) ++ "]"
  | JDict kvs =>
      "{" ++ String.concat ", "
               (map (fun kv => let '(k, x) := kv in quote k ++ ": " ++ repr x) kvs)
      ++ "}"
  end.

(** A date and a wall-clock time. *)
Record moment : Type := mkMoment {
  year : Z; month : Z; day : Z; hour : Z; minute : Z
}.

(** The value of [count] leading digits and the rest of the text. *)
Fixpoint digits (count : nat) (acc : Z) (s : string) : option (Z * string) :=
  match count, s with
  | O, _ => Some (acc, s)
  | S count', String a rest =>
      if is_digit a then digits count' (10 * acc + digit_value a) rest else None
  | S _, EmptyString => None
  end.

Definition expect (c : ascii) (s : string) : option string :=
  match s with
  | String a rest => if Ascii.eqb a c then Some rest else None
  | EmptyString => None
  end.

Definition is_leap (y : Z) : bool :=
  ((y mod 4 =? 0) && negb (y mod 100 =? 0)) || (y mod 400 =? 0).

Definition days_in_month (y m : Z) : Z :=
  if m =? 2 then (if is_leap y then 29 else 28)
  else if (m =? 4) || (m =? 6) || (m =? 9) || (m =? 11) then 30
  else 31.

Definition parse_offset (s : string) : option unit :=
  match s with
  | EmptyString => Some tt
  | String sign rest =>
      if (Ascii.eqb sign "+" || Ascii.eqb sign "-")%bool then
        match digits 2 0 rest with
        | Some (h, rest) =>
            match expect ":" rest with
            | Some rest =>
                match digits 2 0 rest with
                | Some (m, EmptyString) =>
                    if (h <? 24) && (m <? 60) then Some tt else None
                | _ => None
                end
            | None => None
            end
        | None => None
        end
      else None
  end.

Definition parse_clock (s : string) : option (Z * Z) :=
  match s with
  | EmptyString => Some (0, 0)
  | String t rest =>
      if Ascii.eqb t "T" then
        match digits 2 0 rest with
        | Some (h, rest) =>
            match expect ":" rest with
            | Some rest =>
                match digits 2 0 rest with
                | Some (m, rest) =>
                    match expect ":" rest with
                    | Some rest =>
                        match digits 2 0 rest with
                        | Some (sec, rest) =>
                            match parse_offset rest with
                            | Some _ =>
                                if (h <? 24) && (m <? 60) && (sec <? 60)
                                then Some (h, m) else None
                            | None => None
                            end
                        | None => None
                        end
                    | None =>
                        match parse_offset rest with
                        | Some _ =>
                            if (h <? 24) && (m <? 60) then Some (h, m)
                            else None
                        | None => None
                        end
                    end
                | None => None
                end
            | None => None
            end
        | None => None
        end
      else None
  end.

Definition parse_moment (s : string) : option moment :=
  match digits 4 0 s with
  | Some (y, rest) =>
      match expect "-" rest with
      | Some rest =>
          match digits 2 0 rest with
          | Some (m, rest) =>
              match expect "-" rest with
              | Some rest =>
                  match digits 2 0 rest with
                  | Some (d, rest) =>
                      match parse_clock rest with
                      | Some (h, mi) =>
                          if (1 <=? y) && (1 <=? m) && (m <=? 12)
                             && (1 <=? d) && (d <=? days_in_month y m)
                          then Some (mkMoment y m d h mi) else None
                      | None => None
                      end
                  | None => None
                  end
              | None => None
              end
          | None => None
          end
      | None => None
      end
  | None => None
  end.

Definition month_name (m : Z) : string :=
  nth (Z.to_nat (m - 1))
    ["January"; "February"; "March"; "April"; "May"; "June"; "July";
     "August"; "September"; "October"; "November"; "December"] "".

Definition two_digits (n : Z) : string :=
  if n <? 10 then "0" ++ string_of_Z n else string_of_Z n.

Definition format_moment (dt : moment) (fmt : string) : string :=
  let date := month_name (month dt) ++ " " ++ two_digits (day dt) ++ ", "
              ++ string_of_Z (year dt) in
  if String.eqb fmt "%B %d, %Y" then date
  else if String.eqb fmt "%B %d, %Y at %H:%M UTC"
  then date ++ " at " ++ two_digits (hour dt) ++ ":" ++ two_digits (minute dt)
       ++ " UTC"
  else fmt.

(** [int] on ASCII numerals. *)
Definition int (s : string) : string + Z :=
  match int_of_string s with
  | Some n => inr n
  | None => inl ("invalid literal for int() with base 10: " ++ repr (JStr s))
  end.

End reference.

#[export] Instance reference_runtime : PyRuntime := {
  py_repr := reference.repr;
  int_text := reference.int;
  dict_slice := fun _ => (TypeError, "unhashable type: 'slice'");
  datetime := reference.moment;
  fromisoformat := reference.parse_moment;
  strftime := reference.format_moment
}.

(** An envelope of the race-results endpoint, and a client that serves it
    whatever it is asked. *)
Definition sample_race : ergast.Race :=
  ergast.mkRace "Bahrain Grand Prix" "1" "2021-03-28"
    (ergast.mkCircuit "Bahrain International Circuit"
       (ergast.mkLocation "Sakhir" "Bahrain"))
    [ergast.mkResult (Some "1") (ergast.mkDriver "Lewis" "Hamilton")
       (ergast.mkConstructor "Mercedes") (Some "25") (Some "1:32:03.897")
       (Some "Finished") None;
     ergast.mkResult (Some "2") (ergast.mkDriver "Max" "Verstappen")
       (ergast.mkConstructor "Red Bull") (Some "18") (Some "+0.745")
       (Some "Finished") None].

Definition always (v : outcome json) : nat -> string -> outcome json :=
  fun _ _ => v.

(* ------------------------------------------------------------------ *)
(** ** Vocabulary of the specification

    What the specification names and the code leaves implicit. *)

(** [n] leading slashes. *)
Fixpoint slashes (n : nat) : string :=
  match n with
  | O => EmptyString
  | S n' => String "/" (slashes n')
  end.

Definition starts_with_slash (s : string) : bool :=
  match s with
  | String a _ => Ascii.eqb a "/"
  | EmptyString => false
  end.

(** The failure kind a caller can read off the message of what the client
    raised; the class and the code are the same for all kinds. *)
Definition observed_kind (e : exn) : option api_client.failure_kind :=
  match e with
  | McpError err _ =>
      if String.prefix "Jolpica F1 API HTTP error " (message err)
      then Some api_client.HttpError
      else if String.prefix "Jolpica F1 API network error: " (message err)
      then Some api_client.NetworkError
      else if String.prefix "Invalid JSON response from Jolpica F1 API: " (message err)
      then Some api_client.DecodeError
      else if String.prefix "Jolpica F1 API unexpected error: " (message err)
      then Some api_client.UnknownError
      else None
  | _ => None
  end.

(** The standings list of a year's envelope, when the envelope has the
    shape [{"MRData": {"StandingsTable": {"StandingsLists": ...}}}]. *)
Definition standings_lists (data : json) : option json :=
  match data with
  | JDict kvs =>
      match lookup "MRData" kvs with
      | Some (JDict mr_data) =>
          match lookup "StandingsTable" mr_data with
          | Some (JDict table) => lookup "StandingsLists" table
          | _ => None
          end
      | _ => None
      end
  | _ => None
  end.

(** A probe that found the non-empty list [entries]. *)
Definition found (answer : outcome json) (entries : list json) : Prop :=
  exists data,
    answer = inr data /\ standings_lists data = Some (JList entries)
    /\ entries <> [].

(** An envelope without standings: no [MRData], no table, no list, or an
    empty list. *)
Definition no_standings (data : json) : bool :=
  match data with
  | JDict kvs =>
      match lookup "MRData" kvs with
      | None => true
      | Some (JDict mr_data) =>
          match lookup "StandingsTable" mr_data with
          | None => true
          | Some (JDict table) =>
              match lookup "StandingsLists" table with
              | None => true
              | Some (JList []) => true
              | Some _ => false
              end
          | Some _ => false
          end
      | Some _ => false
      end
  | _ => false
  end.

(** A probe that was empty or failed. *)
Definition barren (answer : outcome json) : Prop :=
  match answer with
  | inl e => is_Exception e = true
  | inr data => no_standings data = true
  end.

(** A client none of whose calls is interrupted by a signal: each call
    returns an envelope or raises an instance of [Exception]. *)
Definition uninterrupted (fetcher : nat -> string -> outcome json) : Prop :=
  forall n endpoint e, fetcher n endpoint = inl e -> is_Exception e = true.

(** What one probe leaves in the accumulator. *)
Definition absorb (answer : outcome json) (recent_standings : list json)
  : list json :=
  match answer with
  | inr data =>
      match career.harvest data recent_standings with
      | inr grown => grown
      | inl _ => recent_standings
      end
  | inl _ => recent_standings
  end.

(** The accumulator after probing [years], the first of them by the
    [n]-th call. *)
Fixpoint gather (fetcher : nat -> string -> outcome json) (driver_id : string)
    (n : nat) (years : list Z) (recent_standings : list json) : list json :=
  match years with
  | [] => recent_standings
  | year :: rest =>
      gather fetcher driver_id (S n) rest
        (absorb (fetcher n (career.standings_endpoint year driver_id))
           recent_standings)
  end.

(** The ten years of the window, newest first. *)
Definition window (current_year : Z) : list Z :=
  map (fun i => current_year - Z.of_nat i) (seq 0 10).

(** An exception none of the first three [except] clauses of the client
    names, and which is an instance of [Exception]. *)
Definition unexpected (e : exn) : bool :=
  match e with
  | McpError _ _ => true
  | PyError _ _ => true
  | _ => false
  end.

(** An outcome that is a value or an instance of [Exception], never a
    signal. *)
Definition benign {A} (o : outcome A) : Prop :=
  forall e, o = inl e -> is_Exception e = true.

(** The calls that probe [years], the first of them the [n]-th call of the
    run, are not interrupted. *)
Definition probes_benign (fetcher : nat -> string -> outcome json)
    (driver_id : string) (n : nat) (years : list Z) : Prop :=
  forall i year,
    nth_error years i = Some year ->
    benign (fetcher (n + i)%nat (career.standings_endpoint year driver_id)).

(** What the [i]-th probe of the window does: the call for the year
    [current_year - i]. *)
Definition probe_answer (fetcher : nat -> string -> outcome json)
    (driver_id : string) (current_year : Z) (i : nat) : outcome json :=
  fetcher i (career.standings_endpoint (current_year - Z.of_nat i) driver_id).

(** None of the ten probes of the window is interrupted: each returns an
    envelope or raises an instance of [Exception]. *)
Definition probes_uninterrupted (fetcher : nat -> string -> outcome json)
    (driver_id : string) (current_year : Z) : Prop :=
  forall i, (i < 10)%nat ->
            benign (probe_answer fetcher driver_id current_year i).

(** A client interrupted at its first call, as when the task that awaits
    it is cancelled. *)
Definition cancelled_client : nat -> string -> outcome json :=
  always (raise (PySignal CancelledError "")).

(** *** The text of a race analysis, part by part *)

Definition analysis_header (race : ergast.Race) (year : Z) : string :=
  "🏁 **" ++ ergast.raceName race ++ " - " ++ string_of_Z year
  ++ " Race Analysis**" ++ LF ++ LF
  ++ "**Circuit:** " ++ ergast.circuitName (ergast.circuit race) ++ LF
  ++ "**Location:** "
  ++ ergast.locality (ergast.location (ergast.circuit race)) ++ ", "
  ++ ergast.country (ergast.location (ergast.circuit race)) ++ LF
  ++ "**Date:** " ++ ergast.date race ++ LF
  ++ "🏁 **Round:** " ++ ergast.round race ++ LF ++ LF.

(** Who finished, for which team. *)
Definition finisher (r : ergast.Result) : string :=
  ergast.givenName (ergast.driver r) ++ " "
  ++ ergast.familyName (ergast.driver r)
  ++ " (" ++ ergast.name (ergast.constructor r) ++ ")".

Definition shown_points (r : ergast.Result) : string :=
  match ergast.points r with
  | Some p => p
  | None => "0"
  end.

Definition shown_time_status (r : ergast.Result) : string :=
  match ergast.time r, ergast.status r with
  | Some t, _ => "(" ++ t ++ ")"
  | None, Some st => "(" ++ st ++ ")"
  | None, None => ""
  end.

Definition fastest_lap_text (r : ergast.Result) : string :=
  match ergast.fastest_lap r with
  | Some f =>
      "**⚡ Fastest Lap:** "
      ++ match ergast.lap_time f with Some t => t | None => "N/A" end
      ++ " (Lap "
      ++ match ergast.lap f with Some l => l | None => "N/A" end
      ++ ")" ++ LF
  | None => ""
  end.

(** A client that serves [race_data] first and then fails. *)
Definition results_then_failure (race_data : json) (e : exn)
  : nat -> string -> outcome json :=
  fun n _ => match n with O => ok race_data | S _ => raise e end.

(** A client that serves [race_data] first and [quali_data] afterwards. *)
Definition results_then (race_data quali_data : json)
  : nat -> string -> outcome json :=
  fun n _ => match n with O => ok race_data | S _ => ok quali_data end.

(** *** Envelopes without their container *)

(** [data] is empty, or has no [MRData], or its [MRData] has no [table]. *)
Definition missing_container (table : string) (data : json) : bool :=
  match data with
  | JDict kvs =>
      match lookup "MRData" kvs with
      | None => true
      | Some (JDict mr_data) =>
          match lookup table mr_data with
          | None => true
          | Some _ => false
          end
      | Some _ => false
      end
  | _ => negb (truthy data)
  end.

(** [data] is empty or has no [MRData]. *)
Definition missing_mrdata (data : json) : bool :=
  match data with
  | JDict kvs =>
      match lookup "MRData" kvs with
      | None => true
      | Some _ => false
      end
  | _ => negb (truthy data)
  end.

(** *** The tallies of a career, result by result *)

(** The position a result finished in, when its field is numeric. *)
Definition finish_of {RT : PyRuntime} (r : ergast.Result) : option Z :=
  match ergast.position r with
  | Some p => if String.eqb p "N/A" then None else int_of_text p
  | None => None
  end.

(** The field is absent, or is the placeholder the scan puts in its place. *)
Definition position_unknown (r : ergast.Result) : bool :=
  match ergast.position r with
  | Some p => String.eqb p "N/A"
  | None => true
  end.

Definition is_win {RT : PyRuntime} (r : ergast.Result) : bool :=
  match finish_of r with
  | Some n => n =? 1
  | None => false
  end.

Definition is_podium {RT : PyRuntime} (r : ergast.Result) : bool :=
  match finish_of r with
  | Some n => n <=? 3
  | None => false
  end.

Definition points_of {RT : PyRuntime} (r : ergast.Result) : Z :=
  match ergast.points r with
  | Some p => match int_of_text p with Some n => n | None => 0 end
  | None => 0
  end.

Definition count (f : ergast.Result -> bool) (rs : list ergast.Result) : Z :=
  Z.of_nat (List.length (filter f rs)).

Definition total_points {RT : PyRuntime} (rs : list ergast.Result) : Z :=
  fold_right Z.add 0 (map points_of rs).

(** Every result of every race, in order. *)
Definition all_results (races : list ergast.Race) : list ergast.Result :=
  flat_map ergast.results races.

(** The text a formatter answers with, given what its body did. *)
Definition answered (prefix : string) (o : outcome string) : string :=
  match o with
  | inr text => text
  | inl e => prefix ++ str_exn e
  end.

(** The tallies after one more result. *)
Definition tally {RT : PyRuntime} (st : driver_tools.stats)
    (r : ergast.Result)
  : driver_tools.stats :=
  driver_tools.mkStats
    (driver_tools.wins st + if is_win r then 1 else 0)
    (driver_tools.podiums st + if is_podium r then 1 else 0)
    (driver_tools.points_total st + points_of r)
    (driver_tools.dnfs st + if position_unknown r then 1 else 0).

(** *** Clients for the examples *)

(** A year's envelope with one standings entry, and one with none. *)
Definition season_standings (season : string) : json :=
  career.envelope [JDict [("season", JStr season)]].

Definition empty_standings : json := career.envelope [].

Definition timed_out : exn :=
  McpError (mkErrorData INTERNAL_ERROR "Jolpica F1 API network error: timed out")
    (Some (RequestError "timed out")).

(** Standings in the second, fourth and seventh year probed; two probes
    fail; the others are empty. *)
Definition three_seasons_client : nat -> string -> outcome json :=
  fun n _ =>
    match n with
    | 1%nat => ok (season_standings "2024")
    | 3%nat => ok (season_standings "2022")
    | 6%nat => ok (season_standings "2019")
    | 4%nat => raise timed_out
    | 8%nat => raise timed_out
    | _ => ok empty_standings
    end.

(** [e.__context__]. *)
Definition exn_context (e : exn) : option exn :=
  match e with
  | McpError _ context => context
  | _ => None
  end.

(** [isinstance(e.__context__, httpx.HTTPStatusError)]: a test on what the
    client raised that reads no message. *)
Definition raised_from_status (e : exn) : bool :=
  match exn_context e with
  | Some (HTTPStatusError _ _ _) => true
  | _ => false
  end.

(** The HTTP clients of the four kinds of failure. *)
Definition not_found_client : string -> outcome api_client.response :=
  fun _ => ok (api_client.mkResponse 404 "Not Found" (ok JNull)).

Definition garbled_client : string -> outcome api_client.response :=
  fun _ => ok (api_client.mkResponse 200 "<html>"
                 (raise (JSONDecodeError "Expecting value: line 1 column 1 (char 0)"))).

Definition unreachable_client : string -> outcome api_client.response :=
  fun _ => raise (RequestError "All connection attempts failed").

Definition odd_envelope_client : string -> outcome api_client.response :=
  fun _ => ok (api_client.mkResponse 200 "{}"
                 (ok (JDict [("MRData", JInt 5)]))).

(** A 2xx response whose body, the bytes of "[1, " followed by 0xFF and
    "]", is not UTF-8: [response.json()] raises [UnicodeDecodeError], and
    the text of the response has U+FFFD in the place of the byte. *)
Definition mojibake : api_client.response :=
  api_client.mkResponse 200 "[1, �]"
    (raise (PyError UnicodeDecodeError
              "'utf-8' codec can't decode byte 0xff in position 4: invalid start byte")).

Definition mojibake_client : string -> outcome api_client.response :=
  fun _ => ok mojibake.

(** A race whose only result has the position text "R". *)
Definition retired_race : ergast.Race :=
  ergast.mkRace "Monaco Grand Prix" "5" "2021-05-23"
    (ergast.mkCircuit "Circuit de Monaco" (ergast.mkLocation "Monte-Carlo" "Monaco"))
    [ergast.mkResult (Some "R") (ergast.mkDriver "Charles" "Leclerc")
       (ergast.mkConstructor "Ferrari") (Some "0") None (Some "Driveshaft") None].

(* ------------------------------------------------------------------ *)
(** ** Further vocabulary *)

(** The [MRData] of an envelope, when the envelope is an object that has
    one. *)
Definition mrdata_of (json_data : json) : option json :=
  match json_data with
  | JDict kvs => lookup "MRData" kvs
  | _ => None
  end.

(** [None], a [bool] or a number: the values [in] is not defined on. *)
Definition is_scalar (v : json) : bool :=
  match v with
  | JNull | JBool _ | JInt _ | JFloat _ => true
  | _ => false
  end.

Definition is_object (v : json) : bool :=
  match v with
  | JDict _ => true
  | _ => false
  end.

(** The client of the handlers, over the HTTP client it awaits: the
    [n]-th call of a run goes through [client_get n]. *)
Definition http_fetcher (client_get : nat -> string -> outcome api_client.response)
    (base_url : string) : nat -> string -> outcome json :=
  fun n endpoint => api_client.make_jolpica_request (client_get n) base_url endpoint.

(** A client that answers 404 to everything. *)
Definition all_not_found : nat -> string -> outcome api_client.response :=
  fun _ => not_found_client.

(** The text [format_race_datetime] hands to [datetime.fromisoformat] for a
    date and a time that are both text. *)
Definition iso_text (date_str time_str : string) : string :=
  replace_char "Z" "+00:00"
    (if (endswith_char "Z" time_str || is_substring "+" time_str
         || is_substring "-" time_str)%bool
     then date_str ++ "T" ++ time_str
     else date_str ++ "T" ++ time_str ++ "+00:00").

(** *** The race analysis, for any number of results *)

Definition has_position (r : ergast.Result) : bool :=
  match ergast.position r with
  | Some _ => true
  | None => false
  end.

(** One line of the results block. *)
Definition analysis_line (r : ergast.Result) : string :=
  "P" ++ match ergast.position r with Some p => p | None => "" end
  ++ ": " ++ finisher r ++ " - " ++ shown_points r ++ " pts "
  ++ shown_time_status r ++ LF.

Definition analysis_lines (rs : list ergast.Result) : string :=
  fold_right append "" (map analysis_line rs).

(** The lines about the first result of the list. *)
Definition winner_text (rs : list ergast.Result) : string :=
  match rs with
  | winner :: _ =>
      "**🏆 Race Winner:** " ++ finisher winner ++ LF
      ++ fastest_lap_text winner
  | [] => ""
  end.

(** *** Qualifying sessions of the upstream API *)

Module qualifying.

Record Entry : Type := mkEntry {
  position : option string;
  driver : ergast.Driver;
  constructor : ergast.Constructor;
  q1 : option string;
  q2 : option string;
  q3 : option string
}.

Definition entry_json (e : Entry) : json :=
  JDict (ergast.field "position" JStr (position e)
         ++ [("Driver", ergast.driver_json (driver e));
             ("Constructor", ergast.constructor_json (constructor e))]
         ++ ergast.field "Q1" JStr (q1 e)
         ++ ergast.field "Q2" JStr (q2 e)
         ++ ergast.field "Q3" JStr (q3 e))%list.

(** A race of the qualifying endpoint: the race itself and its
    [QualifyingResults]. *)
Definition session_json (race : ergast.Race) (entries : list Entry) : json :=
  JDict [("round", JStr (ergast.round race));
         ("raceName", JStr (ergast.raceName race));
         ("Circuit", ergast.circuit_json (ergast.circuit race));
         ("date", JStr (ergast.date race));
         ("QualifyingResults", JList (map entry_json entries))].

Definition table_json (sessions : list json) : json :=
  JDict [("MRData", JDict [("RaceTable", JDict [("Races", JList sessions)])])].

(** The time of the last session the driver took part in. *)
Definition best_time (e : Entry) : string :=
  match q3 e, q2 e, q1 e with
  | Some t, _, _ => t
  | None, Some t, _ => t
  | None, None, Some t => t
  | None, None, None => "N/A"
  end.

Definition who (e : Entry) : string :=
  ergast.givenName (driver e) ++ " " ++ ergast.familyName (driver e)
  ++ " (" ++ ergast.name (constructor e) ++ ")".

(** The lines of the qualifying block, numbered from [start]. *)
Fixpoint numbered_lines (start : Z) (entries : list Entry) : string :=
  match entries with
  | [] => ""
  | e :: rest =>
      "P" ++ string_of_Z start ++ ": " ++ who e ++ " - " ++ best_time e ++ LF
      ++ numbered_lines (start + 1) rest
  end.

End qualifying.

(** A race of twelve classified cars whose eleventh entry came without a
    position. *)
Definition car (position : option string) (family : string) : ergast.Result :=
  ergast.mkResult position (ergast.mkDriver "A." family)
    (ergast.mkConstructor "Team") (Some "1") None (Some "Finished") None.

Definition crowded_race : ergast.Race :=
  ergast.mkRace "Bahrain Grand Prix" "1" "2021-03-28"
    (ergast.mkCircuit "Bahrain International Circuit"
       (ergast.mkLocation "Sakhir" "Bahrain"))
    [car (Some "1") "One"; car (Some "2") "Two"; car (Some "3") "Three";
     car (Some "4") "Four"; car (Some "5") "Five"; car (Some "6") "Six";
     car (Some "7") "Seven"; car (Some "8") "Eight"; car (Some "9") "Nine";
     car (Some "10") "Ten"; car None "Eleven"; car (Some "12") "Twelve"].

(** The same race, its third entry without a position. *)
Definition broken_race : ergast.Race :=
  ergast.mkRace "Bahrain Grand Prix" "1" "2021-03-28"
    (ergast.mkCircuit "Bahrain International Circuit"
       (ergast.mkLocation "Sakhir" "Bahrain"))
    [car (Some "1") "One"; car (Some "2") "Two"; car None "Three"].

(** *** The latest race, for any number of results *)

Section LatestRace.
Context {RT : PyRuntime}.

(** The date of a race that came without a time. *)
Definition shown_date (race : ergast.Race) : string :=
  match ergast.date race with
  | EmptyString => "TBD"
  | date =>
      match fromisoformat date with
      | Some dt => strftime dt "%B %d, %Y"
      | None => date
      end
  end.

Definition latest_header (race : ergast.Race) : string :=
  "🏁 **Latest Race Results**" ++ LF
  ++ "**" ++ ergast.raceName race ++ "** (Round " ++ ergast.round race ++ ")"
  ++ LF
  ++ "Location: " ++ ergast.locality (ergast.location (ergast.circuit race))
  ++ ", " ++ ergast.country (ergast.location (ergast.circuit race)) ++ LF
  ++ "Circuit: " ++ ergast.circuitName (ergast.circuit race) ++ LF
  ++ "Date: " ++ shown_date race ++ LF ++ LF.

(** The block of one finisher. *)
Definition position_text (r : ergast.Result) : string :=
  "**P" ++ match ergast.position r with Some p => p | None => "" end
  ++ ": " ++ ergast.givenName (ergast.driver r) ++ " "
  ++ ergast.familyName (ergast.driver r) ++ "** ("
  ++ ergast.name (ergast.constructor r) ++ ")" ++ LF
  ++ match ergast.time r, ergast.status r with
     | Some t, _ => "   Time: " ++ t ++ LF
     | None, Some st => "   Status: " ++ st ++ LF
     | None, None => ""
     end
  ++ match ergast.points r with
     | Some p => "   Points: " ++ p ++ LF
     | None => ""
     end
  ++ LF.

Definition position_texts (rs : list ergast.Result) : string :=
  fold_right append "" (map position_text rs).

End LatestRace.

(** Eleven classified cars, the last one without time, status or points. *)
Definition full_race : ergast.Race :=
  ergast.mkRace "Bahrain Grand Prix" "1" "2021-03-28"
    (ergast.mkCircuit "Bahrain International Circuit"
       (ergast.mkLocation "Sakhir" "Bahrain"))
    [car (Some "1") "One"; car (Some "2") "Two"; car (Some "3") "Three";
     car (Some "4") "Four"; car (Some "5") "Five"; car (Some "6") "Six";
     car (Some "7") "Seven"; car (Some "8") "Eight"; car (Some "9") "Nine";
     car (Some "10") "Ten";
     ergast.mkResult (Some "11") (ergast.mkDriver "A." "Eleven")
       (ergast.mkConstructor "Team") None None None None].

(** *** What the career scan keeps and what it lets out *)

(** No more wins than podiums, and no tally below zero. *)
Definition ordered (st : driver_tools.stats) : Prop :=
  0 <= driver_tools.wins st <= driver_tools.podiums st
  /\ 0 <= driver_tools.dnfs st.

(** The classes the handlers of the scan do not name. *)
Definition escapes (e : exn) : bool :=
  match e with
  | PyError TypeError _ | PyError AttributeError _ | PyError OverflowError _ =>
      true
  | _ => false
  end.

Definition narrow {A} (o : outcome A) : Prop :=
  forall e, o = inl e -> escapes e = true.

(** *** The two scans of race results *)

(** The envelope of the results endpoint around [races]. *)
Definition results_envelope (races : json) : json :=
  JDict [("MRData", JDict [("RaceTable", JDict [("Races", races)])])].

(** The tallies [calculate_stats] shares with [get_driver_profile]. *)
Definition profile_tallies (st : comparison.stats) : driver_tools.stats :=
  driver_tools.mkStats (comparison.wins st) (comparison.podiums st)
    (comparison.points st) (comparison.dnfs st).

(** The two scans did the same: they raised the same exception, or they
    returned the same tallies. *)
Definition agree (o : outcome comparison.stats) (o' : outcome driver_tools.stats)
  : Prop :=
  match o, o' with
  | inr st, inr t => profile_tallies st = t
  | inl e, inl e' => e = e'
  | _, _ => False
  end.

(** The fastest lap of the result is ranked first. *)
Definition lap_ranked_first (entry : json) : bool :=
  match entry with
  | JDict kvs =>
      match lookup "FastestLap" kvs with
      | Some (JDict lap) =>
          match lookup "rank" lap with
          | Some rank => eq_str rank "1"
          | None => false
          end
      | _ => false
      end
  | _ => false
  end.

(** What holds of the statistics at every point of [calculate_stats]. *)
Definition sound (st : comparison.stats) : Prop :=
  comparison.poles st = 0
  /\ 0 <= comparison.races st
  /\ 0 <= comparison.wins st <= comparison.podiums st
  /\ 0 <= comparison.dnfs st
  /\ 0 <= comparison.fastest_laps st
  /\ 0 <= comparison.championships st
  /\ comparison.best_championship_pos st <= 99
  /\ (0 < comparison.championships st ->
      comparison.best_championship_pos st <= 1).

(** A season of the standings with the driver in [position]. *)
Definition season_json (season position : string) : json :=
  JDict [("season", JStr season);
         ("DriverStandings", JList [JDict [("position", JStr position)]])].

(** *** Standings of the upstream API *)

Module standings.

Record DriverStanding : Type := mkDriverStanding {
  position : string;
  points : string;
  wins : string;
  driver : ergast.Driver;
  nationality : string;
  constructors : list ergast.Constructor
}.

Record ConstructorStanding : Type := mkConstructorStanding {
  team_position : string;
  team_points : string;
  team_wins : string;
  team_name : string;
  team_nationality : string
}.

Definition driver_standing_json (s : DriverStanding) : json :=
  JDict [("position", JStr (position s));
         ("points", JStr (points s));
         ("wins", JStr (wins s));
         ("Driver",
          JDict [("givenName", JStr (ergast.givenName (driver s)));
                 ("familyName", JStr (ergast.familyName (driver s)));
                 ("nationality", JStr (nationality s))]);
         ("Constructors", JList (map ergast.constructor_json (constructors s)))].

Definition constructor_standing_json (s : ConstructorStanding) : json :=
  JDict [("position", JStr (team_position s));
         ("points", JStr (team_points s));
         ("wins", JStr (team_wins s));
         ("Constructor",
          JDict [("name", JStr (team_name s));
                 ("nationality", JStr (team_nationality s))])].

(** One element of [StandingsLists]. *)
Definition drivers_json (season : string) (entries : list DriverStanding)
  : json :=
  JDict [("season", JStr season);
         ("DriverStandings", JList (map driver_standing_json entries))].

Definition constructors_json (season : string)
    (entries : list ConstructorStanding) : json :=
  JDict [("season", JStr season);
         ("ConstructorStandings",
          JList (map constructor_standing_json entries))].

Definition table_json (season : string) (lists : list json) : json :=
  JDict [("MRData",
          JDict [("StandingsTable",
                  JDict [("season", JStr season);
                         ("StandingsLists", JList lists)])])].

(** The team shown for a driver: the first of the season, if any. *)
Definition team (s : DriverStanding) : string :=
  match constructors s with
  | c :: _ => ergast.name c
  | [] => "Unknown"
  end.

Definition driver_text (s : DriverStanding) : string :=
  "**P" ++ position s ++ ": " ++ ergast.givenName (driver s) ++ " "
  ++ ergast.familyName (driver s) ++ "**" ++ LF
  ++ "Team: " ++ team s ++ LF
  ++ "Points: " ++ points s ++ " | Wins: " ++ wins s ++ LF
  ++ "Nationality: " ++ nationality s ++ LF ++ LF.

Definition constructor_text (s : ConstructorStanding) : string :=
  "**P" ++ team_position s ++ ": " ++ team_name s ++ "**" ++ LF
  ++ "Nationality: " ++ team_nationality s ++ LF
  ++ "Points: " ++ team_points s ++ " | Wins: " ++ team_wins s ++ LF ++ LF.

Definition texts {A} (text : A -> string) (entries : list A) : string :=
  fold_right append "" (map text entries).

End standings.

(** *** The calendar of a season *)

(** The envelope of the schedule endpoint. *)
Definition schedule_json (season : string) (races : list ergast.Race) : json :=
  JDict [("MRData",
          JDict [("RaceTable",
                  JDict [("season", JStr season);
                         ("Races", JList (map ergast.race_json races))])])].

Definition calendar_line (race : ergast.Race) : string :=
  "R" ++ ergast.round race ++ ": " ++ ergast.raceName race ++ " - "
  ++ ergast.locality (ergast.location (ergast.circuit race))
  ++ " (" ++ ergast.date race ++ ")" ++ LF.

Definition calendar_lines (races : list ergast.Race) : string :=
  fold_right append "" (map calendar_line races).

(** A season with a driver between two teams and one without a team. *)
Definition season_2021 : list standings.DriverStanding :=
  [standings.mkDriverStanding "1" "395.5" "10"
     (ergast.mkDriver "Max" "Verstappen") "Dutch"
     [ergast.mkConstructor "Red Bull"];
   standings.mkDriverStanding "15" "16" "0"
     (ergast.mkDriver "George" "Russell") "British"
     [ergast.mkConstructor "Williams"; ergast.mkConstructor "Mercedes"];
   standings.mkDriverStanding "21" "0" "0"
     (ergast.mkDriver "Robert" "Kubica") "Polish" []].

Definition teams_2021 : list standings.ConstructorStanding :=
  [standings.mkConstructorStanding "1" "613.5" "9" "Mercedes" "German";
   standings.mkConstructorStanding "2" "585.5" "11" "Red Bull" "Austrian"].

(** *** The seasons, by decade *)

Definition season_of (year : Z) : json :=
  JDict [("season", JStr (string_of_Z year))].

(** The envelope of the seasons endpoint. *)
Definition seasons_json (years : list Z) : json :=
  JDict [("MRData",
          JDict [("SeasonTable", JDict [("Seasons", JList (map season_of years))])])].

Definition decade_of (year : Z) : Z := (year / 10) * 10.

(** [int] reads the numeral of the year back: [int(str(year)) == year]. *)
Definition reads_back {RT : PyRuntime} (year : Z) : bool :=
  match int_of_text (string_of_Z year) with
  | Some n => n =? year
  | None => false
  end.

(** The distinct elements, each at its first occurrence. *)
Definition first_occurrences (xs : list Z) : list Z :=
  fold_left (fun seen x =>
               if existsb (fun k => k =? x) seen then seen
               else (seen ++ [x])%list) xs [].

Definition years_of (decade : Z) (years : list Z) : list Z :=
  filter (fun y => decade_of y =? decade) years.

Definition decade_text (years : list Z) (decade : Z) : string :=
  "**" ++ string_of_Z decade ++ "s:** "
  ++ String.concat ", " (map string_of_Z (sorted (years_of decade years)))
  ++ LF.

Definition decades_text (years : list Z) : string :=
  fold_right append ""
    (map (decade_text years) (sorted (first_occurrences (map decade_of years)))).

(** The years recorded under a decade. *)
Definition members (decade : Z) (decades : list (Z * list Z)) : list Z :=
  match lookup_int decade decades with
  | Some years => years
  | None => []
  end.

(** The grouping loop, on years. *)
Definition grouped (years : list Z) (decades : list (Z * list Z))
  : list (Z * list Z) :=
  fold_left (fun acc y => historical_tools.record_year (decade_of y) y acc)
    years decades.

(** *** The starting grid *)

(** The position of an entry, read as an integer. *)
Definition rank {RT : PyRuntime} (e : qualifying.Entry) : Z :=
  match qualifying.position e with
  | Some p => match int_of_text p with Some n => n | None => 0 end
  | None => 0
  end.

(** The entry has a position, and it reads as an integer. *)
Definition placed {RT : PyRuntime} (e : qualifying.Entry) : bool :=
  match qualifying.position e with
  | Some p => match int_of_text p with Some _ => true | None => false end
  | None => false
  end.

(** The last session the driver set a time in. *)
Definition in_q3 (e : qualifying.Entry) : bool :=
  match qualifying.q3 e with Some _ => true | None => false end.

Definition in_q2 (e : qualifying.Entry) : bool :=
  match qualifying.q3 e, qualifying.q2 e with
  | None, Some _ => true
  | _, _ => false
  end.

Definition in_q1 (e : qualifying.Entry) : bool :=
  match qualifying.q3 e, qualifying.q2 e, qualifying.q1 e with
  | None, None, Some _ => true
  | _, _, _ => false
  end.

(** The driver set a time in some session. *)
Definition timed (e : qualifying.Entry) : bool :=
  match qualifying.q3 e, qualifying.q2 e, qualifying.q1 e with
  | None, None, None => false
  | _, _, _ => true
  end.

Definition session_of (e : qualifying.Entry) : string :=
  if in_q3 e then "Q3" else if in_q2 e then "Q2" else "Q1".

(** The tuple the loop keeps of an entry. *)
Definition classified_of (e : qualifying.Entry) : grid.classified :=
  grid.mkClassified
    (JStr (match qualifying.position e with Some p => p | None => "" end))
    (ergast.driver_json (qualifying.driver e))
    (ergast.constructor_json (qualifying.constructor e))
    (JStr (qualifying.best_time e))
    (session_of e).

(** The three lists of the loop, one after the other. *)
Definition by_session (entries : list qualifying.Entry)
  : list qualifying.Entry :=
  (filter in_q3 entries ++ filter in_q2 entries ++ filter in_q1 entries)%list.

Definition starting_grid {RT : PyRuntime} (entries : list qualifying.Entry)
  : list qualifying.Entry :=
  sorted_by rank (by_session entries).

Definition grid_text (e : qualifying.Entry) : string :=
  "P" ++ match qualifying.position e with Some p => p | None => "" end
  ++ ": " ++ grid.session_indicator (session_of e) ++ " " ++ qualifying.who e
  ++ " - " ++ qualifying.best_time e ++ LF.

Definition pole_line (e : qualifying.Entry) : string :=
  "**🏆 POLE POSITION:** " ++ qualifying.who e ++ " - "
  ++ qualifying.best_time e ++ LF.

Definition pole_text {RT : PyRuntime} (entries : list qualifying.Entry)
  : string :=
  match filter in_q3 entries with
  | [] => ""
  | first :: others => pole_line (min_by rank first others)
  end.

Definition grid_header (race : ergast.Race) : string :=
  "⏱️ **" ++ ergast.raceName race ++ " - Qualifying Results**" ++ LF ++ LF
  ++ "**Circuit:** " ++ ergast.circuitName (ergast.circuit race) ++ LF
  ++ "📅 **Date:** " ++ ergast.date race ++ LF ++ LF
  ++ "**🏁 STARTING GRID:**" ++ LF.

Definition grid_legend : string :=
  "🏆 Q3 (Top 10) | ⚡ Q2 (P11-15) | 📊 Q1 (P16-20)".

(** The three lists after one more entry. *)
Definition classify_entry (st : grid.sessions) (e : qualifying.Entry)
  : grid.sessions :=
  if in_q3 e then
    grid.mkSessions (grid.q3_drivers st ++ [classified_of e])%list
      (grid.q2_drivers st) (grid.q1_drivers st)
  else if in_q2 e then
    grid.mkSessions (grid.q3_drivers st)
      (grid.q2_drivers st ++ [classified_of e])%list (grid.q1_drivers st)
  else if in_q1 e then
    grid.mkSessions (grid.q3_drivers st) (grid.q2_drivers st)
      (grid.q1_drivers st ++ [classified_of e])%list
  else st.

(** A session of five: two in Q3, one out in Q2, one out in Q1, and one
    without a time. *)
Definition wet_session : list qualifying.Entry :=
  [qualifying.mkEntry (Some "4") (ergast.mkDriver "Lando" "Norris")
     (ergast.mkConstructor "McLaren") (Some "1:31.0") None None;
   qualifying.mkEntry (Some "2") (ergast.mkDriver "Lewis" "Hamilton")
     (ergast.mkConstructor "Mercedes") (Some "1:30.5") (Some "1:30.1")
     (Some "1:29.4");
   qualifying.mkEntry (Some "3") (ergast.mkDriver "Carlos" "Sainz")
     (ergast.mkConstructor "Ferrari") (Some "1:30.9") (Some "1:30.4") None;
   qualifying.mkEntry (Some "5") (ergast.mkDriver "Mick" "Schumacher")
     (ergast.mkConstructor "Haas") None None None;
   qualifying.mkEntry (Some "1") (ergast.mkDriver "Max" "Verstappen")
     (ergast.mkConstructor "Red Bull") (Some "1:30.4") (Some "1:30.0")
     (Some "1:28.9")].

(** *** Sprint races *)

(** A race of the sprint endpoint: the race and its [SprintResults]. *)
Definition sprint_json (race : ergast.Race) : json :=
  JDict [("round", JStr (ergast.round race));
         ("raceName", JStr (ergast.raceName race));
         ("Circuit", ergast.circuit_json (ergast.circuit race));
         ("date", JStr (ergast.date race));
         ("SprintResults", JList (map ergast.result_json (ergast.results race)))].

Definition sprint_table_json (races : list ergast.Race) : json :=
  JDict [("MRData",
          JDict [("RaceTable", JDict [("Races", JList (map sprint_json races))])])].

Definition sprint_header (race : ergast.Race) : string :=
  "**" ++ ergast.raceName race ++ " - Sprint Results**" ++ LF ++ LF
  ++ "**Circuit:** " ++ ergast.circuitName (ergast.circuit race) ++ LF
  ++ "**Location:** "
  ++ ergast.locality (ergast.location (ergast.circuit race)) ++ ", "
  ++ ergast.country (ergast.location (ergast.circuit race)) ++ LF
  ++ "**Date:** " ++ ergast.date race ++ LF ++ LF
  ++ "**SPRINT RACE RESULTS:**" ++ LF.

(* ================================================================== *)
(** * Part II. Properties *)
(* ================================================================== *)

(** ** Text *)

Lemma lstrip_slashes (n : nat) (s : string) :
  lstrip "/" (slashes n ++ s) = lstrip "/" s.
Proof.
  induction n as [|n IH]; simpl; auto.
Qed.

Lemma lstrip_fixed (s : string) :
  starts_with_slash s = false -> lstrip "/" s = s.
Proof.
  destruct s as [|a s]; simpl; auto.
  intros ->. reflexivity.
Qed.

Lemma lstrip_decompose (s : string) :
  exists n, s = slashes n ++ lstrip "/" s
            /\ starts_with_slash (lstrip "/" s) = false.
Proof.
  induction s as [|a s [n [Heq Hfree]]].
  - exists O. split; reflexivity.
  - simpl. destruct (Ascii.eqb a "/") eqn:Ha.
    + apply Ascii.eqb_eq in Ha. subst a.
      exists (S n). simpl. split; [f_equal; exact Heq | exact Hfree].
    + exists O. simpl. rewrite Ha. split; reflexivity.
Qed.

Lemma prefix_nil (t : string) : String.prefix "" t = true.
Proof.
  destruct t; reflexivity.
Qed.

Lemma prefix_app (s t : string) : String.prefix s (s ++ t) = true.
Proof.
  induction s as [|a s IH]; simpl.
  - apply prefix_nil.
  - destruct (ascii_dec a a) as [_|Hne]; [exact IH | contradiction].
Qed.

Lemma is_substring_unfold (needle haystack : string) :
  is_substring needle haystack
  = (String.prefix needle haystack
     || match haystack with
        | EmptyString => false
        | String _ rest => is_substring needle rest
        end)%bool.
Proof.
  destruct haystack; reflexivity.
Qed.

Lemma is_substring_here (s t : string) : is_substring s (s ++ t) = true.
Proof.
  rewrite is_substring_unfold, prefix_app. reflexivity.
Qed.

Lemma is_substring_app (a s t : string) : is_substring s (a ++ s ++ t) = true.
Proof.
  induction a as [|c a IH]; simpl.
  - apply is_substring_here.
  - rewrite IH. apply orb_true_r.
Qed.

Lemma string_app_nil (s : string) : s ++ "" = s.
Proof. induction s; simpl; congruence. Qed.

Lemma is_substring_suffix (a s : string) : is_substring s (a ++ s) = true.
Proof.
  rewrite <- (string_app_nil s) at 2. apply is_substring_app.
Qed.

Lemma app_assoc_string (a b c : string) : (a ++ b) ++ c = a ++ (b ++ c).
Proof.
  induction a as [|x a IH]; simpl; [reflexivity | now rewrite IH].
Qed.

(** ** The request URL *)

(** C6.  The URL of a fragment is the base URL, one slash, the fragment
    without its leading slashes, and ".json": the fragment splits into
    leading slashes and a core that starts with none, its URL holds the
    core once, as it is, and whatever number of slashes is put before that
    core, the URL is the same. *)
Theorem request_url_leading_slashes (base_url fragment : string) :
  exists n core,
    fragment = slashes n ++ core
    /\ starts_with_slash core = false
    /\ api_client.request_url base_url fragment
       = base_url ++ "/" ++ core ++ ".json"
    /\ forall m,
         api_client.request_url base_url (slashes m ++ core)
         = api_client.request_url base_url fragment.
Proof.
  destruct (lstrip_decompose fragment) as [n [Heq Hfree]].
  exists n, (lstrip "/" fragment).
  split; [exact Heq|]. split; [exact Hfree|].
  split; [reflexivity|].
  intro m. unfold api_client.request_url.
  rewrite lstrip_slashes, lstrip_fixed by exact Hfree.
  reflexivity.
Qed.

(** ** The failures of the client *)

Section Fetcher.
Variable client_get : string -> outcome api_client.response.
Variables base_url endpoint : string.

Let url := api_client.request_url base_url endpoint.
Let body := api_client.request_body client_get base_url endpoint.
Let answer := api_client.make_jolpica_request client_get base_url endpoint.

(** Reading the kind off a message built from a literal prefix. *)
Ltac read_kind := cbn; rewrite prefix_nil; reflexivity.

Lemma answer_of_body_failure (e : exn) :
  body = inl e -> answer = inl (api_client.handle_failure e).
Proof.
  unfold answer, api_client.make_jolpica_request. fold body.
  intros ->. reflexivity.
Qed.

Lemma body_http_status (r : api_client.response) :
  client_get url = inr r -> api_client.is_success r = false ->
  body = inl (HTTPStatusError (api_client.status_code r) (api_client.text r)
                ("HTTP status " ++ string_of_Z (api_client.status_code r))).
Proof.
  intros Hget Hfail. unfold body, api_client.request_body. fold url.
  rewrite Hget. simpl. unfold api_client.raise_for_status.
  rewrite Hfail. reflexivity.
Qed.

Lemma body_decode (r : api_client.response) (e : exn) :
  client_get url = inr r -> api_client.is_success r = true ->
  api_client.parsed r = inl e -> body = inl e.
Proof.
  intros Hget Hok Hparse. unfold body, api_client.request_body. fold url.
  rewrite Hget. simpl. unfold api_client.raise_for_status.
  rewrite Hok. simpl. rewrite Hparse. reflexivity.
Qed.

Lemma body_transport (e : exn) : client_get url = inl e -> body = inl e.
Proof.
  intros Hget. unfold body, api_client.request_body. fold url.
  rewrite Hget. reflexivity.
Qed.

(** C4, as amended.  The client tells its failures apart by cause.  A
    response with status 400 or more fails with the HTTP-error kind and a
    message that holds the status code and the body text; a 2xx response
    whose body [response.json()] rejects with [json.JSONDecodeError] fails
    with the decode-error kind; a transport failure fails with the
    network-error kind; any other instance of [Exception] raised while the
    request is made and inspected fails with the unknown-error kind, and
    that includes a 2xx body that [response.json()] rejects with another
    exception than [json.JSONDecodeError]. *)
Theorem failures_classified_by_cause :
  (forall r,
      client_get url = inr r -> 400 <= api_client.status_code r ->
      exists e,
        answer = inl e
        /\ observed_kind e = Some api_client.HttpError
        /\ is_substring (string_of_Z (api_client.status_code r)) (str_exn e) = true
        /\ is_substring (api_client.text r) (str_exn e) = true)
  /\ (forall r m,
        client_get url = inr r -> api_client.is_success r = true ->
        api_client.parsed r = inl (JSONDecodeError m) ->
        exists e, answer = inl e /\ observed_kind e = Some api_client.DecodeError)
  /\ (forall m,
        client_get url = inl (RequestError m) ->
        exists e,
          answer = inl e
          /\ observed_kind e = Some api_client.NetworkError
          /\ is_substring m (str_exn e) = true)
  /\ (forall e0,
        body = inl e0 -> unexpected e0 = true ->
        exists e,
          answer = inl e
          /\ observed_kind e = Some api_client.UnknownError
          /\ is_substring (str_exn e0) (str_exn e) = true)
  /\ (forall r e0,
        client_get url = inr r -> api_client.is_success r = true ->
        api_client.parsed r = inl e0 -> unexpected e0 = true ->
        exists e,
          answer = inl e
          /\ observed_kind e = Some api_client.UnknownError
          /\ is_substring (str_exn e0) (str_exn e) = true).
Proof.
  assert (Hunknown :
            forall e0,
              body = inl e0 -> unexpected e0 = true ->
              exists e,
                answer = inl e
                /\ observed_kind e = Some api_client.UnknownError
                /\ is_substring (str_exn e0) (str_exn e) = true).
  { intros e0 Hbody Hunexpected.
    eexists. split.
    { apply answer_of_body_failure; eassumption. }
    destruct e0; try discriminate Hunexpected.
    + split; [read_kind|].
      cbn [api_client.handle_failure is_Exception api_client.failure_message
           snd message str_exn].
      apply is_substring_suffix.
    + split; [read_kind|].
      cbn [api_client.handle_failure is_Exception api_client.failure_message
           snd message str_exn].
      apply is_substring_suffix. }
  split; [|split; [|split; [|split]]];
    [| | |exact Hunknown
     |intros r e0 Hget Hok Hparse; apply Hunknown;
      eapply body_decode; eassumption].
  - intros r Hget Hstatus.
    assert (Hfail : api_client.is_success r = false).
    { unfold api_client.is_success. apply andb_false_iff. right.
      apply Z.leb_gt. lia. }
    eexists. split.
    { apply answer_of_body_failure, body_http_status; eassumption. }
    cbn [api_client.handle_failure is_Exception api_client.failure_message snd
         observed_kind message str_exn].
    repeat split.
    + rewrite (prefix_app "Jolpica F1 API HTTP error "). reflexivity.
    + apply (is_substring_app "Jolpica F1 API HTTP error ").
    + rewrite <- (app_assoc_string _ ": ").
      rewrite <- (app_assoc_string "Jolpica F1 API HTTP error ").
      apply is_substring_suffix.
  - intros r m Hget Hok Hparse.
    eexists. split.
    { eapply answer_of_body_failure, body_decode; eassumption. }
    read_kind.
  - intros m Hget.
    eexists. split.
    { apply answer_of_body_failure, body_transport; eassumption. }
    split; [read_kind|].
    cbn [api_client.handle_failure is_Exception api_client.failure_message snd
         message str_exn].
    apply is_substring_suffix.
Qed.

(** C5, as amended.  Whatever its kind, a failure of the client reaches
    the caller as an [McpError] whose code is [INTERNAL_ERROR] and whose
    message was built for one of the four kinds: class and code are the
    same for all kinds, and the message tells the kind.  The exception the
    client caught stays attached to it as its [__context__]. *)
Theorem failures_are_uniform (e : exn) :
  answer = inl e -> is_Exception e = true ->
  exists cause kind text,
    body = inl cause
    /\ api_client.failure_message cause = (kind, text)
    /\ e = McpError (mkErrorData INTERNAL_ERROR text) (Some cause)
    /\ observed_kind e = Some kind.
Proof.
  unfold answer, api_client.make_jolpica_request. fold body.
  destruct body as [cause|v] eqn:Hbody; [|discriminate].
  intros Heq Hexc. injection Heq as Heq. subst e.
  unfold api_client.handle_failure in *.
  destruct (is_Exception cause) eqn:Hcause; [|congruence].
  exists cause, (fst (api_client.failure_message cause)),
    (snd (api_client.failure_message cause)).
  split; [reflexivity|]. split; [apply surjective_pairing|].
  split; [reflexivity|].
  destruct cause; try discriminate Hcause;
    cbn [api_client.failure_message fst snd observed_kind message].
  - rewrite (prefix_app "Jolpica F1 API HTTP error "). reflexivity.
  - read_kind.
  - read_kind.
  - read_kind.
  - read_kind.
Qed.

End Fetcher.

(** ** Outcomes that raise no signal

    The operations on JSON values raise instances of [Exception] only, and
    so does every computation built from them. *)

Lemma benign_ok {A} (a : A) : benign (ok a).
Proof. intros e H. discriminate H. Qed.

Lemma benign_inr {A} (a : A) : benign (inr a : outcome A).
Proof. intros e H. discriminate H. Qed.

Lemma benign_error {A} (cls : error_class) (m : string) :
  benign (raise (PyError cls m) : outcome A).
Proof. intros e H. injection H as <-. reflexivity. Qed.

Lemma benign_bind {A B} (m : outcome A) (f : A -> outcome B) :
  benign m -> (forall a, benign (f a)) -> benign (bind_outcome m f).
Proof.
  intros Hm Hf. destruct m as [e|a]; simpl.
  - intros e' H. injection H as <-. apply Hm. reflexivity.
  - apply Hf.
Qed.

Lemma benign_contains (key : string) (v : json) : benign (py_contains key v).
Proof. destruct v; simpl; auto using benign_ok, @benign_error. Qed.

Lemma benign_getitem (v : json) (key : string) : benign (py_getitem v key).
Proof.
  destruct v; simpl; auto using benign_ok, @benign_error.
  destruct (lookup key items); auto using benign_ok, @benign_error.
Qed.

Lemma benign_get (v : json) (key : string) (d : json) : benign (py_get v key d).
Proof.
  destruct v; simpl; auto using benign_ok, @benign_error.
  destruct (lookup key items); apply benign_ok.
Qed.

Lemma benign_iter (v : json) : benign (py_iter v).
Proof. destruct v; simpl; auto using benign_ok, @benign_error. Qed.

Lemma benign_first (v : json) : benign (py_first v).
Proof.
  destruct v; simpl; auto using benign_ok, @benign_error.
  - destruct (py_chars s); auto using benign_ok, @benign_error.
  - destruct items; auto using benign_ok, @benign_error.
Qed.

Lemma benign_slice_to {RT : PyRuntime} (n : nat) (v : json) :
  benign (py_slice_to n v).
Proof. destruct v; simpl; auto using benign_ok, @benign_error. Qed.

Lemma benign_for_each {A B} (body : B -> A -> outcome B) (xs : list A) :
  (forall acc x, benign (body acc x)) -> forall acc, benign (for_each body xs acc).
Proof.
  intros Hbody. induction xs as [|x xs IH]; intro acc; simpl.
  - apply benign_ok.
  - apply benign_bind; [apply Hbody | exact IH].
Qed.

Create HintDb benign.
#[export] Hint Resolve benign_contains benign_getitem benign_get benign_iter
  benign_first benign_slice_to : benign.

(** Walks down a computation, one bind or branch at a time. *)
Ltac benign_cases :=
  repeat match goal with
         | |- benign (bind_outcome _ _) => apply benign_bind; [|intro]
         | |- benign (ok _) => apply benign_ok
         | |- benign (inr _) => apply benign_inr
         | |- benign (raise (PyError _ _)) => apply benign_error
         | |- benign (for_each _ _ _) => apply benign_for_each; intros
         | |- benign (match ?x with _ => _ end) => destruct x
         | |- benign _ => solve [auto with benign]
         end.

Lemma benign_harvest (data : json) (acc : list json) :
  benign (career.harvest data acc).
Proof.
  unfold career.harvest. benign_cases.
Qed.

(** ** Runs *)

Lemma run_bind {A B} (fetcher : nat -> string -> outcome json)
    (p : proc A) (f : A -> proc B) :
  forall n,
    run fetcher n (bind p f)
    = match run fetcher n p with
      | (inr a, asked) =>
          let '(r, asked') := run fetcher (n + List.length asked) (f a) in
          (r, (asked ++ asked')%list)
      | (inl e, asked) => (inl e, asked)
      end.
Proof.
  induction p as [a|e|endpoint k IH]; intro n; simpl.
  - rewrite Nat.add_0_r. destruct (run fetcher n (f a)); reflexivity.
  - reflexivity.
  - rewrite IH.
    destruct (run fetcher (S n) (k (fetcher n endpoint))) as [[e|a] asked]; simpl.
    + reflexivity.
    + rewrite Nat.add_succ_r.
      destruct (run fetcher (S (n + List.length asked)) (f a)); reflexivity.
Qed.

Lemma run_try_except {A} (fetcher : nat -> string -> outcome json)
    (p : proc A) (handler : exn -> proc A) :
  forall n,
    run fetcher n (try_except p handler)
    = match run fetcher n p with
      | (inr a, asked) => (inr a, asked)
      | (inl e, asked) =>
          if is_Exception e then
            let '(r, asked') := run fetcher (n + List.length asked) (handler e) in
            (r, (asked ++ asked')%list)
          else (inl e, asked)
      end.
Proof.
  induction p as [a|e|endpoint k IH]; intro n; simpl.
  - reflexivity.
  - destruct (is_Exception e); simpl; [|reflexivity].
    rewrite Nat.add_0_r. destruct (run fetcher n (handler e)); reflexivity.
  - rewrite IH.
    destruct (run fetcher (S n) (k (fetcher n endpoint))) as [[e|a] asked]; simpl.
    + destruct (is_Exception e); [|reflexivity].
      rewrite Nat.add_succ_r.
      destruct (run fetcher (S (n + List.length asked)) (handler e)); reflexivity.
    + reflexivity.
Qed.

(** ** The career standings aggregator *)

Section Aggregator.
Variable fetcher : nat -> string -> outcome json.
Variable driver_id : string.

Lemma run_probe (n : nat) (acc : list json) (year : Z) :
  benign (fetcher n (career.standings_endpoint year driver_id)) ->
  run fetcher n (career.probe driver_id acc year)
  = (inr (absorb (fetcher n (career.standings_endpoint year driver_id)) acc),
     [career.standings_endpoint year driver_id]).
Proof.
  intro Hbenign. unfold career.probe, request. simpl.
  destruct (fetcher n (career.standings_endpoint year driver_id))
    as [e|data] eqn:Hanswer; simpl.
  - rewrite (Hbenign e eq_refl). reflexivity.
  - destruct (career.harvest data acc) as [e|grown] eqn:Hharvest; simpl.
    + rewrite (benign_harvest _ _ _ Hharvest). reflexivity.
    + reflexivity.
Qed.

Lemma probes_benign_tail (n : nat) (year : Z) (rest : list Z) :
  probes_benign fetcher driver_id n (year :: rest) ->
  probes_benign fetcher driver_id (S n) rest.
Proof.
  intros H i y Hnth. replace (S n + i)%nat with (n + S i)%nat by lia.
  apply H. exact Hnth.
Qed.

Lemma run_scan (years : list Z) :
  forall n acc,
    probes_benign fetcher driver_id n years ->
    run fetcher n (career.scan driver_id years acc)
    = (inr (gather fetcher driver_id n years acc),
       map (fun year => career.standings_endpoint year driver_id) years).
Proof.
  induction years as [|year rest IH]; intros n acc Hbenign.
  - reflexivity.
  - cbn [career.scan gather map]. rewrite run_bind, run_probe.
    + cbn [List.length]. rewrite Nat.add_1_r, IH.
      * reflexivity.
      * eapply probes_benign_tail, Hbenign.
    + rewrite <- (Nat.add_0_r n). apply Hbenign. reflexivity.
Qed.

Lemma run_career (current_year : Z) :
  probes_benign fetcher driver_id 0
    (py_range current_year (current_year - 10) (-1)) ->
  run fetcher 0 (career.get_driver_career_standings current_year driver_id)
  = (inr (career.conclude
            (gather fetcher driver_id 0
               (py_range current_year (current_year - 10) (-1)) [])),
     map (fun year => career.standings_endpoint year driver_id)
       (py_range current_year (current_year - 10) (-1))).
Proof.
  intro Hbenign. unfold career.get_driver_career_standings.
  rewrite run_try_except, run_bind, run_scan by exact Hbenign. simpl.
  rewrite app_nil_r. reflexivity.
Qed.

Lemma uninterrupted_probes (n : nat) (years : list Z) :
  uninterrupted fetcher -> probes_benign fetcher driver_id n years.
Proof.
  intros H i year _ e Hanswer. eapply H, Hanswer.
Qed.

End Aggregator.

Lemma py_range_window (current_year : Z) :
  py_range current_year (current_year - 10) (-1) = window current_year.
Proof.
  unfold py_range, window. simpl (0 <? -1).
  replace ((current_year - (current_year - 10) - -1 - 1) / - -1) with 10.
  - apply map_ext. intro i. lia.
  - replace (current_year - (current_year - 10) - -1 - 1) with 10 by lia.
    reflexivity.
Qed.

(** *** The window and its endpoints *)

Lemma window_years (current_year : Z) :
  window current_year
  = [current_year; current_year - 1; current_year - 2; current_year - 3;
     current_year - 4; current_year - 5; current_year - 6; current_year - 7;
     current_year - 8; current_year - 9].
Proof.
  unfold window. simpl. f_equal. lia.
Qed.

Lemma string_of_Z_inj (a b : Z) : string_of_Z a = string_of_Z b -> a = b.
Proof.
  unfold string_of_Z. intro H. apply to_int_inj.
  assert (Hnonnil : forall z, Z.to_int z <> Pos Nil /\ Z.to_int z <> Neg Nil).
  { intros [|p|p]; simpl; split; try discriminate;
      intro Hx; injection Hx as Hx; exact (Unsigned.to_uint_nonnil _ Hx). }
  assert (Hsome : Some (Z.to_int a) = Some (Z.to_int b)).
  { rewrite <- (NilZero.isi (Z.to_int a)) by apply Hnonnil.
    rewrite <- (NilZero.isi (Z.to_int b)) by apply Hnonnil.
    now rewrite H. }
  now injection Hsome.
Qed.

Lemma length_append (a b : string) :
  String.length (a ++ b) = (String.length a + String.length b)%nat.
Proof.
  induction a as [|c a IH]; simpl; [reflexivity | now rewrite IH].
Qed.

Lemma append_inv_tail (a b t : string) : a ++ t = b ++ t -> a = b.
Proof.
  revert b. induction a as [|c a IH]; intros [|d b] H; simpl in H.
  - reflexivity.
  - apply (f_equal String.length) in H. simpl in H.
    rewrite length_append in H. lia.
  - apply (f_equal String.length) in H. simpl in H.
    rewrite length_append in H. lia.
  - injection H as -> H. f_equal. apply IH, H.
Qed.

Lemma standings_endpoint_inj (driver_id : string) (y y' : Z) :
  career.standings_endpoint y driver_id = career.standings_endpoint y' driver_id ->
  y = y'.
Proof.
  unfold career.standings_endpoint. intro H.
  apply string_of_Z_inj, (append_inv_tail _ _ _ H).
Qed.

Lemma window_endpoints_NoDup (driver_id : string) (current_year : Z) :
  NoDup (map (fun year => career.standings_endpoint year driver_id)
           (window current_year)).
Proof.
  unfold window. rewrite map_map.
  apply Injective_map_NoDup; [|apply seq_NoDup].
  intros i j H. apply standings_endpoint_inj in H. lia.
Qed.

(** *** What the probes leave behind *)

Lemma gather_window (fetcher : nat -> string -> outcome json)
    (driver_id : string) (current_year : Z) (len : nat) :
  forall start acc,
    gather fetcher driver_id start
      (map (fun i => current_year - Z.of_nat i) (seq start len)) acc
    = fold_left
        (fun acc i => absorb (probe_answer fetcher driver_id current_year i) acc)
        (seq start len) acc.
Proof.
  induction len as [|len IH]; intros start acc; simpl.
  - reflexivity.
  - rewrite IH. reflexivity.
Qed.

Lemma absorb_barren (answer : outcome json) (acc : list json) :
  barren answer -> absorb answer acc = acc.
Proof.
  destruct answer as [e|data]; simpl; [reflexivity|].
  intro H. unfold career.harvest.
  destruct data as [| | | | |xs|kvs]; try discriminate H.
  simpl in H. destruct kvs as [|kv kvs]; [reflexivity|].
  cbn [truthy py_contains bind_outcome ok].
  destruct (lookup "MRData" (kv :: kvs)) as [mr_data|] eqn:Hmr; [|reflexivity].
  cbn [py_getitem]. rewrite Hmr. cbn [bind_outcome ok].
  destruct mr_data as [| | | | |ys|mr]; try discriminate H.
  cbn [py_get].
  destruct (lookup "StandingsTable" mr) as [table|]; cbn [bind_outcome ok].
  - destruct table as [| | | | |zs|tb]; try discriminate H.
    cbn [py_get].
    destruct (lookup "StandingsLists" tb) as [lists|]; cbn [bind_outcome ok].
    + destruct lists as [| | | | |entries|]; try discriminate H.
      destruct entries; [reflexivity | discriminate H].
    + reflexivity.
  - reflexivity.
Qed.

Lemma absorb_found (answer : outcome json) (entries acc : list json) :
  found answer entries -> absorb answer acc = (acc ++ entries)%list.
Proof.
  intros [data [-> [Hlists Hnonempty]]]. simpl. unfold career.harvest.
  destruct data as [| | | | |xs|kvs]; try discriminate Hlists.
  simpl in Hlists.
  destruct (lookup "MRData" kvs) as [mr_data|] eqn:Hmr; [|discriminate].
  destruct mr_data as [| | | | |ys|mr]; try discriminate Hlists.
  destruct (lookup "StandingsTable" mr) as [table|] eqn:Htable; [|discriminate].
  destruct table as [| | | | |zs|tb]; try discriminate Hlists.
  destruct kvs as [|kv kvs]; [discriminate Hmr|].
  cbn [truthy py_contains bind_outcome ok py_getitem]. rewrite Hmr.
  cbn [bind_outcome ok py_get]. rewrite Htable.
  cbn [bind_outcome ok py_get]. rewrite Hlists.
  cbn [bind_outcome ok].
  destruct entries as [|x entries]; [contradiction|]. reflexivity.
Qed.

Lemma fold_barren (answer : nat -> outcome json) (len : nat) :
  forall start acc,
    (forall n, (start <= n < start + len)%nat -> barren (answer n)) ->
    fold_left (fun acc i => absorb (answer i) acc) (seq start len) acc = acc.
Proof.
  induction len as [|len IH]; intros start acc H; simpl.
  - reflexivity.
  - rewrite absorb_barren by (apply H; lia). apply IH.
    intros n Hn. apply H. lia.
Qed.

Lemma seq_split3 (i j k len : nat) :
  (i < j)%nat -> (j < k)%nat -> (k < len)%nat ->
  seq 0 len
  = (seq 0 i ++ i :: seq (S i) (j - S i) ++ j :: seq (S j) (k - S j)
     ++ k :: seq (S k) (len - S k))%list.
Proof.
  intros Hij Hjk Hk.
  replace len with (i + (1 + ((j - S i) + (1 + ((k - S j) + (1 + (len - S k)))))))%nat
    at 1 by lia.
  rewrite seq_app. f_equal. simpl. f_equal.
  rewrite seq_app. f_equal.
  replace (S i + (j - S i))%nat with j by lia. simpl. f_equal.
  rewrite seq_app. f_equal.
  replace (S j + (k - S j))%nat with k by lia. reflexivity.
Qed.

Lemma gathered_in_window (fetcher : nat -> string -> outcome json)
    (driver_id : string) (current_year : Z) :
  gather fetcher driver_id 0 (py_range current_year (current_year - 10) (-1)) []
  = fold_left
      (fun acc i => absorb (probe_answer fetcher driver_id current_year i) acc)
      (seq 0 10) [].
Proof.
  rewrite py_range_window. unfold window. apply gather_window.
Qed.

Lemma window_probes_benign (fetcher : nat -> string -> outcome json)
    (driver_id : string) (current_year : Z) :
  (forall i, (i < 10)%nat ->
             benign (probe_answer fetcher driver_id current_year i)) ->
  probes_benign fetcher driver_id 0
    (py_range current_year (current_year - 10) (-1)).
Proof.
  intros H i year Hnth. rewrite py_range_window in Hnth. unfold window in Hnth.
  rewrite nth_error_map, nth_error_seq in Hnth.
  destruct (Nat.ltb_spec i 10) as [Hi|Hge]; [|discriminate Hnth].
  simpl in Hnth. injection Hnth as <-. apply H, Hi.
Qed.

Lemma barren_benign (answer : outcome json) : barren answer -> benign answer.
Proof.
  destruct answer as [e|data]; simpl; intros H e' Heq.
  - now injection Heq as <-.
  - discriminate Heq.
Qed.

Lemma found_benign (answer : outcome json) (entries : list json) :
  found answer entries -> benign answer.
Proof.
  intros [data [-> _]]. apply benign_inr.
Qed.

(** *** The scan *)

(** C1.  When each of the ten probes returns an envelope or fails with an
    instance of [Exception], the aggregator asks the client for the endpoints
    "{year}/drivers/{driver_id}/driverStandings" of the ten years
    [current_year], [current_year - 1], ..., [current_year - 9], in that
    order and each exactly once, whatever the probes return: no probe ends
    the scan early and none is repeated.  The aggregator itself returns,
    and a probe that failed leaves the accumulated sequence as it was. *)
Theorem scan_probes_each_year_once
    (fetcher : nat -> string -> outcome json) (driver_id : string)
    (current_year : Z) :
  probes_uninterrupted fetcher driver_id current_year ->
  let '(returned, asked) :=
    run fetcher 0 (career.get_driver_career_standings current_year driver_id) in
  asked
  = map (fun year => string_of_Z year ++ "/drivers/" ++ driver_id
                     ++ "/driverStandings")
      [current_year; current_year - 1; current_year - 2; current_year - 3;
       current_year - 4; current_year - 5; current_year - 6; current_year - 7;
       current_year - 8; current_year - 9]
  /\ NoDup asked
  /\ returned
     = inr (career.conclude
              (fold_left
                 (fun acc i =>
                    absorb (probe_answer fetcher driver_id current_year i) acc)
                 (seq 0 10) []))
  /\ forall i e acc,
       (i < 10)%nat ->
       probe_answer fetcher driver_id current_year i = inl e ->
       absorb (probe_answer fetcher driver_id current_year i) acc = acc.
Proof.
  intro Hfetcher.
  rewrite run_career by (apply window_probes_benign, Hfetcher).
  rewrite gathered_in_window, py_range_window.
  repeat split.
  - rewrite window_years. reflexivity.
  - apply window_endpoints_NoDup.
  - intros i e acc _ ->. reflexivity.
Qed.

(** C2.  When three of the ten probes, those of the years
    [current_year - i > current_year - j > current_year - k], find
    non-empty standings lists and the seven others are empty or failed, the
    aggregator returns the envelope whose list is the three lists
    concatenated in that order, entry for entry, with nothing from the
    other years and nothing removed. *)
Theorem three_seasons_concatenated
    (fetcher : nat -> string -> outcome json) (driver_id : string)
    (current_year : Z) (i j k : nat) (first second third : list json) :
  (i < j)%nat -> (j < k)%nat -> (k < 10)%nat ->
  found (probe_answer fetcher driver_id current_year i) first ->
  found (probe_answer fetcher driver_id current_year j) second ->
  found (probe_answer fetcher driver_id current_year k) third ->
  (forall n, (n < 10)%nat -> n <> i -> n <> j -> n <> k ->
             barren (probe_answer fetcher driver_id current_year n)) ->
  fst (run fetcher 0
         (career.get_driver_career_standings current_year driver_id))
  = inr (career.envelope (first ++ second ++ third)%list).
Proof.
  intros Hij Hjk Hk Hi Hj Hthird Hrest.
  rewrite run_career.
  - cbn [fst]. rewrite gathered_in_window.
    rewrite (seq_split3 i j k 10) by assumption.
    repeat (rewrite fold_left_app; cbn [fold_left]).
    rewrite (fold_barren _ i 0) by (intros; apply Hrest; lia).
    rewrite (absorb_found _ _ _ Hi).
    rewrite (fold_barren _ (j - S i) (S i)) by (intros; apply Hrest; lia).
    rewrite (absorb_found _ _ _ Hj).
    rewrite (fold_barren _ (k - S j) (S j)) by (intros; apply Hrest; lia).
    rewrite (absorb_found _ _ _ Hthird).
    rewrite (fold_barren _ (10 - S k) (S k)) by (intros; apply Hrest; lia).
    cbn [app]. rewrite <- app_assoc.
    unfold career.conclude.
    destruct Hi as [_ [_ [_ Hnonempty]]].
    destruct first as [|x first]; [contradiction|]. reflexivity.
  - apply window_probes_benign. intros n Hn.
    destruct (Nat.eq_dec n i) as [->|Hni]; [eapply found_benign, Hi|].
    destruct (Nat.eq_dec n j) as [->|Hnj]; [eapply found_benign, Hj|].
    destruct (Nat.eq_dec n k) as [->|Hnk]; [eapply found_benign, Hthird|].
    apply barren_benign, Hrest; assumption.
Qed.

(** C3.  Once the scan has ended with the accumulated sequence [entries],
    the aggregator returns, without raising: the synthesized envelope, whose
    list under MRData, StandingsTable, StandingsLists is [entries], when
    [entries] is not empty, and [None] when it is.  In particular it returns
    [None] when all ten probes were empty or failed. *)
Theorem envelope_or_absence
    (fetcher : nat -> string -> outcome json) (driver_id : string)
    (current_year : Z) :
  (forall entries,
      fst (run fetcher 0
             (career.scan driver_id
                (py_range current_year (current_year - 10) (-1)) []))
      = inr entries ->
      fst (run fetcher 0
             (career.get_driver_career_standings current_year driver_id))
      = inr (match entries with
             | [] => JNull
             | _ :: _ =>
                 JDict [("MRData",
                         JDict [("StandingsTable",
                                 JDict [("StandingsLists", JList entries)])])]
             end))
  /\ ((forall n, (n < 10)%nat ->
                 barren (probe_answer fetcher driver_id current_year n)) ->
      fst (run fetcher 0
             (career.get_driver_career_standings current_year driver_id))
      = inr JNull).
Proof.
  split.
  - intros entries Hscan.
    unfold career.get_driver_career_standings.
    rewrite run_try_except, run_bind.
    destruct (run fetcher 0
                (career.scan driver_id
                   (py_range current_year (current_year - 10) (-1)) []))
      as [[e|acc] asked]; cbn [fst] in Hscan; [discriminate|].
    injection Hscan as ->. cbn [run fst].
    destruct entries; reflexivity.
  - intro Hbarren. rewrite run_career.
    + cbn [fst]. rewrite gathered_in_window.
      rewrite (fold_barren _ 10 0) by (intros; apply Hbarren; lia).
      reflexivity.
    + apply window_probes_benign. intros n Hn.
      apply barren_benign, Hbarren, Hn.
Qed.

(** C10, as amended.  Against every client whose ten probes return an
    envelope of any shape or raise an instance of [Exception] of any class,
    the aggregator returns: [None], or the synthesized envelope around a
    non-empty list.  It raises nothing. *)
Theorem aggregator_total_on_exceptions
    (fetcher : nat -> string -> outcome json) (driver_id : string)
    (current_year : Z) :
  probes_uninterrupted fetcher driver_id current_year ->
  exists returned,
    fst (run fetcher 0
           (career.get_driver_career_standings current_year driver_id))
    = inr returned
    /\ (returned = JNull
        \/ exists entries, entries <> [] /\ returned = career.envelope entries).
Proof.
  intro Hfetcher.
  rewrite run_career by (apply window_probes_benign, Hfetcher).
  cbn [fst]. eexists. split; [reflexivity|].
  unfold career.conclude.
  destruct (gather fetcher driver_id 0 _ []) as [|x entries].
  - left. reflexivity.
  - right. exists (x :: entries). split; [discriminate | reflexivity].
Qed.

(** ** Text, continued *)

(** Brings both sides to right-nested appends. *)
Ltac strings :=
  repeat (progress (rewrite ?app_assoc_string; cbn [append])); reflexivity.

(** Case analysis on the steps of a computation, outermost first. *)
Ltac step_binds :=
  repeat match goal with
         | |- context [bind_outcome ?m _] =>
             destruct m; cbn [bind_outcome]; try reflexivity
         end.

(** The same, stopping at a loop. *)
Ltac walk :=
  repeat match goal with
         | |- context [bind_outcome ?m _] =>
             lazymatch m with
             | for_each _ _ _ => fail
             | _ => destruct m; cbn [bind_outcome]
             end
         | |- context [if ?b then _ else _] => destruct b
         end.

(** ** The race analysis *)

Section RaceAnalysis.
Context {RT : PyRuntime}.

Lemma for_each_appending {A} (body : string -> A -> outcome string)
    (piece : A -> outcome string) :
  (forall acc x, body acc x = (s <- piece x ;; ok (acc ++ s))%outcome) ->
  forall xs p acc out,
    for_each body xs acc = inr out ->
    for_each body xs (p ++ acc) = inr (p ++ out).
Proof.
  intros Hbody. induction xs as [|x xs IH]; intros p acc out; simpl.
  - intro H. injection H as <-. reflexivity.
  - rewrite !Hbody. destruct (piece x) as [e|s]; simpl; [discriminate|].
    intro H. rewrite app_assoc_string. apply IH, H.
Qed.

Lemma qualifying_line_piece (acc : string) (numbered : Z * json) :
  analysis_tools.qualifying_line acc numbered
  = (s <- analysis_tools.qualifying_line "" numbered ;; ok (acc ++ s))%outcome.
Proof.
  unfold analysis_tools.qualifying_line. destruct numbered as [i entry].
  step_binds.
Qed.

Lemma qualifying_section_append (quali_data : json) (response block : string) :
  analysis_tools.qualifying_section quali_data "" = inr block ->
  analysis_tools.qualifying_section quali_data response = inr (response ++ block).
Proof.
  unfold analysis_tools.qualifying_section.
  walk; try discriminate;
    try (intro H; injection H as <-; now rewrite string_app_nil).
  destruct (for_each _ _ ("" ++ _)) as [e|lines] eqn:Hlines;
    cbn [bind_outcome]; [discriminate|].
  intro H. injection H as <-.
  apply (for_each_appending _ _ qualifying_line_piece _ response) in Hlines.
  change ("" ++ ?x) with x in Hlines. rewrite Hlines. cbn [bind_outcome].
  now rewrite app_assoc_string.
Qed.

Lemma header_text (race : ergast.Race) (year : Z) :
  analysis_tools.header (ergast.race_json race)
    (ergast.circuit_json (ergast.circuit race))
    (ergast.location_json (ergast.location (ergast.circuit race))) year
  = inr (analysis_header race year).
Proof. reflexivity. Qed.

Lemma time_status_text (r : ergast.Result) :
  analysis_tools.time_status (ergast.result_json r) = inr (shown_time_status r).
Proof.
  destruct r as [pos d c pts t st fl]. unfold shown_time_status. simpl.
  destruct pos, pts, t, st, fl; reflexivity.
Qed.

Lemma result_line_text (acc : string) (r : ergast.Result) (pos : string) :
  ergast.position r = Some pos ->
  analysis_tools.result_line acc (ergast.result_json r)
  = inr (acc ++ "P" ++ pos ++ ": " ++ finisher r ++ " - " ++ shown_points r
         ++ " pts " ++ shown_time_status r ++ LF).
Proof.
  intro Hpos. unfold analysis_tools.result_line.
  rewrite time_status_text.
  destruct r as [pos' d c pts t st fl]. simpl in Hpos. subst pos'.
  unfold finisher, shown_points.
  destruct pts, t, st, fl; cbn; f_equal; strings.
Qed.

Lemma fastest_lap_line_text (acc : string) (r : ergast.Result) :
  analysis_tools.fastest_lap_line (ergast.result_json r) acc
  = inr (acc ++ fastest_lap_text r).
Proof.
  destruct r as [pos d c pts t st fl]. unfold fastest_lap_text.
  destruct fl as [[lt lp]|]; destruct pos, pts, t, st;
    try destruct lt; try destruct lp; cbn;
    rewrite ?string_app_nil; reflexivity.
Qed.

Lemma result_driver (r : ergast.Result) :
  py_getitem (ergast.result_json r) "Driver"
  = inr (ergast.driver_json (ergast.driver r)).
Proof.
  destruct r as [pos d c pts t st fl]. destruct pos, pts, t, st, fl; reflexivity.
Qed.

Lemma result_constructor (r : ergast.Result) :
  py_getitem (ergast.result_json r) "Constructor"
  = inr (ergast.constructor_json (ergast.constructor r)).
Proof.
  destruct r as [pos d c pts t st fl]. destruct pos, pts, t, st, fl; reflexivity.
Qed.

Lemma race_results (race : ergast.Race) :
  py_getitem (ergast.race_json race) "Results"
  = inr (JList (map ergast.result_json (ergast.results race))).
Proof. reflexivity. Qed.

Lemma race_has_results (race : ergast.Race) :
  py_contains "Results" (ergast.race_json race) = inr true.
Proof. reflexivity. Qed.

Lemma winner_section_text (race : ergast.Race) (winner : ergast.Result)
    (others : list ergast.Result) (acc : string) :
  ergast.results race = winner :: others ->
  analysis_tools.winner_section (ergast.race_json race) acc
  = inr (acc ++ "**🏆 Race Winner:** " ++ finisher winner ++ LF
         ++ fastest_lap_text winner).
Proof.
  intro Hresults. unfold analysis_tools.winner_section.
  rewrite race_results, Hresults.
  cbn [bind_outcome ok map truthy py_first].
  rewrite result_driver, result_constructor.
  cbn [ergast.driver_json ergast.constructor_json py_getitem lookup String.eqb
       Ascii.eqb Bool.eqb bind_outcome ok py_str].
  rewrite fastest_lap_line_text. f_equal.
  unfold finisher. strings.
Qed.

Lemma results_section_text (race : ergast.Race) (first second : ergast.Result)
    (p1 p2 acc : string) :
  ergast.results race = [first; second] ->
  ergast.position first = Some p1 -> ergast.position second = Some p2 ->
  analysis_tools.results_section (ergast.race_json race) acc
  = inr (acc ++ "**🏆 RACE RESULTS:**" ++ LF
         ++ "P" ++ p1 ++ ": " ++ finisher first ++ " - " ++ shown_points first
         ++ " pts " ++ shown_time_status first ++ LF
         ++ "P" ++ p2 ++ ": " ++ finisher second ++ " - " ++ shown_points second
         ++ " pts " ++ shown_time_status second ++ LF
         ++ LF
         ++ "**🏆 Race Winner:** " ++ finisher first ++ LF
         ++ fastest_lap_text first).
Proof.
  intros Hresults Hp1 Hp2. unfold analysis_tools.results_section.
  rewrite race_has_results, race_results, Hresults.
  cbn [bind_outcome ok map py_slice_to firstn py_iter for_each].
  rewrite (result_line_text _ first p1 Hp1). cbn [bind_outcome ok for_each].
  rewrite (result_line_text _ second p2 Hp2). cbn [bind_outcome ok for_each].
  rewrite (winner_section_text race first [second] _ Hresults).
  f_equal. strings.
Qed.

Lemma analyse_two_results (race : ergast.Race) (first second : ergast.Result)
    (p1 p2 : string) (year round_num : Z) (quali_data : json)
    (qualifying_block : string) :
  ergast.results race = [first; second] ->
  ergast.position first = Some p1 -> ergast.position second = Some p2 ->
  analysis_tools.qualifying_section quali_data "" = inr qualifying_block ->
  analysis_tools.analyse year round_num (ergast.race_table_json [race]) quali_data
  = inr (analysis_header race year ++ qualifying_block
         ++ "**🏆 RACE RESULTS:**" ++ LF
         ++ "P" ++ p1 ++ ": " ++ finisher first ++ " - " ++ shown_points first
         ++ " pts " ++ shown_time_status first ++ LF
         ++ "P" ++ p2 ++ ": " ++ finisher second ++ " - " ++ shown_points second
         ++ " pts " ++ shown_time_status second ++ LF
         ++ LF
         ++ "**🏆 Race Winner:** " ++ finisher first ++ LF
         ++ fastest_lap_text first).
Proof.
  intros Hresults Hp1 Hp2 Hquali. unfold analysis_tools.analyse.
  change (lacks_mrdata (ergast.race_table_json [race])) with (ok false : outcome bool).
  cbn [bind_outcome ok ergast.race_table_json py_getitem py_get lookup String.eqb
       Ascii.eqb Bool.eqb map truthy negb py_first].
  change (py_getitem (ergast.race_json race) "Circuit")
    with (ok (ergast.circuit_json (ergast.circuit race)) : outcome json).
  cbn [bind_outcome ok].
  change (py_getitem (ergast.circuit_json (ergast.circuit race)) "Location")
    with (ok (ergast.location_json (ergast.location (ergast.circuit race)))
          : outcome json).
  cbn [bind_outcome ok].
  rewrite header_text. cbn [bind_outcome].
  rewrite (qualifying_section_append _ _ _ Hquali). cbn [bind_outcome].
  rewrite (results_section_text race first second p1 p2 _ Hresults Hp1 Hp2).
  f_equal. strings.
Qed.

Lemma endpoints_2021_1 :
  string_of_Z 2021 ++ "/" ++ analysis_tools.round_identifier 1 ++ "/results"
  = "2021/1/results"
  /\ string_of_Z 2021 ++ "/" ++ analysis_tools.round_identifier 1 ++ "/qualifying"
     = "2021/1/qualifying".
Proof. split; reflexivity. Qed.

(** C7, as amended.  The results endpoint "2021/1/results" returns an
    envelope with one race and two results whose positions are "1" and "2",
    and the qualifying endpoint "2021/1/qualifying" returns an envelope
    whose qualifying block renders.  Then the formatter returns the header,
    the qualifying block, and a results block with the lines "P1: ..." and
    "P2: ..." in that order and no other; the team of the first result is
    named in its line and once more in the "Race Winner" line. *)
Theorem race_analysis_of_two_results
    (fetcher : nat -> string -> outcome json) (race : ergast.Race)
    (first second : ergast.Result) (quali_data : json)
    (qualifying_block : string) :
  ergast.results race = [first; second] ->
  ergast.position first = Some "1" -> ergast.position second = Some "2" ->
  fetcher 0%nat "2021/1/results" = inr (ergast.race_table_json [race]) ->
  fetcher 1%nat "2021/1/qualifying" = inr quali_data ->
  analysis_tools.qualifying_section quali_data "" = inr qualifying_block ->
  run fetcher 0 (analysis_tools.get_race_analysis 2021 1)
  = (inr (analysis_header race 2021 ++ qualifying_block
          ++ "**🏆 RACE RESULTS:**" ++ LF
          ++ "P1: " ++ finisher first ++ " - " ++ shown_points first
          ++ " pts " ++ shown_time_status first ++ LF
          ++ "P2: " ++ finisher second ++ " - " ++ shown_points second
          ++ " pts " ++ shown_time_status second ++ LF
          ++ LF
          ++ "**🏆 Race Winner:** " ++ finisher first ++ LF
          ++ fastest_lap_text first),
     ["2021/1/results"; "2021/1/qualifying"]).
Proof.
  intros Hresults Hp1 Hp2 Hrace Hquali Hblock.
  unfold analysis_tools.get_race_analysis.
  destruct endpoints_2021_1 as [-> ->].
  cbn [run try_except bind request]. rewrite Hrace.
  cbn [run try_except bind]. rewrite Hquali.
  cbn [run try_except bind].
  rewrite (analyse_two_results race first second "1" "2" 2021 1 quali_data
             qualifying_block Hresults Hp1 Hp2 Hblock).
  reflexivity.
Qed.
End RaceAnalysis.

(** ** Formatters and exceptions *)

Section Formatters.
Context {RT : PyRuntime}.

Lemma benign_lacks_mrdata (data : json) : benign (lacks_mrdata data).
Proof. unfold lacks_mrdata. benign_cases. Qed.

Lemma benign_lacks_table (table : string) (data : json) :
  benign (lacks_table table data).
Proof.
  unfold lacks_table. apply benign_bind; [apply benign_lacks_mrdata|].
  intro. benign_cases.
Qed.

Lemma benign_format_race_datetime (date_str time_str : json) :
  benign (datetime_format.format_race_datetime date_str time_str).
Proof.
  unfold datetime_format.format_race_datetime.
  destruct (datetime_format.format_body date_str time_str) as [e|v] eqn:Hbody.
  - assert (Hbenign : benign (datetime_format.format_body date_str time_str)).
    { unfold datetime_format.format_body, datetime_format.endswith_Z,
        datetime_format.fromisoformat_value. benign_cases. }
    rewrite (Hbenign e Hbody). apply benign_ok.
  - apply benign_ok.
Qed.

Lemma benign_render (data : json) : benign (race_tools.render data).
Proof.
  unfold race_tools.render.
  apply benign_bind; [apply benign_lacks_table|]. intro.
  unfold race_tools.header, race_tools.position_block,
    race_tools.time_or_status, race_tools.points_line.
  pose proof benign_format_race_datetime.
  benign_cases.
Qed.

Lemma benign_analyse (year round_num : Z) (race_data quali_data : json) :
  benign (analysis_tools.analyse year round_num race_data quali_data).
Proof.
  unfold analysis_tools.analyse.
  apply benign_bind; [apply benign_lacks_mrdata|]. intro.
  unfold analysis_tools.header, analysis_tools.qualifying_section,
    analysis_tools.qualifying_races, analysis_tools.qualifying_line,
    analysis_tools.results_section, analysis_tools.result_line,
    analysis_tools.time_status, analysis_tools.winner_section,
    analysis_tools.fastest_lap_line.
  benign_cases.
Qed.

End Formatters.

Section FormatterRuns.
Context {RT : PyRuntime}.
Variable fetcher : nat -> string -> outcome json.

Lemma run_latest_race_results :
  benign (fetcher 0%nat "current/last/results") ->
  fst (run fetcher 0 race_tools.get_latest_race_results)
  = inr (answered "Failed to get race results: "
           (data <- fetcher 0%nat "current/last/results" ;;
            race_tools.render data)%outcome).
Proof.
  intro Hbenign. unfold race_tools.get_latest_race_results.
  cbn [run try_except bind request].
  destruct (fetcher 0%nat "current/last/results") as [e|data] eqn:Hanswer.
  - cbn. rewrite (Hbenign e eq_refl). reflexivity.
  - cbn [bind bind_outcome].
    destruct (race_tools.render data) as [e|text] eqn:Hrender.
    + cbn. rewrite (benign_render _ _ Hrender). reflexivity.
    + reflexivity.
Qed.

Lemma run_race_analysis (year round_num : Z) :
  let results_endpoint :=
    string_of_Z year ++ "/" ++ analysis_tools.round_identifier round_num
    ++ "/results" in
  let qualifying_endpoint :=
    string_of_Z year ++ "/" ++ analysis_tools.round_identifier round_num
    ++ "/qualifying" in
  benign (fetcher 0%nat results_endpoint) ->
  benign (fetcher 1%nat qualifying_endpoint) ->
  fst (run fetcher 0 (analysis_tools.get_race_analysis year round_num))
  = inr (answered "Failed to get race analysis: "
           (race_data <- fetcher 0%nat results_endpoint ;;
            quali_data <- fetcher 1%nat qualifying_endpoint ;;
            analysis_tools.analyse year round_num race_data quali_data)%outcome).
Proof.
  intros results_endpoint qualifying_endpoint Hfirst Hsecond.
  unfold analysis_tools.get_race_analysis.
  fold results_endpoint qualifying_endpoint.
  cbn [run try_except bind request].
  destruct (fetcher 0%nat results_endpoint) as [e|race_data] eqn:Hrace.
  - cbn. rewrite (Hfirst e eq_refl). reflexivity.
  - cbn [run try_except bind bind_outcome].
    destruct (fetcher 1%nat qualifying_endpoint) as [e|quali_data] eqn:Hquali.
    + cbn. rewrite (Hsecond e eq_refl). reflexivity.
    + cbn [bind bind_outcome].
      destruct (analysis_tools.analyse year round_num race_data quali_data)
        as [e|text] eqn:Hanalyse.
      * cbn. rewrite (benign_analyse _ _ _ _ _ Hanalyse). reflexivity.
      * reflexivity.
Qed.

Lemma render_missing_container (data : json) :
  missing_container "RaceTable" data = true ->
  race_tools.render data = inr race_tools.no_recent_results.
Proof.
  intro H. unfold race_tools.render, lacks_table, lacks_mrdata.
  destruct data as [|b|n|f|s|xs|kvs]; simpl in H.
  - reflexivity.
  - destruct b; [discriminate | reflexivity].
  - cbn [truthy]. destruct (n =? 0); [reflexivity | discriminate].
  - destruct f; try discriminate; reflexivity.
  - cbn [truthy]. destruct (String.eqb s ""); [reflexivity | discriminate].
  - destruct xs; [reflexivity | discriminate].
  - destruct kvs as [|kv kvs]; [reflexivity|].
    cbn [truthy py_contains bind_outcome ok].
    destruct (lookup "MRData" (kv :: kvs)) as [mr_data|] eqn:Hmr;
      [|reflexivity].
    cbn [negb bind_outcome py_getitem]. rewrite Hmr. cbn [bind_outcome ok].
    destruct mr_data as [| | | | | |mr]; try discriminate H.
    cbn [py_contains]. destruct (lookup "RaceTable" mr); [discriminate|].
    reflexivity.
Qed.

Lemma analyse_missing_mrdata (year round_num : Z) (race_data quali_data : json) :
  missing_mrdata race_data = true ->
  analysis_tools.analyse year round_num race_data quali_data
  = inr (analysis_tools.no_race_data year round_num).
Proof.
  intro H. unfold analysis_tools.analyse, lacks_mrdata.
  destruct race_data as [|b|n|f|s|xs|kvs]; simpl in H.
  - reflexivity.
  - destruct b; [discriminate | reflexivity].
  - cbn [truthy]. destruct (n =? 0); [reflexivity | discriminate].
  - destruct f; try discriminate; reflexivity.
  - cbn [truthy]. destruct (String.eqb s ""); [reflexivity | discriminate].
  - destruct xs; [reflexivity | discriminate].
  - destruct kvs as [|kv kvs]; [reflexivity|].
    cbn [truthy py_contains bind_outcome ok].
    destruct (lookup "MRData" (kv :: kvs)); [discriminate | reflexivity].
Qed.

(** X30.  Against a client that is not interrupted,
    [get_latest_race_results] and [get_race_analysis] return text and never
    raise.  For the latest results, an envelope that is empty, or has no
    [MRData], or whose [MRData] has no [RaceTable], yields the "no data"
    message, which does not depend on the envelope.  For the race
    analysis, a results envelope that is empty or has no [MRData] yields
    the "no data" message once the qualifying request, which is made
    before the envelope is looked at, has returned too.  A failure of a
    request, and every exception raised while the envelopes are read,
    comes back as "Failed to get race results: " or "Failed to get race
    analysis: " followed by the exception's message. *)
Theorem formatters_return_text (year round_num : Z) :
  let results_endpoint :=
    string_of_Z year ++ "/" ++ analysis_tools.round_identifier round_num
    ++ "/results" in
  let qualifying_endpoint :=
    string_of_Z year ++ "/" ++ analysis_tools.round_identifier round_num
    ++ "/qualifying" in
  uninterrupted fetcher ->
  (exists text,
      fst (run fetcher 0 race_tools.get_latest_race_results) = inr text
      /\ (forall data,
             fetcher 0%nat "current/last/results" = inr data ->
             missing_container "RaceTable" data = true ->
             text = race_tools.no_recent_results)
      /\ (forall e,
             fetcher 0%nat "current/last/results" = inl e ->
             text = "Failed to get race results: " ++ str_exn e)
      /\ (forall data e,
             fetcher 0%nat "current/last/results" = inr data ->
             race_tools.render data = inl e ->
             text = "Failed to get race results: " ++ str_exn e))
  /\ (exists text,
         fst (run fetcher 0 (analysis_tools.get_race_analysis year round_num))
         = inr text
         /\ (forall race_data quali_data,
                fetcher 0%nat results_endpoint = inr race_data ->
                fetcher 1%nat qualifying_endpoint = inr quali_data ->
                missing_mrdata race_data = true ->
                text = analysis_tools.no_race_data year round_num)
         /\ (forall e,
                fetcher 0%nat results_endpoint = inl e ->
                text = "Failed to get race analysis: " ++ str_exn e)
         /\ (forall race_data e,
                fetcher 0%nat results_endpoint = inr race_data ->
                fetcher 1%nat qualifying_endpoint = inl e ->
                text = "Failed to get race analysis: " ++ str_exn e)
         /\ (forall race_data quali_data e,
                fetcher 0%nat results_endpoint = inr race_data ->
                fetcher 1%nat qualifying_endpoint = inr quali_data ->
                analysis_tools.analyse year round_num race_data quali_data
                = inl e ->
                text = "Failed to get race analysis: " ++ str_exn e)).
Proof.
  intros results_endpoint qualifying_endpoint Hfetcher. split.
  - eexists. split.
    { apply run_latest_race_results. intros e He. eapply Hfetcher, He. }
    split; [|split].
    + intros data -> Hmissing. cbn [bind_outcome].
      rewrite (render_missing_container _ Hmissing). reflexivity.
    + intros e ->. reflexivity.
    + intros data e -> Hrender. cbn [bind_outcome]. rewrite Hrender.
      reflexivity.
  - eexists. split.
    { apply run_race_analysis; intros e He; eapply Hfetcher, He. }
    fold results_endpoint qualifying_endpoint.
    split; [|split; [|split]].
    + intros race_data quali_data -> -> Hmissing. cbn [bind_outcome].
      rewrite (analyse_missing_mrdata _ _ _ _ Hmissing). reflexivity.
    + intros e ->. reflexivity.
    + intros race_data e -> ->. reflexivity.
    + intros race_data quali_data e -> -> Hanalyse. cbn [bind_outcome].
      rewrite Hanalyse. reflexivity.
Qed.

End FormatterRuns.

(** ** Career statistics *)

Section CareerStatistics.
Context {RT : PyRuntime}.

Lemma stats_eq (w p t d w' p' t' d' : Z) :
  w = w' -> p = p' -> t = t' -> d = d' ->
  driver_tools.mkStats w p t d = driver_tools.mkStats w' p' t' d'.
Proof. congruence. Qed.

Lemma result_position (r : ergast.Result) :
  py_get (ergast.result_json r) "position" (JStr "N/A")
  = inr (match ergast.position r with
         | Some p => JStr p
         | None => JStr "N/A"
         end).
Proof.
  destruct r as [pos d c pts t st fl]. destruct pos, pts, t, st, fl; reflexivity.
Qed.

Lemma result_points (r : ergast.Result) :
  py_get (ergast.result_json r) "points" (JInt 0)
  = inr (match ergast.points r with
         | Some p => JStr p
         | None => JInt 0
         end).
Proof.
  destruct r as [pos d c pts t st fl]. destruct pos, pts, t, st, fl; reflexivity.
Qed.

Lemma count_position_tally (st : driver_tools.stats) (r : ergast.Result) :
  driver_tools.count_position (ergast.result_json r) st
  = inr (driver_tools.mkStats
           (driver_tools.wins st + if is_win r then 1 else 0)
           (driver_tools.podiums st + if is_podium r then 1 else 0)
           (driver_tools.points_total st)
           (driver_tools.dnfs st + if position_unknown r then 1 else 0)).
Proof.
  unfold driver_tools.count_position. rewrite result_position.
  cbn [bind_outcome]. unfold is_win, is_podium, finish_of, position_unknown.
  destruct st as [w p t d]. cbn [driver_tools.wins driver_tools.podiums
                                  driver_tools.points_total driver_tools.dnfs].
  destruct (ergast.position r) as [pos|]; cbn [eq_str].
  - destruct (String.eqb pos "N/A"); cbn [negb].
    + unfold ok. f_equal. apply stats_eq; lia.
    + cbn [py_int]. unfold int_of_text.
      destruct (int_text pos) as [complaint|n]; [cbn; unfold ok; f_equal; apply stats_eq; lia|].
      * unfold ok, driver_tools.count_finish.
        cbn [driver_tools.wins driver_tools.podiums driver_tools.points_total
             driver_tools.dnfs].
        destruct (n =? 1), (n <=? 3);
          cbn [driver_tools.wins driver_tools.podiums
               driver_tools.points_total driver_tools.dnfs];
          f_equal; apply stats_eq; lia.
  - cbn. unfold ok. f_equal. apply stats_eq; lia.
Qed.

Lemma count_points_tally (st : driver_tools.stats) (r : ergast.Result) :
  driver_tools.count_points (ergast.result_json r) st
  = inr (driver_tools.mkStats (driver_tools.wins st) (driver_tools.podiums st)
           (driver_tools.points_total st + points_of r) (driver_tools.dnfs st)).
Proof.
  unfold driver_tools.count_points. rewrite result_points.
  cbn [bind_outcome]. unfold points_of.
  destruct (ergast.points r) as [pts|]; cbn [py_int].
  - unfold int_of_text. destruct (int_text pts) as [complaint|n]; cbn;
      [|reflexivity].
    unfold ok. f_equal. destruct st. apply stats_eq; cbn; lia.
  - reflexivity.
Qed.

Lemma count_result_tally (st : driver_tools.stats) (r : ergast.Result) :
  driver_tools.count_result st (ergast.result_json r) = inr (tally st r).
Proof.
  unfold driver_tools.count_result.
  rewrite count_position_tally. cbn [bind_outcome].
  rewrite count_points_tally. reflexivity.
Qed.

Lemma count_results_tally (rs : list ergast.Result) :
  forall st,
    for_each driver_tools.count_result (map ergast.result_json rs) st
    = inr (fold_left tally rs st).
Proof.
  induction rs as [|r rs IH]; intro st; cbn [map for_each fold_left].
  - reflexivity.
  - rewrite count_result_tally. cbn [bind_outcome]. apply IH.
Qed.

Lemma count_race_tally (st : driver_tools.stats) (race : ergast.Race) :
  driver_tools.count_race st (ergast.race_json race)
  = inr (fold_left tally (ergast.results race) st).
Proof.
  unfold driver_tools.count_race.
  change (py_get (ergast.race_json race) "Results" (JList []))
    with (ok (JList (map ergast.result_json (ergast.results race)))
          : outcome json).
  cbn [bind_outcome ok py_iter]. apply count_results_tally.
Qed.

Lemma count_races_tally (races : list ergast.Race) :
  forall st,
    for_each driver_tools.count_race (map ergast.race_json races) st
    = inr (fold_left tally (all_results races) st).
Proof.
  induction races as [|race races IH]; intro st;
    cbn [map for_each all_results flat_map].
  - reflexivity.
  - rewrite count_race_tally. cbn [bind_outcome].
    rewrite fold_left_app. apply IH.
Qed.

Lemma tally_counts (rs : list ergast.Result) :
  forall st,
    fold_left tally rs st
    = driver_tools.mkStats
        (driver_tools.wins st + count is_win rs)
        (driver_tools.podiums st + count is_podium rs)
        (driver_tools.points_total st + total_points rs)
        (driver_tools.dnfs st + count position_unknown rs).
Proof.
  unfold count, total_points.
  induction rs as [|r rs IH]; intro st; cbn [fold_left filter map fold_right].
  - destruct st. apply stats_eq; cbn; lia.
  - rewrite IH. unfold tally.
    cbn [driver_tools.wins driver_tools.podiums driver_tools.points_total
         driver_tools.dnfs].
    destruct (is_win r), (is_podium r), (position_unknown r);
      cbn [List.length]; apply stats_eq; lia.
Qed.

(** C9, as amended.  Over the races of a driver, the scan counts a result
    as a win when its position reads as the integer 1, as a podium when it
    reads as an integer that is at most 3, and as a "did not finish" when
    the position field is absent or is the text "N/A"; it adds up the
    points that read as integers.  A position that is any other
    non-numeric text is counted in none of the three tallies. *)
Theorem career_statistics_tallies (races : list ergast.Race) :
  driver_tools.career_statistics (JList (map ergast.race_json races))
  = inr (driver_tools.mkStats
           (count is_win (all_results races))
           (count is_podium (all_results races))
           (total_points (all_results races))
           (count position_unknown (all_results races)))
  /\ forall r p,
       ergast.position r = Some p -> p <> "N/A" -> int_of_text p = None ->
       is_win r = false /\ is_podium r = false /\ position_unknown r = false.
Proof.
  split.
  - unfold driver_tools.career_statistics. cbn [py_iter bind_outcome ok].
    rewrite count_races_tally, tally_counts. reflexivity.
  - intros r p Hpos Hna Hint.
    unfold is_win, is_podium, finish_of, position_unknown. rewrite Hpos.
    apply String.eqb_neq in Hna. rewrite Hna, Hint. auto.
Qed.

End CareerStatistics.

(* ================================================================== *)
(** * Part III. The properties on concrete runs *)
(* ================================================================== *)

(** ** The client *)

Lemma failures_classified_by_cause_witness :
  (exists e,
      api_client.make_jolpica_request not_found_client
        DEFAULT_JOLPICA_BASE_URL "drivers/hamilton" = inl e
      /\ observed_kind e = Some api_client.HttpError
      /\ is_substring "404" (str_exn e) = true
      /\ is_substring "Not Found" (str_exn e) = true)
  /\ (exists e,
         api_client.make_jolpica_request garbled_client
           DEFAULT_JOLPICA_BASE_URL "drivers/hamilton" = inl e
         /\ observed_kind e = Some api_client.DecodeError)
  /\ (exists e,
         api_client.make_jolpica_request unreachable_client
           DEFAULT_JOLPICA_BASE_URL "drivers/hamilton" = inl e
         /\ observed_kind e = Some api_client.NetworkError
         /\ is_substring "All connection attempts failed" (str_exn e) = true)
  /\ (exists e,
         api_client.make_jolpica_request odd_envelope_client
           DEFAULT_JOLPICA_BASE_URL "drivers/hamilton" = inl e
         /\ observed_kind e = Some api_client.UnknownError
         /\ is_substring "argument of type 'int' is not iterable" (str_exn e)
            = true)
  /\ (exists e,
         api_client.make_jolpica_request mojibake_client
           DEFAULT_JOLPICA_BASE_URL "drivers/hamilton" = inl e
         /\ observed_kind e = Some api_client.UnknownError
         /\ is_substring "'utf-8' codec can't decode byte 0xff" (str_exn e)
            = true).
Proof.
  split; [|split; [|split; [|split]]].
  - apply (proj1 (failures_classified_by_cause not_found_client
                    DEFAULT_JOLPICA_BASE_URL "drivers/hamilton")
             (api_client.mkResponse 404 "Not Found" (ok JNull))).
    + reflexivity.
    + simpl. lia.
  - apply (proj1 (proj2 (failures_classified_by_cause garbled_client
                           DEFAULT_JOLPICA_BASE_URL "drivers/hamilton"))
             (api_client.mkResponse 200 "<html>"
                (raise (JSONDecodeError "Expecting value: line 1 column 1 (char 0)")))
             "Expecting value: line 1 column 1 (char 0)");
      reflexivity.
  - apply (proj1 (proj2 (proj2 (failures_classified_by_cause unreachable_client
                                  DEFAULT_JOLPICA_BASE_URL "drivers/hamilton")))
             "All connection attempts failed").
    reflexivity.
  - apply (proj1 (proj2 (proj2 (proj2 (failures_classified_by_cause
                                         odd_envelope_client
                                         DEFAULT_JOLPICA_BASE_URL
                                         "drivers/hamilton"))))
             (PyError TypeError "argument of type 'int' is not iterable"));
      reflexivity.
  - destruct (proj2 (proj2 (proj2 (proj2 (failures_classified_by_cause
                                            mojibake_client
                                            DEFAULT_JOLPICA_BASE_URL
                                            "drivers/hamilton"))))
                mojibake
                (PyError UnicodeDecodeError
                   "'utf-8' codec can't decode byte 0xff in position 4: invalid start byte")
                eq_refl eq_refl eq_refl eq_refl)
      as [e [Hanswer [Hkind _]]].
    exists e. split; [exact Hanswer|]. split; [exact Hkind|].
    injection Hanswer as <-. reflexivity.
Defined.

Lemma failures_are_uniform_witness :
  let e := McpError (mkErrorData INTERNAL_ERROR
                       "Jolpica F1 API HTTP error 404: Not Found")
             (Some (HTTPStatusError 404 "Not Found" "HTTP status 404")) in
  api_client.make_jolpica_request not_found_client
    DEFAULT_JOLPICA_BASE_URL "drivers/hamilton" = inl e
  /\ is_Exception e = true
  /\ exists cause kind text,
       api_client.request_body not_found_client
         DEFAULT_JOLPICA_BASE_URL "drivers/hamilton" = inl cause
       /\ api_client.failure_message cause = (kind, text)
       /\ e = McpError (mkErrorData INTERNAL_ERROR text) (Some cause)
       /\ observed_kind e = Some kind.
Proof.
  intro e. split; [reflexivity|]. split; [reflexivity|].
  apply (failures_are_uniform not_found_client DEFAULT_JOLPICA_BASE_URL
           "drivers/hamilton" e); reflexivity.
Defined.

(** C4, as written, fails: a 2xx body that is not UTF-8 is not parseable
    JSON, yet [response.json()] rejects it with [UnicodeDecodeError], which
    the clause for [json.JSONDecodeError] does not catch; the failure
    leaves with the unknown-error kind, not with the decode-error kind. *)
Lemma undecodable_body_classified_unknown :
  api_client.is_success mojibake = true
  /\ api_client.parsed mojibake
     = inl (PyError UnicodeDecodeError
              "'utf-8' codec can't decode byte 0xff in position 4: invalid start byte")
  /\ exists e,
       api_client.make_jolpica_request mojibake_client
         DEFAULT_JOLPICA_BASE_URL "drivers/hamilton" = inl e
       /\ observed_kind e = Some api_client.UnknownError
       /\ observed_kind e <> Some api_client.DecodeError.
Proof.
  split; [reflexivity|]. split; [reflexivity|].
  eexists. split; [reflexivity|]. split; [reflexivity|discriminate].
Qed.

(** C5, as written, fails: the failure of a 404 and the failure of a
    refused connection are both an [McpError] with the same code, yet a
    caller tells them apart without reading any message, by the class of
    the exception chained as [__context__]. *)
Lemma failure_kinds_told_by_context :
  exists e1 e2 error1 error2 context1 context2,
    api_client.make_jolpica_request not_found_client
      DEFAULT_JOLPICA_BASE_URL "drivers/hamilton" = inl e1
    /\ api_client.make_jolpica_request unreachable_client
         DEFAULT_JOLPICA_BASE_URL "drivers/hamilton" = inl e2
    /\ e1 = McpError error1 context1
    /\ e2 = McpError error2 context2
    /\ code error1 = code error2
    /\ raised_from_status e1 = true
    /\ raised_from_status e2 = false.
Proof.
  do 6 eexists.
  split; [reflexivity|]. split; [reflexivity|]. split; [reflexivity|].
  split; [reflexivity|]. split; [reflexivity|]. split; reflexivity.
Qed.

(** ** The aggregator *)

Lemma three_seasons_client_uninterrupted :
  probes_uninterrupted three_seasons_client "hamilton" 2025.
Proof.
  intros n _ e. unfold three_seasons_client.
  do 9 (destruct n as [|n]; [intro H; inversion H; reflexivity|]).
  discriminate.
Qed.

Lemma scan_probes_each_year_once_witness :
  probes_uninterrupted three_seasons_client "hamilton" 2025
  /\ run three_seasons_client 0
       (career.get_driver_career_standings 2025 "hamilton")
     = (inr (career.envelope
               [JDict [("season", JStr "2024")];
                JDict [("season", JStr "2022")];
                JDict [("season", JStr "2019")]]),
        ["2025/drivers/hamilton/driverStandings";
         "2024/drivers/hamilton/driverStandings";
         "2023/drivers/hamilton/driverStandings";
         "2022/drivers/hamilton/driverStandings";
         "2021/drivers/hamilton/driverStandings";
         "2020/drivers/hamilton/driverStandings";
         "2019/drivers/hamilton/driverStandings";
         "2018/drivers/hamilton/driverStandings";
         "2017/drivers/hamilton/driverStandings";
         "2016/drivers/hamilton/driverStandings"]).
Proof.
  split; [exact three_seasons_client_uninterrupted|].
  pose proof (scan_probes_each_year_once three_seasons_client "hamilton" 2025
                three_seasons_client_uninterrupted) as H.
  destruct (run three_seasons_client 0
              (career.get_driver_career_standings 2025 "hamilton"))
    as [returned asked].
  destruct H as [Hasked [_ [Hreturned _]]].
  rewrite Hasked, Hreturned. reflexivity.
Defined.

Lemma three_seasons_concatenated_witness :
  found (probe_answer three_seasons_client "hamilton" 2025 1)
    [JDict [("season", JStr "2024")]]
  /\ found (probe_answer three_seasons_client "hamilton" 2025 3)
       [JDict [("season", JStr "2022")]]
  /\ found (probe_answer three_seasons_client "hamilton" 2025 6)
       [JDict [("season", JStr "2019")]]
  /\ (forall n, (n < 10)%nat -> n <> 1%nat -> n <> 3%nat -> n <> 6%nat ->
                barren (probe_answer three_seasons_client "hamilton" 2025 n))
  /\ fst (run three_seasons_client 0
            (career.get_driver_career_standings 2025 "hamilton"))
     = inr (career.envelope
              ([JDict [("season", JStr "2024")]]
               ++ [JDict [("season", JStr "2022")]]
               ++ [JDict [("season", JStr "2019")]])%list).
Proof.
  assert (H1 : found (probe_answer three_seasons_client "hamilton" 2025 1)
                 [JDict [("season", JStr "2024")]]).
  { eexists. repeat split; try reflexivity. discriminate. }
  assert (H3 : found (probe_answer three_seasons_client "hamilton" 2025 3)
                 [JDict [("season", JStr "2022")]]).
  { eexists. repeat split; try reflexivity. discriminate. }
  assert (H6 : found (probe_answer three_seasons_client "hamilton" 2025 6)
                 [JDict [("season", JStr "2019")]]).
  { eexists. repeat split; try reflexivity. discriminate. }
  assert (Hrest : forall n, (n < 10)%nat -> n <> 1%nat -> n <> 3%nat ->
                            n <> 6%nat ->
                            barren (probe_answer three_seasons_client
                                      "hamilton" 2025 n)).
  { intros n Hn Hn1 Hn3 Hn6.
    do 10 (destruct n as [|n]; [try reflexivity; contradiction|]). lia. }
  split; [exact H1|]. split; [exact H3|]. split; [exact H6|].
  split; [exact Hrest|].
  apply (three_seasons_concatenated three_seasons_client "hamilton" 2025 1 3 6);
    try assumption; lia.
Defined.

Lemma envelope_or_absence_witness :
  fst (run three_seasons_client 0
         (career.get_driver_career_standings 2025 "hamilton"))
  = inr (career.envelope
           [JDict [("season", JStr "2024")];
            JDict [("season", JStr "2022")];
            JDict [("season", JStr "2019")]])
  /\ (forall n, (n < 10)%nat ->
                barren (probe_answer (always (raise timed_out)) "hamilton" 2025 n))
  /\ fst (run (always (raise timed_out)) 0
            (career.get_driver_career_standings 2025 "hamilton"))
     = inr JNull.
Proof.
  split; [|split].
  - apply (proj1 (envelope_or_absence three_seasons_client "hamilton" 2025)
             [JDict [("season", JStr "2024")];
              JDict [("season", JStr "2022")];
              JDict [("season", JStr "2019")]]).
    vm_compute. reflexivity.
  - intros n _. reflexivity.
  - apply (proj2 (envelope_or_absence (always (raise timed_out)) "hamilton" 2025)).
    intros n _. reflexivity.
Defined.

(** C10, as written, fails: when the task is cancelled while the first
    probe is awaited, [CancelledError] passes both [except Exception]
    clauses and leaves the aggregator. *)
Lemma aggregator_propagates_cancellation :
  run cancelled_client 0 (career.get_driver_career_standings 2025 "hamilton")
  = (inl (PySignal CancelledError ""), ["2025/drivers/hamilton/driverStandings"])
  /\ ~ exists returned,
         fst (run cancelled_client 0
                (career.get_driver_career_standings 2025 "hamilton"))
         = inr returned.
Proof.
  split; [vm_compute; reflexivity|].
  intros [returned H]. vm_compute in H. discriminate H.
Qed.

Lemma aggregator_total_on_exceptions_witness :
  probes_uninterrupted (always (raise timed_out)) "hamilton" 2025
  /\ exists returned,
       fst (run (always (raise timed_out)) 0
              (career.get_driver_career_standings 2025 "hamilton"))
       = inr returned
       /\ (returned = JNull
           \/ exists entries,
                entries <> [] /\ returned = career.envelope entries).
Proof.
  assert (H : probes_uninterrupted (always (raise timed_out)) "hamilton" 2025).
  { intros n _ e Heq. inversion Heq. reflexivity. }
  split; [exact H|].
  apply (aggregator_total_on_exceptions (always (raise timed_out))
           "hamilton" 2025 H).
Defined.

(** ** The formatters *)

(** C7, as written, fails: the formatter asks for the qualifying session
    before it looks at the results, so when that second request fails the
    two results are not rendered at all. *)
Lemma race_analysis_needs_qualifying :
  map ergast.position (ergast.results sample_race) = [Some "1"; Some "2"]
  /\ results_then_failure (ergast.race_table_json [sample_race]) timed_out
       0%nat "2021/1/results"
     = inr (ergast.race_table_json [sample_race])
  /\ run (results_then_failure (ergast.race_table_json [sample_race]) timed_out)
       0 (analysis_tools.get_race_analysis 2021 1)
     = (inr "Failed to get race analysis: Jolpica F1 API network error: timed out",
        ["2021/1/results"; "2021/1/qualifying"])
  /\ is_substring "P1: "
       "Failed to get race analysis: Jolpica F1 API network error: timed out"
     = false.
Proof.
  repeat split; vm_compute; reflexivity.
Qed.

Lemma race_analysis_of_two_results_witness :
  ergast.results sample_race
  = [ergast.mkResult (Some "1") (ergast.mkDriver "Lewis" "Hamilton")
       (ergast.mkConstructor "Mercedes") (Some "25") (Some "1:32:03.897")
       (Some "Finished") None;
     ergast.mkResult (Some "2") (ergast.mkDriver "Max" "Verstappen")
       (ergast.mkConstructor "Red Bull") (Some "18") (Some "+0.745")
       (Some "Finished") None]
  /\ analysis_tools.qualifying_section (JDict []) "" = inr ""
  /\ run (results_then (ergast.race_table_json [sample_race]) (JDict []))
       0 (analysis_tools.get_race_analysis 2021 1)
     = (inr ("🏁 **Bahrain Grand Prix - 2021 Race Analysis**" ++ LF ++ LF
             ++ "**Circuit:** Bahrain International Circuit" ++ LF
             ++ "**Location:** Sakhir, Bahrain" ++ LF
             ++ "**Date:** 2021-03-28" ++ LF
             ++ "🏁 **Round:** 1" ++ LF ++ LF
             ++ "**🏆 RACE RESULTS:**" ++ LF
             ++ "P1: Lewis Hamilton (Mercedes) - 25 pts (1:32:03.897)" ++ LF
             ++ "P2: Max Verstappen (Red Bull) - 18 pts (+0.745)" ++ LF
             ++ LF
             ++ "**🏆 Race Winner:** Lewis Hamilton (Mercedes)" ++ LF),
        ["2021/1/results"; "2021/1/qualifying"]).
Proof.
  split; [reflexivity|]. split; [reflexivity|].
  apply (race_analysis_of_two_results
           (results_then (ergast.race_table_json [sample_race]) (JDict []))
           sample_race
           (ergast.mkResult (Some "1") (ergast.mkDriver "Lewis" "Hamilton")
              (ergast.mkConstructor "Mercedes") (Some "25") (Some "1:32:03.897")
              (Some "Finished") None)
           (ergast.mkResult (Some "2") (ergast.mkDriver "Max" "Verstappen")
              (ergast.mkConstructor "Red Bull") (Some "18") (Some "+0.745")
              (Some "Finished") None)
           (JDict []) "");
    reflexivity.
Defined.

(** C8 does not hold of [get_race_analysis]: the formatter checks for
    [MRData] only, so an envelope whose [MRData] lacks the [RaceTable], the
    expected container, is answered with the text of the [KeyError] and
    not with a "no data" message.  [get_latest_race_results] checks for the
    table as well and answers the same envelope with its "no data"
    message. *)
Lemma missing_table_reported_as_failure :
  missing_container "RaceTable" (JDict [("MRData", JDict [])]) = true
  /\ fst (run (always (ok (JDict [("MRData", JDict [])]))) 0
            (analysis_tools.get_race_analysis 2021 1))
     = inr "Failed to get race analysis: 'RaceTable'"
  /\ "Failed to get race analysis: 'RaceTable'"
     <> analysis_tools.no_race_data 2021 1
  /\ "Failed to get race analysis: 'RaceTable'"
     <> analysis_tools.no_race_found 2021 1
  /\ fst (run (always (ok (JDict [("MRData", JDict [])]))) 0
            race_tools.get_latest_race_results)
     = inr race_tools.no_recent_results.
Proof.
  split; [reflexivity|]. split; [vm_compute; reflexivity|].
  split; [vm_compute; discriminate|].
  split; [vm_compute; discriminate|].
  vm_compute; reflexivity.
Qed.

Lemma formatters_return_text_witness :
  uninterrupted (always (ok (JDict [])))
  /\ (exists text,
         fst (run (always (ok (JDict []))) 0 race_tools.get_latest_race_results)
         = inr text
         /\ text = race_tools.no_recent_results)
  /\ (exists text,
         fst (run (always (ok (JDict []))) 0
                (analysis_tools.get_race_analysis 2021 1))
         = inr text
         /\ text = analysis_tools.no_race_data 2021 1).
Proof.
  assert (H : uninterrupted (always (ok (JDict [])))).
  { intros n endpoint e Heq. discriminate Heq. }
  split; [exact H|].
  destruct (formatters_return_text (always (ok (JDict []))) 2021 1 H)
    as [[latest [Hlatest [Hmissing _]]] [analysis [Hanalysis [Hnodata _]]]].
  split.
  - exists latest. split; [exact Hlatest|].
    apply (Hmissing (JDict [])); reflexivity.
  - exists analysis. split; [exact Hanalysis|].
    apply (Hnodata (JDict []) (JDict [])); reflexivity.
Defined.

(** ** Career statistics *)

(** C9, as written, fails: the position text "R" is not numeric, and the
    scan does not count the result as a "did not finish". *)
Lemma retirement_text_not_counted :
  map ergast.position (ergast.results retired_race) = [Some "R"]
  /\ int_of_text "R" = None
  /\ driver_tools.career_statistics (JList [ergast.race_json retired_race])
     = inr (driver_tools.mkStats 0 0 0 0).
Proof.
  repeat split; vm_compute; reflexivity.
Qed.

Lemma career_statistics_tallies_witness :
  driver_tools.career_statistics
    (JList (map ergast.race_json [sample_race; retired_race]))
  = inr (driver_tools.mkStats 1 2 43 0)
  /\ ergast.position
       (ergast.mkResult (Some "R") (ergast.mkDriver "Charles" "Leclerc")
          (ergast.mkConstructor "Ferrari") (Some "0") None (Some "Driveshaft")
          None)
     = Some "R"
  /\ "R" <> "N/A"
  /\ int_of_text "R" = None
  /\ is_win
       (ergast.mkResult (Some "R") (ergast.mkDriver "Charles" "Leclerc")
          (ergast.mkConstructor "Ferrari") (Some "0") None (Some "Driveshaft")
          None)
     = false
  /\ position_unknown
       (ergast.mkResult (Some "R") (ergast.mkDriver "Charles" "Leclerc")
          (ergast.mkConstructor "Ferrari") (Some "0") None (Some "Driveshaft")
          None)
     = false.
Proof.
  destruct (career_statistics_tallies [sample_race; retired_race])
    as [Hscan Hother].
  split; [rewrite Hscan; reflexivity|].
  split; [reflexivity|]. split; [discriminate|]. split; [reflexivity|].
  destruct (Hother
              (ergast.mkResult (Some "R") (ergast.mkDriver "Charles" "Leclerc")
                 (ergast.mkConstructor "Ferrari") (Some "0") None
                 (Some "Driveshaft") None)
              "R" eq_refl) as [Hwin [_ Hunknown]].
  - discriminate.
  - reflexivity.
  - split; assumption.
Defined.

(* ================================================================== *)
(** * Part IV. Further properties of the sources *)
(* ================================================================== *)

(** ** [make_jolpica_request]: what the inspection of the envelope does *)

Lemma log_table_object (kvs : list (string * json)) (table_key : string) :
  api_client.log_table (JDict kvs) table_key = inr tt.
Proof.
  unfold api_client.log_table. cbn [py_contains py_getitem bind_outcome ok].
  destruct (lookup table_key kvs); reflexivity.
Qed.

Lemma log_structure_harmless (json_data : json) :
  match mrdata_of json_data with
  | Some mr_data => is_object mr_data = true
  | None => True
  end ->
  api_client.log_structure json_data = inr tt.
Proof.
  unfold api_client.log_structure, mrdata_of.
  destruct json_data as [| | | | | |kvs]; try reflexivity.
  destruct (lookup "MRData" kvs) as [mr_data|]; [|reflexivity].
  destruct mr_data; try discriminate. intros _.
  rewrite !log_table_object. reflexivity.
Qed.

(** X1.  A 2xx response whose body decodes is returned as decoded, without
    any change, whenever the envelope has no [MRData] or has an object
    there: for these the logging of the structure changes nothing. *)
Theorem fetch_returns_envelope
    (client_get : string -> outcome api_client.response)
    (base_url endpoint : string) (r : api_client.response) (json_data : json) :
  client_get (api_client.request_url base_url endpoint) = inr r ->
  api_client.is_success r = true ->
  api_client.parsed r = inr json_data ->
  match mrdata_of json_data with
  | Some mr_data => is_object mr_data = true
  | None => True
  end ->
  api_client.make_jolpica_request client_get base_url endpoint = inr json_data.
Proof.
  intros Hget Hok Hparsed Hshape.
  unfold api_client.make_jolpica_request, api_client.request_body.
  rewrite Hget. cbn [bind_outcome]. unfold api_client.raise_for_status.
  rewrite Hok. cbn [bind_outcome ok]. rewrite Hparsed. cbn [bind_outcome].
  rewrite (log_structure_harmless _ Hshape). reflexivity.
Qed.

Lemma fetch_returns_envelope_witness :
  api_client.make_jolpica_request
    (fun _ => ok (api_client.mkResponse 200 "{}" (ok empty_standings)))
    DEFAULT_JOLPICA_BASE_URL "2024/drivers/hamilton/driverStandings"
  = inr empty_standings.
Proof.
  apply (fetch_returns_envelope _ _ _
           (api_client.mkResponse 200 "{}" (ok empty_standings)));
    reflexivity.
Defined.

(** X2.  The logging of the structure is not without effect: when the
    envelope of a 2xx response has a [null], a [bool] or a number under
    [MRData], the test ['DriverTable' in mr_data] raises [TypeError] inside
    the [try], and the client fails with the unknown-error kind although
    the status was 2xx and the body was valid JSON. *)
Theorem fetch_fails_on_scalar_mrdata
    (client_get : string -> outcome api_client.response)
    (base_url endpoint : string) (r : api_client.response)
    (json_data mr_data : json) :
  client_get (api_client.request_url base_url endpoint) = inr r ->
  api_client.is_success r = true ->
  api_client.parsed r = inr json_data ->
  mrdata_of json_data = Some mr_data ->
  is_scalar mr_data = true ->
  api_client.make_jolpica_request client_get base_url endpoint
  = inl (McpError
           (mkErrorData INTERNAL_ERROR
              ("Jolpica F1 API unexpected error: argument of type "
               ++ quote (type_name mr_data) ++ " is not iterable"))
           (Some (PyError TypeError
                    ("argument of type " ++ quote (type_name mr_data)
                     ++ " is not iterable")))).
Proof.
  intros Hget Hok Hparsed Hmr Hscalar.
  unfold api_client.make_jolpica_request, api_client.request_body.
  rewrite Hget. cbn [bind_outcome]. unfold api_client.raise_for_status.
  rewrite Hok. cbn [bind_outcome ok]. rewrite Hparsed. cbn [bind_outcome].
  destruct json_data as [| | | | | |kvs]; try discriminate Hmr.
  cbn [mrdata_of] in Hmr. cbn [api_client.log_structure]. rewrite Hmr.
  destruct mr_data; try discriminate Hscalar; reflexivity.
Qed.

Lemma fetch_fails_on_scalar_mrdata_witness :
  api_client.make_jolpica_request odd_envelope_client
    DEFAULT_JOLPICA_BASE_URL "drivers/hamilton"
  = inl (McpError
           (mkErrorData INTERNAL_ERROR
              "Jolpica F1 API unexpected error: argument of type 'int' is not iterable")
           (Some (PyError TypeError "argument of type 'int' is not iterable"))).
Proof.
  apply (fetch_fails_on_scalar_mrdata odd_envelope_client
           DEFAULT_JOLPICA_BASE_URL "drivers/hamilton"
           (api_client.mkResponse 200 "{}" (ok (JDict [("MRData", JInt 5)])))
           (JDict [("MRData", JInt 5)]) (JInt 5));
    reflexivity.
Defined.

(** X3.  The status is checked before the body is decoded: for every
    response whose status is outside 200..299, redirects and informational
    responses included, the client fails with the HTTP-error message built
    from the status code and the body text, whatever [response.json()]
    would have done with the body. *)
Theorem status_checked_before_body
    (client_get : string -> outcome api_client.response)
    (base_url endpoint : string) (r : api_client.response) :
  client_get (api_client.request_url base_url endpoint) = inr r ->
  api_client.is_success r = false ->
  api_client.make_jolpica_request client_get base_url endpoint
  = inl (McpError
           (mkErrorData INTERNAL_ERROR
              ("Jolpica F1 API HTTP error "
               ++ string_of_Z (api_client.status_code r) ++ ": "
               ++ api_client.text r))
           (Some (HTTPStatusError (api_client.status_code r) (api_client.text r)
                    ("HTTP status " ++ string_of_Z (api_client.status_code r))))).
Proof.
  intros Hget Hfail.
  unfold api_client.make_jolpica_request, api_client.request_body.
  rewrite Hget. cbn [bind_outcome]. unfold api_client.raise_for_status.
  rewrite Hfail. reflexivity.
Qed.

Lemma status_checked_before_body_witness :
  api_client.make_jolpica_request
    (fun _ => ok (api_client.mkResponse 301 "Moved"
                    (raise (JSONDecodeError "Expecting value"))))
    DEFAULT_JOLPICA_BASE_URL "drivers/hamilton"
  = inl (McpError
           (mkErrorData INTERNAL_ERROR "Jolpica F1 API HTTP error 301: Moved")
           (Some (HTTPStatusError 301 "Moved" "HTTP status 301"))).
Proof.
  apply (status_checked_before_body _ _ _
           (api_client.mkResponse 301 "Moved"
              (raise (JSONDecodeError "Expecting value"))));
    reflexivity.
Defined.

(** ** [format_race_datetime] *)

Section RaceDatetime.
Context {RT : PyRuntime}.

Lemma benign_format_body (date_str time_str : json) :
  benign (datetime_format.format_body date_str time_str).
Proof.
  unfold datetime_format.format_body, datetime_format.endswith_Z,
    datetime_format.fromisoformat_value. benign_cases.
Qed.

(** X4.  [format_race_datetime] returns for every pair of values, of any
    type, and for every behaviour of the date parser; for a date that is
    absent, empty or otherwise falsy it returns "TBD", whatever the time. *)
Theorem format_race_datetime_total (date_str time_str : json) :
  (exists shown,
      datetime_format.format_race_datetime date_str time_str = inr shown)
  /\ (truthy date_str = false ->
      datetime_format.format_race_datetime date_str time_str
      = inr (JStr "TBD")).
Proof.
  split.
  - unfold datetime_format.format_race_datetime.
    destruct (datetime_format.format_body date_str time_str) as [e|v] eqn:Hbody.
    + rewrite (benign_format_body _ _ _ Hbody). eexists. reflexivity.
    + eexists. reflexivity.
  - intro Hfalsy. unfold datetime_format.format_race_datetime,
      datetime_format.format_body. rewrite Hfalsy. reflexivity.
Qed.

Lemma truthy_text (s : string) : s <> "" -> truthy (JStr s) = true.
Proof.
  intro H. cbn. apply String.eqb_neq in H. now rewrite H.
Qed.

Lemma format_text (date_str time_str : string) :
  date_str <> "" -> time_str <> "" ->
  datetime_format.format_race_datetime (JStr date_str) (JStr time_str)
  = inr (match fromisoformat (iso_text date_str time_str) with
         | Some dt => JStr (strftime dt "%B %d, %Y at %H:%M UTC")
         | None => JStr (date_str ++ " " ++ time_str)
         end).
Proof.
  intros Hdate Htime.
  unfold datetime_format.format_race_datetime, datetime_format.format_body,
    iso_text.
  rewrite (truthy_text _ Hdate), (truthy_text _ Htime).
  cbn [datetime_format.endswith_Z py_contains bind_outcome ok py_str].
  destruct (endswith_char "Z" time_str); cbn [orb bind_outcome ok].
  - cbn [datetime_format.fromisoformat_value].
    destruct (fromisoformat _); reflexivity.
  - destruct (is_substring "+" time_str); cbn [orb bind_outcome ok].
    + cbn [datetime_format.fromisoformat_value].
      destruct (fromisoformat _); reflexivity.
    + destruct (is_substring "-" time_str);
        cbn [datetime_format.fromisoformat_value];
        destruct (fromisoformat _); reflexivity.
Qed.

(** X5.  On a date and a time that are non-empty text the function shows
    the parsed moment when [datetime.fromisoformat] accepts the text built
    from them, and otherwise the raw date and the raw time with one space
    between: a malformed date is passed on, never dropped. *)
Theorem format_race_datetime_on_text (date_str time_str : string) :
  date_str <> "" -> time_str <> "" ->
  datetime_format.format_race_datetime (JStr date_str) (JStr time_str)
  = inr (match fromisoformat (iso_text date_str time_str) with
         | Some dt => JStr (strftime dt "%B %d, %Y at %H:%M UTC")
         | None => JStr (date_str ++ " " ++ time_str)
         end).
Proof. exact (format_text date_str time_str). Qed.

(** X6.  Without a time (absent, [None] or empty) the date alone is
    parsed and shown with the format "%B %d, %Y"; a date that does not
    parse, or that is not text at all, is returned as it came. *)
Theorem format_race_datetime_date_only (date_str time_str : json) :
  truthy date_str = true -> truthy time_str = false ->
  datetime_format.format_race_datetime date_str time_str
  = inr (match date_str with
         | JStr s =>
             match fromisoformat s with
             | Some dt => JStr (strftime dt "%B %d, %Y")
             | None => date_str
             end
         | _ => date_str
         end).
Proof.
  intros Hdate Htime.
  unfold datetime_format.format_race_datetime, datetime_format.format_body.
  rewrite Hdate, Htime.
  destruct date_str; cbn [datetime_format.fromisoformat_value bind_outcome];
    try (cbn; rewrite ?Htime; reflexivity).
  destruct (fromisoformat s); cbn; rewrite ?Htime; reflexivity.
Qed.

Lemma replace_char_app (c : ascii) (by_ a b : string) :
  replace_char c by_ (a ++ b) = replace_char c by_ a ++ replace_char c by_ b.
Proof.
  induction a as [|x a IH]; cbn [append replace_char]; [reflexivity|].
  destruct (Ascii.eqb x c); rewrite IH.
  - now rewrite app_assoc_string.
  - reflexivity.
Qed.

Lemma endswith_char_snoc (c : ascii) (s : string) :
  endswith_char c (s ++ String c "") = true.
Proof.
  induction s as [|a s IH]; cbn [append endswith_char].
  - apply Ascii.eqb_refl.
  - destruct (s ++ String c "") eqn:E; [|exact IH].
    destruct s; discriminate E.
Qed.

Lemma absent_char_not_last (c : ascii) (s : string) :
  is_substring (String c "") s = false -> endswith_char c s = false.
Proof.
  induction s as [|a s IH]; [reflexivity|].
  rewrite is_substring_unfold. intro H.
  apply orb_false_iff in H. destruct H as [Hhead Htail].
  cbn [endswith_char]. destruct s as [|b s].
  - cbn in Hhead. destruct (ascii_dec c a) as [->|Hne].
    + discriminate Hhead.
    + apply Ascii.eqb_neq. congruence.
  - apply IH, Htail.
Qed.

Lemma iso_text_zulu (date_str time_str : string) :
  is_substring "Z" time_str = false ->
  is_substring "+" time_str = false ->
  is_substring "-" time_str = false ->
  iso_text date_str (time_str ++ "Z") = iso_text date_str time_str.
Proof.
  intros HZ Hplus Hminus. unfold iso_text.
  rewrite endswith_char_snoc, (absent_char_not_last _ _ HZ), Hplus, Hminus.
  cbn [orb].
  rewrite !replace_char_app. reflexivity.
Qed.

(** X7.  A UTC time written with the suffix "Z" and the same time written
    without any zone are the same moment: when the time holds no "Z", "+"
    or "-" and the text parses, both are shown alike. *)
Theorem zulu_suffix_is_utc (date_str time_str : string) (dt : datetime) :
  date_str <> "" -> time_str <> "" ->
  is_substring "Z" time_str = false ->
  is_substring "+" time_str = false ->
  is_substring "-" time_str = false ->
  fromisoformat (iso_text date_str time_str) = Some dt ->
  datetime_format.format_race_datetime (JStr date_str) (JStr (time_str ++ "Z"))
  = inr (JStr (strftime dt "%B %d, %Y at %H:%M UTC"))
  /\ datetime_format.format_race_datetime (JStr date_str) (JStr time_str)
     = inr (JStr (strftime dt "%B %d, %Y at %H:%M UTC")).
Proof.
  intros Hdate Htime HZ Hplus Hminus Hparse. split.
  - rewrite format_text; [|exact Hdate|destruct time_str; discriminate].
    rewrite (iso_text_zulu _ _ HZ Hplus Hminus), Hparse. reflexivity.
  - rewrite (format_text _ _ Hdate Htime), Hparse. reflexivity.
Qed.

End RaceDatetime.

Lemma format_race_datetime_on_text_witness :
  datetime_format.format_race_datetime (JStr "2021-03-28") (JStr "15:00:00Z")
  = inr (JStr "March 28, 2021 at 15:00 UTC")
  /\ datetime_format.format_race_datetime (JStr "28/03/2021") (JStr "3pm")
     = inr (JStr "28/03/2021 3pm").
Proof.
  split.
  - rewrite (format_race_datetime_on_text "2021-03-28" "15:00:00Z");
      [reflexivity | discriminate | discriminate].
  - rewrite (format_race_datetime_on_text "28/03/2021" "3pm");
      [reflexivity | discriminate | discriminate].
Defined.

Lemma format_race_datetime_total_witness :
  truthy (JStr "") = false
  /\ datetime_format.format_race_datetime (JStr "") (JList [JInt 1])
     = inr (JStr "TBD").
Proof.
  split; [reflexivity|].
  apply (proj2 (format_race_datetime_total (JStr "") (JList [JInt 1]))).
  reflexivity.
Defined.

Lemma format_race_datetime_date_only_witness :
  datetime_format.format_race_datetime (JStr "2021-03-28") JNull
  = inr (JStr "March 28, 2021")
  /\ datetime_format.format_race_datetime (JInt 2021) JNull = inr (JInt 2021).
Proof.
  split.
  - rewrite (format_race_datetime_date_only (JStr "2021-03-28") JNull);
      reflexivity.
  - rewrite (format_race_datetime_date_only (JInt 2021) JNull); reflexivity.
Defined.

Lemma zulu_suffix_is_utc_witness :
  datetime_format.format_race_datetime (JStr "2021-03-28") (JStr "15:00:00Z")
  = inr (JStr "March 28, 2021 at 15:00 UTC")
  /\ datetime_format.format_race_datetime (JStr "2021-03-28") (JStr "15:00:00")
     = inr (JStr "March 28, 2021 at 15:00 UTC").
Proof.
  apply (@zulu_suffix_is_utc reference_runtime "2021-03-28" "15:00:00"
           (reference.mkMoment 2021 3 28 15 0));
    try discriminate; reflexivity.
Defined.

(** ** [get_driver_career_standings], continued *)

Lemma fold_yields (answer : nat -> outcome json) (yields : nat -> list json)
    (indices : list nat) :
  (forall i, In i indices ->
             found (answer i) (yields i)
             \/ (barren (answer i) /\ yields i = [])) ->
  forall acc,
    fold_left (fun acc i => absorb (answer i) acc) indices acc
    = (acc ++ List.concat (map yields indices))%list.
Proof.
  induction indices as [|i indices IH]; intros Hprobes acc;
    cbn [fold_left map List.concat].
  - now rewrite app_nil_r.
  - rewrite IH by (intros k Hk; apply Hprobes; now right).
    destruct (Hprobes i (or_introl eq_refl)) as [Hfound|[Hbarren Hnone]].
    + rewrite (absorb_found _ _ acc Hfound). now rewrite app_assoc.
    + rewrite (absorb_barren _ acc Hbarren), Hnone. reflexivity.
Qed.

(** X8.  The list the aggregator returns is the concatenation, in probe
    order, of the [StandingsLists] of the years that had some: a year whose
    envelope holds a non-empty list under [MRData], [StandingsTable],
    [StandingsLists] yields the entries of that list, all of them and in
    their order, and a year whose probe failed or whose envelope has no
    such list, or an empty one, yields nothing.  Whatever the number of
    years with standings, nothing is dropped, reordered or merged; the
    aggregator returns the envelope around the concatenation, or [None]
    when it is empty. *)
Theorem standings_are_concatenated
    (fetcher : nat -> string -> outcome json) (driver_id : string)
    (current_year : Z) (yields : nat -> list json) :
  (forall i, (i < 10)%nat ->
             found (probe_answer fetcher driver_id current_year i) (yields i)
             \/ (barren (probe_answer fetcher driver_id current_year i)
                 /\ yields i = [])) ->
  fst (run fetcher 0
         (career.get_driver_career_standings current_year driver_id))
  = inr (match List.concat (map yields (seq 0 10)) with
         | [] => JNull
         | entries =>
             JDict [("MRData",
                     JDict [("StandingsTable",
                             JDict [("StandingsLists", JList entries)])])]
         end).
Proof.
  intro Hprobes.
  assert (Hbenign : forall i, (i < 10)%nat ->
                      benign (probe_answer fetcher driver_id current_year i)).
  { intros i Hi. destruct (Hprobes i Hi) as [Hfound|[Hbarren _]].
    - eapply found_benign, Hfound.
    - apply barren_benign, Hbarren. }
  rewrite run_career by (apply window_probes_benign, Hbenign).
  cbn [fst]. rewrite gathered_in_window.
  rewrite (fold_yields _ yields)
    by (intros i Hi; apply Hprobes; apply in_seq in Hi; lia).
  cbn [app]. unfold career.conclude, career.envelope.
  destruct (List.concat (map yields (seq 0 10))); reflexivity.
Qed.

Lemma standings_are_concatenated_witness :
  fst (run three_seasons_client 0
         (career.get_driver_career_standings 2025 "hamilton"))
  = inr (JDict [("MRData",
                 JDict [("StandingsTable",
                         JDict [("StandingsLists",
                                 JList [JDict [("season", JStr "2024")];
                                        JDict [("season", JStr "2022")];
                                        JDict [("season", JStr "2019")]])])])]).
Proof.
  apply (standings_are_concatenated three_seasons_client "hamilton" 2025
           (fun i => match i with
                     | 1%nat => [JDict [("season", JStr "2024")]]
                     | 3%nat => [JDict [("season", JStr "2022")]]
                     | 6%nat => [JDict [("season", JStr "2019")]]
                     | _ => []
                     end)).
  intros i Hi.
  do 10 (destruct i as [|i];
         [first [ left; eexists; split; [reflexivity|];
                  split; [reflexivity|discriminate]
                | right; split; reflexivity ]|]).
  lia.
Defined.

Lemma string_of_Z_no_slash (z : Z) (rest : string) :
  starts_with_slash (string_of_Z z ++ rest) = false.
Proof.
  unfold string_of_Z. destruct z as [|p|p]; cbn.
  - reflexivity.
  - destruct (Pos.to_uint p); reflexivity.
  - reflexivity.
Qed.

Lemma probe_url (base_url driver_id : string) (year : Z) :
  api_client.request_url base_url (career.standings_endpoint year driver_id)
  = base_url ++ "/" ++ string_of_Z year ++ "/drivers/" ++ driver_id
    ++ "/driverStandings.json".
Proof.
  unfold api_client.request_url, career.standings_endpoint.
  rewrite lstrip_fixed by apply string_of_Z_no_slash.
  f_equal. f_equal. strings.
Qed.

(** X9.  Over the real client: when the service answers the URL of each
    of the ten years, "{base}/{year}/drivers/{driver_id}/driverStandings.json",
    with a status outside 2xx (an unknown driver gets 404 every time), the
    aggregator still asks all ten years and then returns [None]; it does
    not raise and does not stop at the first error. *)
Theorem unknown_driver_yields_none
    (client_get : nat -> string -> outcome api_client.response)
    (base_url driver_id : string) (current_year : Z) :
  (forall i, (i < 10)%nat ->
             exists r,
               client_get i
                 (base_url ++ "/" ++ string_of_Z (current_year - Z.of_nat i)
                  ++ "/drivers/" ++ driver_id ++ "/driverStandings.json")
               = inr r
               /\ api_client.is_success r = false) ->
  run (http_fetcher client_get base_url) 0
    (career.get_driver_career_standings current_year driver_id)
  = (inr JNull,
     map (fun year => career.standings_endpoint year driver_id)
       (window current_year)).
Proof.
  intro Hclient.
  assert (Hbarren : forall i, (i < 10)%nat ->
            barren (probe_answer (http_fetcher client_get base_url)
                      driver_id current_year i)).
  { intros i Hi. destruct (Hclient i Hi) as [r [Hget Hfail]].
    unfold probe_answer, http_fetcher, api_client.make_jolpica_request,
      api_client.request_body.
    rewrite probe_url, Hget. cbn [bind_outcome].
    unfold api_client.raise_for_status. rewrite Hfail. reflexivity. }
  rewrite run_career.
  - rewrite gathered_in_window, py_range_window.
    rewrite (fold_barren _ 10 0) by (intros; apply Hbarren; lia).
    reflexivity.
  - apply window_probes_benign. intros i Hi. apply barren_benign, Hbarren, Hi.
Qed.

Lemma unknown_driver_yields_none_witness :
  run (http_fetcher all_not_found DEFAULT_JOLPICA_BASE_URL) 0
    (career.get_driver_career_standings 2025 "nobody")
  = (inr JNull,
     map (fun year => career.standings_endpoint year "nobody") (window 2025)).
Proof.
  apply (unknown_driver_yields_none all_not_found DEFAULT_JOLPICA_BASE_URL
           "nobody" 2025).
  intros i _. exists (api_client.mkResponse 404 "Not Found" (ok JNull)).
  split; reflexivity.
Defined.

(** ** [get_race_analysis], continued *)

Section RaceAnalysisMore.
Context {RT : PyRuntime}.

Lemma result_lines_text (rs : list ergast.Result) :
  forallb has_position rs = true ->
  forall acc,
    for_each analysis_tools.result_line (map ergast.result_json rs) acc
    = inr (acc ++ analysis_lines rs).
Proof.
  unfold analysis_lines.
  induction rs as [|r rs IH]; intros Hall acc; cbn [map for_each fold_right].
  - now rewrite string_app_nil.
  - cbn [forallb] in Hall. apply andb_true_iff in Hall.
    destruct Hall as [Hr Hrs]. unfold has_position in Hr.
    destruct (ergast.position r) as [p|] eqn:Hp; [|discriminate].
    rewrite (result_line_text acc r p Hp). cbn [bind_outcome].
    rewrite (IH Hrs). f_equal.
    unfold analysis_line. rewrite Hp. strings.
Qed.

Lemma result_line_without_position (acc : string) (r : ergast.Result) :
  ergast.position r = None ->
  analysis_tools.result_line acc (ergast.result_json r)
  = inl (PyError KeyError "'position'").
Proof.
  intro Hp. unfold analysis_tools.result_line.
  rewrite result_driver, result_constructor. cbn [bind_outcome].
  destruct r as [pos d c pts t st fl]. cbn in Hp. subst pos.
  destruct pts, t, st, fl; reflexivity.
Qed.

Lemma result_lines_fail (rs : list ergast.Result) :
  forallb has_position rs = false ->
  forall acc,
    for_each analysis_tools.result_line (map ergast.result_json rs) acc
    = inl (PyError KeyError "'position'").
Proof.
  induction rs as [|r rs IH]; intros Hsome acc; [discriminate|].
  cbn [map for_each]. cbn [forallb] in Hsome. unfold has_position in Hsome at 1.
  destruct (ergast.position r) as [p|] eqn:Hp.
  - rewrite (result_line_text acc r p Hp). cbn [bind_outcome].
    apply IH. exact Hsome.
  - rewrite (result_line_without_position acc r Hp). reflexivity.
Qed.

Lemma winner_text_of (race : ergast.Race) (acc : string) :
  analysis_tools.winner_section (ergast.race_json race) acc
  = inr (acc ++ winner_text (ergast.results race)).
Proof.
  destruct (ergast.results race) as [|winner others] eqn:Hresults.
  - unfold analysis_tools.winner_section. rewrite race_results, Hresults.
    cbn. now rewrite string_app_nil.
  - rewrite (winner_section_text race winner others acc Hresults).
    reflexivity.
Qed.

Lemma results_section_of (race : ergast.Race) (acc : string) :
  analysis_tools.results_section (ergast.race_json race) acc
  = if forallb has_position (firstn 10 (ergast.results race))
    then inr (acc ++ "**🏆 RACE RESULTS:**" ++ LF
              ++ analysis_lines (firstn 10 (ergast.results race)) ++ LF
              ++ winner_text (ergast.results race))
    else inl (PyError KeyError "'position'").
Proof.
  unfold analysis_tools.results_section.
  rewrite race_has_results, race_results.
  cbn [bind_outcome ok py_slice_to py_iter]. rewrite firstn_map.
  destruct (forallb has_position (firstn 10 (ergast.results race))) eqn:Hall.
  - rewrite (result_lines_text _ Hall). cbn [bind_outcome].
    rewrite winner_text_of. f_equal. strings.
  - rewrite (result_lines_fail _ Hall). reflexivity.
Qed.

Lemma analyse_first_race (race : ergast.Race) (others : list ergast.Race)
    (year round_num : Z) (quali_data : json) (qualifying_block : string) :
  analysis_tools.qualifying_section quali_data "" = inr qualifying_block ->
  analysis_tools.analyse year round_num
    (ergast.race_table_json (race :: others)) quali_data
  = if forallb has_position (firstn 10 (ergast.results race))
    then inr (analysis_header race year ++ qualifying_block
              ++ "**🏆 RACE RESULTS:**" ++ LF
              ++ analysis_lines (firstn 10 (ergast.results race)) ++ LF
              ++ winner_text (ergast.results race))
    else inl (PyError KeyError "'position'").
Proof.
  intro Hquali. unfold analysis_tools.analyse.
  change (lacks_mrdata (ergast.race_table_json (race :: others)))
    with (ok false : outcome bool).
  cbn [bind_outcome ok ergast.race_table_json py_getitem py_get lookup String.eqb
       Ascii.eqb Bool.eqb map truthy negb py_first].
  change (py_getitem (ergast.race_json race) "Circuit")
    with (ok (ergast.circuit_json (ergast.circuit race)) : outcome json).
  cbn [bind_outcome ok].
  change (py_getitem (ergast.circuit_json (ergast.circuit race)) "Location")
    with (ok (ergast.location_json (ergast.location (ergast.circuit race)))
          : outcome json).
  cbn [bind_outcome ok].
  rewrite header_text. cbn [bind_outcome].
  rewrite (qualifying_section_append _ _ _ Hquali). cbn [bind_outcome].
  rewrite results_section_of.
  destruct (forallb has_position (firstn 10 (ergast.results race)));
    [|reflexivity].
  f_equal. strings.
Qed.

Lemma returned_is_benign {A} (o : outcome A) (a : A) : o = inr a -> benign o.
Proof. intros -> e H. discriminate H. Qed.

(** X10.  Only the first race of the table is analysed, and of its results
    only the first ten: when both requests return and the qualifying block
    renders, the text is the header, the qualifying block, one line for
    each of the first ten results in their order, and the winner lines
    about the first result.  Results after the tenth are not read at all,
    so a missing position there does no harm. *)
Theorem race_analysis_shows_top_ten
    (fetcher : nat -> string -> outcome json) (year round_num : Z)
    (race : ergast.Race) (others : list ergast.Race) (quali_data : json)
    (qualifying_block : string) :
  fetcher 0%nat
    (string_of_Z year ++ "/" ++ analysis_tools.round_identifier round_num
     ++ "/results")
  = inr (ergast.race_table_json (race :: others)) ->
  fetcher 1%nat
    (string_of_Z year ++ "/" ++ analysis_tools.round_identifier round_num
     ++ "/qualifying")
  = inr quali_data ->
  analysis_tools.qualifying_section quali_data "" = inr qualifying_block ->
  forallb has_position (firstn 10 (ergast.results race)) = true ->
  fst (run fetcher 0 (analysis_tools.get_race_analysis year round_num))
  = inr (analysis_header race year ++ qualifying_block
         ++ "**🏆 RACE RESULTS:**" ++ LF
         ++ analysis_lines (firstn 10 (ergast.results race)) ++ LF
         ++ winner_text (ergast.results race)).
Proof.
  intros Hrace Hquali Hblock Hall.
  rewrite run_race_analysis by (eapply returned_is_benign; eassumption).
  rewrite Hrace, Hquali. cbn [bind_outcome].
  rewrite (analyse_first_race _ _ _ _ _ _ Hblock), Hall. reflexivity.
Qed.

(** X11.  A result among the first ten that has no position field makes
    the whole analysis fail: the formatter answers with the text of the
    [KeyError], and renders no line at all, not even those of the results
    before it. *)
Theorem race_analysis_needs_positions
    (fetcher : nat -> string -> outcome json) (year round_num : Z)
    (race : ergast.Race) (others : list ergast.Race) (quali_data : json)
    (qualifying_block : string) :
  fetcher 0%nat
    (string_of_Z year ++ "/" ++ analysis_tools.round_identifier round_num
     ++ "/results")
  = inr (ergast.race_table_json (race :: others)) ->
  fetcher 1%nat
    (string_of_Z year ++ "/" ++ analysis_tools.round_identifier round_num
     ++ "/qualifying")
  = inr quali_data ->
  analysis_tools.qualifying_section quali_data "" = inr qualifying_block ->
  forallb has_position (firstn 10 (ergast.results race)) = false ->
  fst (run fetcher 0 (analysis_tools.get_race_analysis year round_num))
  = inr "Failed to get race analysis: 'position'".
Proof.
  intros Hrace Hquali Hblock Hsome.
  rewrite run_race_analysis by (eapply returned_is_benign; eassumption).
  rewrite Hrace, Hquali. cbn [bind_outcome].
  rewrite (analyse_first_race _ _ _ _ _ _ Hblock), Hsome. reflexivity.
Qed.

(** X12.  The formatter asks for the results first; it asks for the
    qualifying session whenever that first request returned, even when the
    envelope returned is empty and the answer will be the "no data"
    message, and it does not ask for it when the first request failed.
    It never asks for anything else. *)
Theorem race_analysis_requests
    (fetcher : nat -> string -> outcome json) (year round_num : Z) :
  let results_endpoint :=
    string_of_Z year ++ "/" ++ analysis_tools.round_identifier round_num
    ++ "/results" in
  let qualifying_endpoint :=
    string_of_Z year ++ "/" ++ analysis_tools.round_identifier round_num
    ++ "/qualifying" in
  snd (run fetcher 0 (analysis_tools.get_race_analysis year round_num))
  = match fetcher 0%nat results_endpoint with
    | inl _ => [results_endpoint]
    | inr _ => [results_endpoint; qualifying_endpoint]
    end.
Proof.
  intros results_endpoint qualifying_endpoint.
  unfold analysis_tools.get_race_analysis.
  fold results_endpoint qualifying_endpoint.
  cbn [run try_except bind request].
  destruct (fetcher 0%nat results_endpoint) as [e|race_data].
  - cbn [bind try_except]. destruct (is_Exception e); reflexivity.
  - cbn [run try_except bind].
    destruct (fetcher 1%nat qualifying_endpoint) as [e|quali_data].
    + cbn [bind try_except]. destruct (is_Exception e); reflexivity.
    + cbn [bind]. 
      destruct (analysis_tools.analyse year round_num race_data quali_data)
        as [e|text]; cbn [lift try_except]; [|reflexivity].
      destruct (is_Exception e); reflexivity.
Qed.

End RaceAnalysisMore.

Lemma race_analysis_shows_top_ten_witness :
  forallb has_position (ergast.results crowded_race) = false
  /\ fst (run (results_then (ergast.race_table_json [crowded_race]) (JDict []))
            0 (analysis_tools.get_race_analysis 2021 1))
     = inr (analysis_header crowded_race 2021 ++ ""
            ++ "**🏆 RACE RESULTS:**" ++ LF
            ++ analysis_lines (firstn 10 (ergast.results crowded_race)) ++ LF
            ++ winner_text (ergast.results crowded_race)).
Proof.
  split; [reflexivity|].
  apply (race_analysis_shows_top_ten
           (results_then (ergast.race_table_json [crowded_race]) (JDict []))
           2021 1 crowded_race [] (JDict []) "");
    reflexivity.
Defined.

Lemma race_analysis_needs_positions_witness :
  fst (run (results_then (ergast.race_table_json [broken_race]) (JDict []))
         0 (analysis_tools.get_race_analysis 2021 1))
  = inr "Failed to get race analysis: 'position'".
Proof.
  apply (race_analysis_needs_positions
           (results_then (ergast.race_table_json [broken_race]) (JDict []))
           2021 1 broken_race [] (JDict []) "");
    reflexivity.
Defined.

Section QualifyingBlock.
Context {RT : PyRuntime}.

Lemma qualifying_line_text (acc : string) (i : Z) (e : qualifying.Entry) :
  analysis_tools.qualifying_line acc (i, qualifying.entry_json e)
  = inr (acc ++ "P" ++ string_of_Z i ++ ": " ++ qualifying.who e ++ " - "
         ++ qualifying.best_time e ++ LF).
Proof.
  destruct e as [pos [given family] [team] q1 q2 q3].
  destruct pos, q1, q2, q3; cbn; f_equal; strings.
Qed.

Lemma qualifying_lines_text (entries : list qualifying.Entry) :
  forall (start : Z) (acc : string),
    for_each analysis_tools.qualifying_line
      (enumerate start (map qualifying.entry_json entries)) acc
    = inr (acc ++ qualifying.numbered_lines start entries).
Proof.
  induction entries as [|e entries IH]; intros start acc.
  - cbn. now rewrite string_app_nil.
  - cbn [map enumerate for_each]. rewrite qualifying_line_text.
    cbn [bind_outcome]. rewrite IH. cbn [qualifying.numbered_lines].
    f_equal. strings.
Qed.

(** X13.  The qualifying block of the race analysis is about the first
    session of the table only: a heading, then one line for each of the
    first ten entries, numbered from 1 by their place in the list (the
    position field of the entry is not read), each with the time of the
    last session the driver set a time in: Q3, else Q2, else Q1, else
    "N/A".  A session without entries still gets its heading. *)
Theorem qualifying_block_numbered
    (race : ergast.Race) (entries : list qualifying.Entry)
    (others : list json) (response : string) :
  analysis_tools.qualifying_section
    (qualifying.table_json (qualifying.session_json race entries :: others))
    response
  = inr (response ++ "**⏱️ QUALIFYING RESULTS:**" ++ LF
         ++ qualifying.numbered_lines 1 (firstn 10 entries) ++ LF).
Proof.
  unfold analysis_tools.qualifying_section, qualifying.table_json,
    qualifying.session_json, analysis_tools.qualifying_races.
  cbn [truthy py_contains py_getitem py_get lookup String.eqb Ascii.eqb
       Bool.eqb bind_outcome ok py_first negb existsb dict_keys map fst
       eq_str orb andb py_slice_to py_iter].
  rewrite firstn_map, qualifying_lines_text. cbn [bind_outcome].
  f_equal. strings.
Qed.

End QualifyingBlock.

(** ** [get_latest_race_results], continued *)

Section LatestRaceResults.
Context {RT : PyRuntime}.

Lemma latest_header_text (race : ergast.Race) :
  race_tools.header (ergast.race_json race)
    (ergast.circuit_json (ergast.circuit race))
    (ergast.location_json (ergast.location (ergast.circuit race)))
  = inr (latest_header race).
Proof.
  unfold race_tools.header, latest_header, shown_date.
  destruct race as [race_name round date [circuit_name [locality country]] rs].
  cbn [ergast.race_json ergast.circuit_json ergast.location_json
       ergast.raceName ergast.round ergast.date ergast.circuit
       ergast.circuitName ergast.location ergast.locality ergast.country
       py_getitem py_get lookup String.eqb Ascii.eqb Bool.eqb bind_outcome ok].
  unfold datetime_format.format_race_datetime, datetime_format.format_body.
  destruct date as [|c date]; [reflexivity|].
  cbn [truthy negb String.eqb datetime_format.fromisoformat_value].
  destruct (fromisoformat (String c date)); reflexivity.
Qed.

Lemma position_block_text (acc : string) (r : ergast.Result) (p : string) :
  ergast.position r = Some p ->
  race_tools.position_block acc (ergast.result_json r)
  = inr (acc ++ position_text r).
Proof.
  intro Hp. destruct r as [pos [given family] [team] pts t st fl].
  cbn in Hp. subst pos.
  destruct pts, t, st, fl; cbn; f_equal; strings.
Qed.

Lemma position_blocks_text (rs : list ergast.Result) :
  forallb has_position rs = true ->
  forall acc,
    for_each race_tools.position_block (map ergast.result_json rs) acc
    = inr (acc ++ position_texts rs).
Proof.
  induction rs as [|r rs IH]; intros Hall acc.
  - cbn. now rewrite string_app_nil.
  - cbn [forallb] in Hall. apply andb_prop in Hall as [Hr Hrs].
    unfold has_position in Hr.
    destruct (ergast.position r) as [p|] eqn:Hp; [|discriminate].
    cbn [map for_each]. rewrite (position_block_text acc r p Hp).
    cbn [bind_outcome]. rewrite (IH Hrs).
    unfold position_texts. cbn [map fold_right]. f_equal. strings.
Qed.

Lemma render_first_race (race : ergast.Race) (others : list ergast.Race) :
  race_tools.render (ergast.race_table_json (race :: others))
  = match ergast.results race with
    | [] => inr race_tools.results_not_available
    | rs =>
        for_each race_tools.position_block (map ergast.result_json rs)
          (latest_header race ++ "**Final Positions:**" ++ LF)
    end.
Proof.
  unfold race_tools.render.
  change (lacks_table "RaceTable" (ergast.race_table_json (race :: others)))
    with (ok false : outcome bool).
  cbn [bind_outcome ok ergast.race_table_json py_getitem py_get lookup String.eqb
       Ascii.eqb Bool.eqb map truthy negb py_first].
  change (py_get (ergast.race_json race) "Results" (JList []))
    with (ok (JList (map ergast.result_json (ergast.results race)))
          : outcome json).
  cbn [bind_outcome ok].
  destruct (ergast.results race) as [|r rs] eqn:Hresults; [reflexivity|].
  cbn [map truthy negb].
  change (py_getitem (ergast.race_json race) "Circuit")
    with (ok (ergast.circuit_json (ergast.circuit race)) : outcome json).
  cbn [bind_outcome ok].
  change (py_getitem (ergast.circuit_json (ergast.circuit race)) "Location")
    with (ok (ergast.location_json (ergast.location (ergast.circuit race)))
          : outcome json).
  cbn [bind_outcome ok].
  rewrite latest_header_text. reflexivity.
Qed.

(** X14.  The latest-results formatter shows the first race of the table
    and every one of its finishers, in the order of the envelope and
    without the cut at ten of the race analysis: a header, then a block
    per finisher with the time if there is one, else the status if there
    is one, and the points only when the envelope gives them. *)
Theorem latest_results_show_every_finisher
    (fetcher : nat -> string -> outcome json)
    (race : ergast.Race) (others : list ergast.Race) :
  fetcher 0%nat "current/last/results"
  = inr (ergast.race_table_json (race :: others)) ->
  ergast.results race <> [] ->
  forallb has_position (ergast.results race) = true ->
  fst (run fetcher 0 race_tools.get_latest_race_results)
  = inr (latest_header race ++ "**Final Positions:**" ++ LF
         ++ position_texts (ergast.results race)).
Proof.
  intros Hanswer Hsome Hall.
  rewrite run_latest_race_results
    by (eapply returned_is_benign; eassumption).
  rewrite Hanswer. cbn [bind_outcome]. rewrite render_first_race.
  destruct (ergast.results race) as [|r rs] eqn:Hresults; [congruence|].
  rewrite (position_blocks_text _ Hall). cbn [answered]. f_equal. strings.
Qed.

(** X15.  A table without races is answered "No race results found.", and
    a first race that has no result yet "Race results not available yet.",
    whatever races follow it in the table: the later races are never
    looked at. *)
Theorem latest_results_without_results
    (fetcher : nat -> string -> outcome json) (races : list ergast.Race) :
  fetcher 0%nat "current/last/results" = inr (ergast.race_table_json races) ->
  match races with
  | [] => True
  | race :: _ => ergast.results race = []
  end ->
  fst (run fetcher 0 race_tools.get_latest_race_results)
  = inr (match races with
         | [] => race_tools.no_results_found
         | _ :: _ => race_tools.results_not_available
         end).
Proof.
  intros Hanswer Hnone.
  rewrite run_latest_race_results
    by (eapply returned_is_benign; eassumption).
  rewrite Hanswer. cbn [bind_outcome].
  destruct races as [|race others]; [reflexivity|].
  rewrite render_first_race, Hnone. reflexivity.
Qed.

(** X16.  Whatever the client answers, the latest-results formatter asks
    it exactly once, for [current/last/results]. *)
Theorem latest_results_single_request
    (fetcher : nat -> string -> outcome json) :
  snd (run fetcher 0 race_tools.get_latest_race_results)
  = ["current/last/results"].
Proof.
  unfold race_tools.get_latest_race_results.
  cbn [run try_except bind request].
  destruct (fetcher 0%nat "current/last/results") as [e|data].
  - cbn [bind try_except]. destruct (is_Exception e); reflexivity.
  - cbn [bind]. destruct (race_tools.render data) as [e|text];
      cbn [lift try_except]; [|reflexivity].
    destruct (is_Exception e); reflexivity.
Qed.

End LatestRaceResults.

Lemma latest_results_show_every_finisher_witness :
  List.length (ergast.results full_race) = 11%nat
  /\ fst (run (always (ok (ergast.race_table_json [full_race])))
            0 race_tools.get_latest_race_results)
     = inr (latest_header full_race ++ "**Final Positions:**" ++ LF
            ++ position_texts (ergast.results full_race)).
Proof.
  split; [reflexivity|].
  apply (latest_results_show_every_finisher
           (always (ok (ergast.race_table_json [full_race]))) full_race []);
    [reflexivity|discriminate|reflexivity].
Defined.

Lemma latest_results_without_results_witness :
  fst (run (always (ok (ergast.race_table_json
                          [ergast.mkRace "Bahrain Grand Prix" "1" "2021-03-28"
                             (ergast.circuit full_race) [];
                           sample_race])))
         0 race_tools.get_latest_race_results)
  = inr "🏁 Race results not available yet.".
Proof.
  apply (latest_results_without_results
           (always (ok (ergast.race_table_json
                          [ergast.mkRace "Bahrain Grand Prix" "1" "2021-03-28"
                             (ergast.circuit full_race) [];
                           sample_race])))
           [ergast.mkRace "Bahrain Grand Prix" "1" "2021-03-28"
              (ergast.circuit full_race) [];
            sample_race]);
    reflexivity.
Defined.

(** ** The career statistics, continued *)

Section CareerStatisticsMore.
Context {RT : PyRuntime}.

Lemma for_each_preserves {A B} (I : B -> Prop) (body : B -> A -> outcome B) :
  (forall acc x acc', I acc -> body acc x = inr acc' -> I acc') ->
  forall xs acc acc', I acc -> for_each body xs acc = inr acc' -> I acc'.
Proof.
  intros Hbody. induction xs as [|x xs IH]; intros acc acc' Hacc Hrun.
  - cbn in Hrun. injection Hrun as <-. exact Hacc.
  - cbn [for_each] in Hrun.
    destruct (body acc x) as [e|mid] eqn:Hstep; [discriminate|].
    cbn [bind_outcome] in Hrun. eapply IH; [|exact Hrun].
    eapply Hbody; eassumption.
Qed.

Lemma count_finish_ordered (pos_int : Z) (st : driver_tools.stats) :
  ordered st -> ordered (driver_tools.count_finish pos_int st).
Proof.
  unfold ordered, driver_tools.count_finish. intros [Hwins Hdnfs].
  destruct (pos_int =? 1) eqn:Hone; destruct (pos_int <=? 3) eqn:Hthree;
    cbn; lia.
Qed.

Lemma count_result_ordered (st : driver_tools.stats) (entry : json)
    (st' : driver_tools.stats) :
  ordered st -> driver_tools.count_result st entry = inr st' -> ordered st'.
Proof.
  intros Hst. unfold driver_tools.count_result.
  destruct (driver_tools.count_position entry st) as [e|mid] eqn:Hposition;
    [discriminate|].
  cbn [bind_outcome]. intro Hpoints.
  assert (Hmid : ordered mid).
  { unfold driver_tools.count_position in Hposition.
    destruct (py_get entry "position" (JStr "N/A")) as [e|position];
      [discriminate|].
    cbn [bind_outcome] in Hposition.
    destruct (negb (eq_str position "N/A")).
    - destruct (py_int position) as [e|pos_int].
      + destruct (driver_tools.is_ValueError e); [|discriminate].
        injection Hposition as <-. exact Hst.
      + injection Hposition as <-. now apply count_finish_ordered.
    - injection Hposition as <-. unfold ordered in *. cbn. lia. }
  unfold driver_tools.count_points in Hpoints.
  destruct (raw <- py_get entry "points" (JInt 0) ;; py_int raw)%outcome
    as [e|points].
  - destruct (driver_tools.is_ValueError e || driver_tools.is_TypeError e)%bool;
      [|discriminate].
    injection Hpoints as <-. exact Hmid.
  - injection Hpoints as <-. exact Hmid.
Qed.

Lemma count_race_ordered (st : driver_tools.stats) (race : json)
    (st' : driver_tools.stats) :
  ordered st -> driver_tools.count_race st race = inr st' -> ordered st'.
Proof.
  intros Hst. unfold driver_tools.count_race.
  destruct (py_get race "Results" (JList [])) as [e|results]; [discriminate|].
  cbn [bind_outcome].
  destruct (py_iter results) as [e|entries]; [discriminate|].
  cbn [bind_outcome].
  apply (for_each_preserves ordered); [|exact Hst].
  intros acc x acc'. apply count_result_ordered.
Qed.

(** X17.  Whatever the shape of the races handed to it, when the scan of
    [get_driver_profile] ends, it has counted no more wins than podiums,
    and no tally of finishes is negative: a win is counted together with
    a podium, never alone. *)
Theorem tallies_are_ordered (races : json) (st : driver_tools.stats) :
  driver_tools.career_statistics races = inr st -> ordered st.
Proof.
  unfold driver_tools.career_statistics.
  destruct (py_iter races) as [e|each]; [discriminate|].
  cbn [bind_outcome].
  apply (for_each_preserves ordered).
  - intros acc x acc'. apply count_race_ordered.
  - unfold ordered. cbn. lia.
Qed.

Lemma narrow_bind {A B} (m : outcome A) (k : A -> outcome B) :
  narrow m -> (forall a, m = inr a -> narrow (k a)) -> narrow (bind_outcome m k).
Proof.
  intros Hm Hk. destruct m as [e|a]; cbn [bind_outcome].
  - intros e' He'. injection He' as <-. now apply Hm.
  - now apply Hk.
Qed.

Lemma narrow_ok {A} (a : A) : narrow (ok a).
Proof. intros e H. discriminate H. Qed.

Lemma narrow_for_each {A B} (body : B -> A -> outcome B) (xs : list A) :
  (forall acc x, narrow (body acc x)) ->
  forall acc, narrow (for_each body xs acc).
Proof.
  intro Hbody. induction xs as [|x xs IH]; intro acc; cbn [for_each].
  - apply narrow_ok.
  - apply narrow_bind; [apply Hbody|]. intros acc' _. apply IH.
Qed.

Lemma narrow_get (v : json) (key : string) (default : json) :
  narrow (py_get v key default).
Proof.
  intros e. destruct v as [|b|n|f|s|xs|kvs]; cbn;
    try (intro H; injection H as <-; reflexivity).
  destruct (lookup key kvs); discriminate.
Qed.

Lemma narrow_iter (v : json) : narrow (py_iter v).
Proof.
  intros e. destruct v; cbn; try (intro H; injection H as <-; reflexivity);
    discriminate.
Qed.

Lemma int_raises (v : json) (e : exn) :
  py_int v = inl e ->
  driver_tools.is_ValueError e = true \/ escapes e = true.
Proof.
  destruct v as [|b|n|f|s|xs|kvs]; cbn;
    try discriminate;
    try (intro H; injection H as <-; right; reflexivity).
  - destruct f as [sg|sg| |sg m ex]; try discriminate;
      intro H; injection H as <-; [right|left]; reflexivity.
  - destruct (int_text s) as [complaint|n]; [|discriminate].
    intro H. injection H as <-. left. reflexivity.
Qed.

Lemma narrow_count_result (st : driver_tools.stats) (entry : json) :
  narrow (driver_tools.count_result st entry).
Proof.
  unfold driver_tools.count_result. apply narrow_bind.
  - unfold driver_tools.count_position.
    apply narrow_bind; [apply narrow_get|]. intros position _.
    destruct (negb (eq_str position "N/A")); [|apply narrow_ok].
    destruct (py_int position) as [e|pos_int] eqn:Hint; [|apply narrow_ok].
    destruct (driver_tools.is_ValueError e) eqn:Hvalue; [apply narrow_ok|].
    intros e' He'. injection He' as <-.
    destruct (int_raises _ _ Hint) as [H|H]; [congruence|exact H].
  - intros mid _. unfold driver_tools.count_points.
    destruct (raw <- py_get entry "points" (JInt 0) ;; py_int raw)%outcome
      as [e|points] eqn:Hpoints; [|apply narrow_ok].
    destruct (driver_tools.is_ValueError e || driver_tools.is_TypeError e)%bool
      eqn:Hcaught; [apply narrow_ok|].
    intros e' He'. injection He' as <-.
    destruct (py_get entry "points" (JInt 0)) as [e0|raw] eqn:Hget.
    + cbn in Hpoints. injection Hpoints as <-. now apply (narrow_get _ _ _ _ Hget).
    + cbn [bind_outcome] in Hpoints.
      apply Bool.orb_false_iff in Hcaught as [Hvalue _].
      destruct (int_raises _ _ Hpoints) as [H|H]; [congruence|exact H].
Qed.

(** X18.  The scan lets no [ValueError] out, and nothing that is not an
    instance of [Exception]: what leaves it is a [TypeError] (a value that
    cannot be iterated, or a position that is [None] or a container), an
    [AttributeError] (a race or a result that is not an object) or an
    [OverflowError] (an infinite number where an integer is read). *)
Theorem scan_lets_out (races : json) (e : exn) :
  driver_tools.career_statistics races = inl e -> escapes e = true.
Proof.
  revert e. change (narrow (driver_tools.career_statistics races)).
  unfold driver_tools.career_statistics.
  apply narrow_bind; [apply narrow_iter|]. intros each _.
  apply narrow_for_each. intros st race.
  unfold driver_tools.count_race.
  apply narrow_bind; [apply narrow_get|]. intros results _.
  apply narrow_bind; [apply narrow_iter|]. intros entries _.
  apply narrow_for_each. intros acc x. apply narrow_count_result.
Qed.

End CareerStatisticsMore.

Lemma tallies_are_ordered_witness :
  ordered (driver_tools.mkStats 1 2 43 1).
Proof.
  apply (tallies_are_ordered
           (JList [ergast.race_json sample_race;
                   JDict [("Results",
                           JList [JDict [("position", JStr "third")];
                                  JDict [("points", JStr "n/a")]])]])).
  reflexivity.
Defined.

Lemma scan_lets_out_witness :
  escapes (PyError TypeError
             "int() argument must be a string, a bytes-like object or a real number, not 'NoneType'")
  = true.
Proof.
  apply (scan_lets_out
           (JList [JDict [("Results", JList [JDict [("position", JNull)]])]])).
  reflexivity.
Defined.

(** ** [calculate_stats] *)

Section CalculateStats.
Context {RT : PyRuntime}.

Lemma count_fastest_lap_total (kvs : list (string * json))
    (st : comparison.stats) :
  comparison.count_fastest_lap (JDict kvs) st
  = inr (if lap_ranked_first (JDict kvs)
         then comparison.add_fastest_lap st else st).
Proof.
  unfold comparison.count_fastest_lap, lap_ranked_first.
  cbn [py_contains py_getitem bind_outcome ok].
  destruct (lookup "FastestLap" kvs) as [lap|]; [|reflexivity].
  destruct lap as [|b|n|f|s|xs|lap]; try reflexivity.
  cbn [py_get bind_outcome ok]. destruct (lookup "rank" lap); reflexivity.
Qed.

Lemma count_position_agree (entry : json) (st : comparison.stats) :
  agree (comparison.count_position entry st)
    (driver_tools.count_position entry (profile_tallies st)).
Proof.
  unfold comparison.count_position, driver_tools.count_position.
  destruct (py_get entry "position" (JStr "N/A")) as [e|position];
    [reflexivity|].
  cbn [bind_outcome].
  destruct (negb (eq_str position "N/A")); [|reflexivity].
  destruct (py_int position) as [e|pos_int].
  - destruct (driver_tools.is_ValueError e); reflexivity.
  - unfold driver_tools.count_finish.
    destruct (pos_int =? 1), (pos_int <=? 3); reflexivity.
Qed.

Lemma count_points_agree (entry : json) (st : comparison.stats) :
  agree (comparison.count_points entry st)
    (driver_tools.count_points entry (profile_tallies st)).
Proof.
  unfold comparison.count_points, driver_tools.count_points.
  destruct (raw <- py_get entry "points" (JInt 0) ;; py_int raw)%outcome
    as [e|n]; [|reflexivity].
  destruct (driver_tools.is_ValueError e || driver_tools.is_TypeError e)%bool;
    reflexivity.
Qed.

Lemma count_result_agree (entry : json) (st : comparison.stats) :
  agree (comparison.count_result st entry)
    (driver_tools.count_result (profile_tallies st) entry).
Proof.
  unfold comparison.count_result, driver_tools.count_result.
  destruct entry as [|b|n|f|s|xs|kvs]; try reflexivity.
  pose proof (count_position_agree (JDict kvs) st) as Hposition.
  destruct (comparison.count_position (JDict kvs) st) as [e|mid],
    (driver_tools.count_position (JDict kvs) (profile_tallies st)) as [e'|t];
    cbn [agree] in Hposition; try contradiction; subst; [reflexivity|].
  cbn [bind_outcome].
  pose proof (count_points_agree (JDict kvs) mid) as Hpoints.
  destruct (comparison.count_points (JDict kvs) mid) as [e|last],
    (driver_tools.count_points (JDict kvs) (profile_tallies mid)) as [e'|t];
    cbn [agree] in Hpoints; try contradiction; subst; [reflexivity|].
  cbn [bind_outcome]. rewrite count_fastest_lap_total. cbn [agree].
  destruct (lap_ranked_first (JDict kvs)); reflexivity.
Qed.

Lemma for_each_agree {A} (f : comparison.stats -> A -> outcome comparison.stats)
    (g : driver_tools.stats -> A -> outcome driver_tools.stats) :
  (forall x st, agree (f st x) (g (profile_tallies st) x)) ->
  forall xs st, agree (for_each f xs st) (for_each g xs (profile_tallies st)).
Proof.
  intro Hstep. induction xs as [|x xs IH]; intro st; [reflexivity|].
  cbn [for_each]. specialize (Hstep x st).
  destruct (f st x) as [e|mid], (g (profile_tallies st) x) as [e'|t];
    cbn [agree] in Hstep; try contradiction; subst; [reflexivity|].
  cbn [bind_outcome]. apply IH.
Qed.

Lemma count_race_agree (race : json) (st : comparison.stats) :
  agree (comparison.count_race st race)
    (driver_tools.count_race (profile_tallies st) race).
Proof.
  unfold comparison.count_race, driver_tools.count_race.
  destruct (py_get race "Results" (JList [])) as [e|results]; [reflexivity|].
  cbn [bind_outcome].
  destruct (py_iter results) as [e|entries]; [reflexivity|].
  cbn [bind_outcome]. apply for_each_agree. apply count_result_agree.
Qed.

Lemma scan_of_envelope (races : json) :
  comparison.scan_results (results_envelope races) comparison.initial
  = (n <- py_len races ;;
     each <- py_iter races ;;
     for_each comparison.count_race each
       (comparison.set_races n comparison.initial))%outcome.
Proof. reflexivity. Qed.

(** X19.  The scan of [calculate_stats] and the scan of
    [get_driver_profile] count alike: on the same races, whatever their
    shape, one returns exactly when the other does, and then with the same
    wins, podiums, points and DNFs. *)
Theorem scans_count_alike (races : json) (driver_name : string)
    (t : driver_tools.stats) :
  driver_tools.career_statistics races = inr t
  <-> exists st,
        comparison.calculate_stats (results_envelope races) JNull driver_name
        = inr st
        /\ profile_tallies st = t.
Proof.
  unfold comparison.calculate_stats. rewrite scan_of_envelope.
  unfold driver_tools.career_statistics.
  destruct (py_len races) as [e|n] eqn:Hlen.
  - destruct races; try discriminate Hlen; cbn;
      (split; [discriminate|intros [st [H _]]; discriminate H]).
  - cbn [bind_outcome].
    destruct (py_iter races) as [e|each].
    + cbn. split; [discriminate|intros [st [H _]]; discriminate H].
    + cbn [bind_outcome].
      pose proof (for_each_agree comparison.count_race driver_tools.count_race
                    count_race_agree each
                    (comparison.set_races n comparison.initial)) as Hagree.
      change (profile_tallies (comparison.set_races n comparison.initial))
        with driver_tools.initial in Hagree.
      destruct (for_each comparison.count_race each
                  (comparison.set_races n comparison.initial)) as [e|st],
        (for_each driver_tools.count_race each driver_tools.initial)
        as [e'|t']; cbn [agree] in Hagree; try contradiction.
      * cbn. split; [discriminate|intros [st [H _]]; discriminate H].
      * cbn [bind_outcome comparison.scan_standings truthy]. split.
        -- intro H. injection H as <-. exists st. split; [reflexivity|assumption].
        -- intros [st' [H <-]]. injection H as <-. now rewrite Hagree.
Qed.

Ltac sound_step :=
  unfold sound, comparison.add_win, comparison.add_podium,
    comparison.add_points, comparison.add_fastest_lap,
    comparison.add_championship, comparison.set_best_championship_pos,
    comparison.add_dnf, comparison.set_races, comparison.initial in *;
  cbn [comparison.races comparison.wins comparison.podiums comparison.points
       comparison.poles comparison.fastest_laps comparison.championships
       comparison.best_championship_pos comparison.dnfs] in *;
  lia.

Lemma count_result_sound (st : comparison.stats) (entry : json)
    (st' : comparison.stats) :
  sound st -> comparison.count_result st entry = inr st' -> sound st'.
Proof.
  intro Hst. unfold comparison.count_result.
  destruct entry as [|b|n|f|s|xs|kvs]; try discriminate.
  destruct (comparison.count_position (JDict kvs) st) as [e|mid] eqn:Hposition;
    [discriminate|].
  cbn [bind_outcome].
  destruct (comparison.count_points (JDict kvs) mid) as [e|last] eqn:Hpoints;
    [discriminate|].
  cbn [bind_outcome]. rewrite count_fastest_lap_total.
  generalize (lap_ranked_first (JDict kvs)). intros ranked H.
  injection H as <-.
  assert (Hmid : sound mid).
  { unfold comparison.count_position in Hposition.
    destruct (py_get (JDict kvs) "position" (JStr "N/A")) as [e|position];
      [discriminate|].
    cbn [bind_outcome] in Hposition.
    destruct (negb (eq_str position "N/A")).
    - destruct (py_int position) as [e|pos_int].
      + destruct (driver_tools.is_ValueError e); [|discriminate].
        injection Hposition as <-. exact Hst.
      + injection Hposition as <-.
        destruct (pos_int =? 1) eqn:Hone, (pos_int <=? 3) eqn:Hthree;
          sound_step.
    - injection Hposition as <-. sound_step. }
  assert (Hlast : sound last).
  { unfold comparison.count_points in Hpoints.
    destruct (raw <- py_get (JDict kvs) "points" (JInt 0) ;; py_int raw)%outcome
      as [e|n].
    - destruct (driver_tools.is_ValueError e || driver_tools.is_TypeError e)%bool;
        [|discriminate].
      injection Hpoints as <-. exact Hmid.
    - injection Hpoints as <-. sound_step. }
  destruct ranked; [sound_step|exact Hlast].
Qed.

Lemma count_race_sound (st : comparison.stats) (race : json)
    (st' : comparison.stats) :
  sound st -> comparison.count_race st race = inr st' -> sound st'.
Proof.
  intro Hst. unfold comparison.count_race.
  destruct (py_get race "Results" (JList [])) as [e|results]; [discriminate|].
  cbn [bind_outcome].
  destruct (py_iter results) as [e|entries]; [discriminate|].
  cbn [bind_outcome].
  apply (for_each_preserves sound); [|exact Hst].
  intros acc x acc'. apply count_result_sound.
Qed.

Lemma len_nonnegative (v : json) (n : Z) : py_len v = inr n -> 0 <= n.
Proof.
  destruct v; cbn; try discriminate; intro H; injection H as <-; lia.
Qed.

Lemma scan_results_sound (results_data : json) (st st' : comparison.stats) :
  sound st -> comparison.scan_results results_data st = inr st' -> sound st'.
Proof.
  intro Hst. unfold comparison.scan_results.
  destruct (truthy results_data);
    [|intro H; injection H as <-; exact Hst].
  destruct (py_contains "MRData" results_data) as [e|[|]];
    cbn [bind_outcome]; [discriminate| |intro H; injection H as <-; exact Hst].
  destruct (py_getitem results_data "MRData") as [e|mr_data];
    cbn [bind_outcome]; [discriminate|].
  destruct (py_get mr_data "RaceTable" (JDict [])) as [e|race_table];
    cbn [bind_outcome]; [discriminate|].
  destruct (py_get race_table "Races" (JList [])) as [e|all];
    cbn [bind_outcome]; [discriminate|].
  destruct (py_len all) as [e|n] eqn:Hlen; cbn [bind_outcome]; [discriminate|].
  destruct (py_iter all) as [e|each]; cbn [bind_outcome]; [discriminate|].
  apply (for_each_preserves sound).
  - intros acc x acc'. apply count_race_sound.
  - apply len_nonnegative in Hlen. sound_step.
Qed.

Lemma count_season_sound (st : comparison.stats) (season_standings : json)
    (st' : comparison.stats) :
  sound st -> comparison.count_season st season_standings = inr st' ->
  sound st'.
Proof.
  intro Hst. unfold comparison.count_season.
  destruct (py_get season_standings "DriverStandings" (JList []))
    as [e|driver_standings]; cbn [bind_outcome]; [discriminate|].
  destruct (truthy driver_standings);
    [|intro H; injection H as <-; exact Hst].
  destruct (py_first driver_standings) as [e|standing]; cbn [bind_outcome];
    [discriminate|].
  destruct (raw <- py_get standing "position" (JInt 99) ;; py_int raw)%outcome
    as [e|position].
  - destruct (driver_tools.is_ValueError e || driver_tools.is_TypeError e)%bool;
      [|discriminate].
    intro H. injection H as <-. exact Hst.
  - intro H. injection H as <-.
    destruct (position =? 1) eqn:Hone.
    + destruct (position <?
                comparison.best_championship_pos
                  (comparison.add_championship st)) eqn:Hbest; sound_step.
    + destruct (position <? comparison.best_championship_pos st) eqn:Hbest;
        sound_step.
Qed.

Lemma scan_standings_sound (standings_data : json)
    (st st' : comparison.stats) :
  sound st -> comparison.scan_standings standings_data st = inr st' ->
  sound st'.
Proof.
  intro Hst. unfold comparison.scan_standings.
  destruct (truthy standings_data);
    [|intro H; injection H as <-; exact Hst].
  destruct (py_contains "MRData" standings_data) as [e|[|]];
    cbn [bind_outcome]; [discriminate| |intro H; injection H as <-; exact Hst].
  destruct (py_getitem standings_data "MRData") as [e|mr_data];
    cbn [bind_outcome]; [discriminate|].
  destruct (py_get mr_data "StandingsTable" (JDict [])) as [e|table];
    cbn [bind_outcome]; [discriminate|].
  destruct (py_get table "StandingsLists" (JList [])) as [e|lists];
    cbn [bind_outcome]; [discriminate|].
  destruct (py_len lists) as [e|n]; cbn [bind_outcome]; [discriminate|].
  destruct (py_iter lists) as [e|seasons]; cbn [bind_outcome]; [discriminate|].
  apply (for_each_preserves sound); [|exact Hst].
  intros acc x acc'. apply count_season_sound.
Qed.

(** X20.  Whatever the two envelopes, the statistics [calculate_stats]
    returns are sound: the pole positions are never counted (the key stays
    at 0), no count is negative, there are no more wins than podiums, the
    best championship position is at most the initial 99, and it is at
    most 1 as soon as a championship was counted. *)
Theorem calculate_stats_sound (results_data standings_data : json)
    (driver_name : string) (st : comparison.stats) :
  comparison.calculate_stats results_data standings_data driver_name = inr st ->
  sound st.
Proof.
  unfold comparison.calculate_stats.
  destruct (comparison.scan_results results_data comparison.initial)
    as [e|mid] eqn:Hresults; [discriminate|].
  cbn [bind_outcome]. apply scan_standings_sound.
  apply (scan_results_sound results_data comparison.initial mid);
    [sound_step|exact Hresults].
Qed.

End CalculateStats.

Lemma scans_count_alike_witness :
  exists st,
    comparison.calculate_stats
      (results_envelope (JList [ergast.race_json sample_race;
                                ergast.race_json retired_race]))
      JNull "Lewis Hamilton"
    = inr st
    /\ profile_tallies st = driver_tools.mkStats 1 2 43 0.
Proof.
  apply (scans_count_alike
           (JList [ergast.race_json sample_race; ergast.race_json retired_race])
           "Lewis Hamilton" (driver_tools.mkStats 1 2 43 0)).
  reflexivity.
Defined.

Lemma calculate_stats_sound_witness :
  sound (comparison.mkStats 2 1 2 43 0 0 1 1 0).
Proof.
  apply (calculate_stats_sound
           (results_envelope (JList [ergast.race_json sample_race;
                                     ergast.race_json retired_race]))
           (career.envelope [season_json "2020" "1"; season_json "2021" "2"])
           "Lewis Hamilton").
  reflexivity.
Defined.

(** ** Tools of one request *)

Section SingleRequest.
Context {RT : PyRuntime}.

(** A tool that awaits one request inside its [try] and then formats. *)
Lemma run_single_request (fetcher : nat -> string -> outcome json)
    (endpoint : string) (body : json -> outcome string)
    (handler : exn -> string) :
  run fetcher 0
    (try_except (data <- request endpoint ;; lift (body data))%proc
       (fun e => Ret (handler e)))
  = (match (data <- fetcher 0%nat endpoint ;; body data)%outcome with
     | inr text => inr text
     | inl e => if is_Exception e then inr (handler e) else inl e
     end, [endpoint]).
Proof.
  cbn [run try_except bind request].
  destruct (fetcher 0%nat endpoint) as [e|data].
  - cbn [bind try_except bind_outcome]. destruct (is_Exception e); reflexivity.
  - cbn [bind bind_outcome]. destruct (body data) as [e|text];
      cbn [lift try_except]; [|reflexivity].
    destruct (is_Exception e); reflexivity.
Qed.

Lemma for_each_texts {A B} (block : string -> B -> outcome string)
    (encode : A -> B) (text : A -> string) :
  (forall acc a, block acc (encode a) = inr (acc ++ text a)) ->
  forall entries acc,
    for_each block (map encode entries) acc
    = inr (acc ++ fold_right append "" (map text entries)).
Proof.
  intro Hblock. induction entries as [|a entries IH]; intro acc.
  - cbn. now rewrite string_app_nil.
  - cbn [map for_each fold_right]. rewrite Hblock. cbn [bind_outcome].
    rewrite IH. f_equal. strings.
Qed.

(** *** [get_current_standings] and [get_constructor_standings] *)

Lemma driver_block_text (acc : string) (s : standings.DriverStanding) :
  standings_tools.driver_block acc (standings.driver_standing_json s)
  = inr (acc ++ standings.driver_text s).
Proof.
  destruct s as [position points wins [given family] nationality cs].
  unfold standings.driver_text, standings.team.
  destruct cs as [|[team] cs]; cbn; f_equal; strings.
Qed.

Lemma constructor_block_text (acc : string)
    (s : standings.ConstructorStanding) :
  standings_tools.constructor_block acc (standings.constructor_standing_json s)
  = inr (acc ++ standings.constructor_text s).
Proof.
  destruct s as [position points wins team nationality].
  cbn. f_equal. strings.
Qed.

Lemma render_drivers_text (year : option Z) (season list_season : string)
    (entries : list standings.DriverStanding) (others : list json) :
  standings_tools.render_drivers year
    (standings.table_json season
       (standings.drivers_json list_season entries :: others))
  = inr ("**F1 " ++ season ++ " Driver Championship Standings**" ++ LF ++ LF
         ++ standings.texts standings.driver_text entries).
Proof.
  unfold standings_tools.render_drivers, standings.table_json,
    standings.drivers_json.
  cbn [lacks_table lacks_mrdata truthy py_contains py_getitem py_get lookup
       String.eqb Ascii.eqb Bool.eqb bind_outcome ok py_first negb py_iter
       py_str].
  rewrite (for_each_texts standings_tools.driver_block
             standings.driver_standing_json standings.driver_text
             driver_block_text).
  unfold standings.texts. f_equal. strings.
Qed.

Lemma render_constructors_text (year : option Z) (season list_season : string)
    (entries : list standings.ConstructorStanding) (others : list json) :
  standings_tools.render_constructors year
    (standings.table_json season
       (standings.constructors_json list_season entries :: others))
  = inr ("**F1 " ++ season ++ " Constructor Championship Standings**"
         ++ LF ++ LF
         ++ standings.texts standings.constructor_text entries).
Proof.
  unfold standings_tools.render_constructors, standings.table_json,
    standings.constructors_json.
  cbn [lacks_table lacks_mrdata truthy py_contains py_getitem py_get lookup
       String.eqb Ascii.eqb Bool.eqb bind_outcome ok py_first negb py_iter
       py_str].
  rewrite (for_each_texts standings_tools.constructor_block
             standings.constructor_standing_json standings.constructor_text
             constructor_block_text).
  unfold standings.texts. f_equal. strings.
Qed.

(** X21.  The driver standings are those of the first list of the table;
    the title carries the season of the table, not the year asked for; and
    each driver is shown with the first of the constructors of the entry,
    or with the team "Unknown" when the entry names none. *)
Theorem driver_standings_rendered
    (fetcher : nat -> string -> outcome json) (year : option Z)
    (season list_season : string) (entries : list standings.DriverStanding)
    (others : list json) :
  fetcher 0%nat (standings_tools.endpoint "driverStandings" year)
  = inr (standings.table_json season
           (standings.drivers_json list_season entries :: others)) ->
  run fetcher 0 (standings_tools.get_current_standings year)
  = (inr ("**F1 " ++ season ++ " Driver Championship Standings**" ++ LF ++ LF
          ++ standings.texts standings.driver_text entries),
     [standings_tools.endpoint "driverStandings" year]).
Proof.
  intro Hanswer. unfold standings_tools.get_current_standings.
  rewrite run_single_request, Hanswer. cbn [bind_outcome].
  now rewrite render_drivers_text.
Qed.

(** X22.  The year 0 is asked for as the season "0", yet spoken of as the
    current season: given the same envelope, the tool answers for year 0
    word for word what it answers without a year, while it asks a
    different endpoint. *)
Theorem year_zero_reads_as_current
    (fetcher fetcher' : nat -> string -> outcome json) (data : json) :
  fetcher 0%nat "0/driverStandings" = inr data ->
  fetcher' 0%nat "current/driverStandings" = inr data ->
  fst (run fetcher 0 (standings_tools.get_current_standings (Some 0)))
  = fst (run fetcher' 0 (standings_tools.get_current_standings None))
  /\ snd (run fetcher 0 (standings_tools.get_current_standings (Some 0)))
     = ["0/driverStandings"]
  /\ snd (run fetcher' 0 (standings_tools.get_current_standings None))
     = ["current/driverStandings"].
Proof.
  intros Hzero Hcurrent. unfold standings_tools.get_current_standings.
  rewrite !run_single_request.
  change (standings_tools.endpoint "driverStandings" (Some 0))
    with "0/driverStandings".
  change (standings_tools.endpoint "driverStandings" None)
    with "current/driverStandings".
  rewrite Hzero, Hcurrent. cbn [fst snd bind_outcome].
  split; [reflexivity|]. split; reflexivity.
Qed.

(** X23.  The constructor standings are those of the first list of the
    table, one block per team in the order of the envelope, under a title
    that carries the season of the table. *)
Theorem constructor_standings_rendered
    (fetcher : nat -> string -> outcome json) (year : option Z)
    (season list_season : string)
    (entries : list standings.ConstructorStanding) (others : list json) :
  fetcher 0%nat (standings_tools.endpoint "constructorStandings" year)
  = inr (standings.table_json season
           (standings.constructors_json list_season entries :: others)) ->
  run fetcher 0 (standings_tools.get_constructor_standings year)
  = (inr ("**F1 " ++ season ++ " Constructor Championship Standings**"
          ++ LF ++ LF
          ++ standings.texts standings.constructor_text entries),
     [standings_tools.endpoint "constructorStandings" year]).
Proof.
  intro Hanswer. unfold standings_tools.get_constructor_standings.
  rewrite run_single_request, Hanswer. cbn [bind_outcome].
  now rewrite render_constructors_text.
Qed.

(** *** [get_historical_schedule] *)

Lemma schedule_line_text (acc : string) (race : ergast.Race) :
  historical_tools.schedule_line acc (ergast.race_json race)
  = inr (acc ++ calendar_line race).
Proof.
  destruct race as [race_name round date [circuit_name [locality country]] rs].
  cbn. f_equal. strings.
Qed.

(** X24.  The calendar counts what it lists: the number of races in the
    title is the number of lines below it, one per race of the envelope
    and in its order; the season in the title is that of the envelope,
    whatever year was asked for.  An envelope without races is answered
    with the "no races" message for that season. *)
Theorem calendar_counts_its_lines
    (fetcher : nat -> string -> outcome json) (year : Z) (season : string)
    (races : list ergast.Race) :
  fetcher 0%nat (string_of_Z year) = inr (schedule_json season races) ->
  run fetcher 0 (historical_tools.get_historical_schedule year)
  = (inr (match races with
          | [] => "No races found for " ++ season ++ " season."
          | _ :: _ =>
              "**F1 " ++ season ++ " Calendar** ("
              ++ string_of_Z (Z.of_nat (List.length races)) ++ " races)"
              ++ LF ++ LF ++ calendar_lines races
          end),
     [string_of_Z year]).
Proof.
  intro Hanswer. unfold historical_tools.get_historical_schedule.
  rewrite run_single_request, Hanswer. cbn [bind_outcome].
  unfold historical_tools.render_schedule, schedule_json.
  cbn [lacks_table lacks_mrdata truthy py_contains py_getitem py_get lookup
       String.eqb Ascii.eqb Bool.eqb bind_outcome ok negb py_str].
  destruct races as [|race races]; [reflexivity|].
  cbn [map truthy negb py_len py_iter bind_outcome ok].
  rewrite <- map_cons.
  rewrite (for_each_texts historical_tools.schedule_line ergast.race_json
             calendar_line schedule_line_text).
  rewrite length_map. unfold calendar_lines. do 2 f_equal. strings.
Qed.

End SingleRequest.

Lemma driver_standings_rendered_witness :
  run (always (ok (standings.table_json "2021"
                     [standings.drivers_json "2021" season_2021])))
    0 (standings_tools.get_current_standings (Some 2021))
  = (inr ("**F1 2021 Driver Championship Standings**" ++ LF ++ LF
          ++ "**P1: Max Verstappen**" ++ LF
          ++ "Team: Red Bull" ++ LF
          ++ "Points: 395.5 | Wins: 10" ++ LF
          ++ "Nationality: Dutch" ++ LF ++ LF
          ++ "**P15: George Russell**" ++ LF
          ++ "Team: Williams" ++ LF
          ++ "Points: 16 | Wins: 0" ++ LF
          ++ "Nationality: British" ++ LF ++ LF
          ++ "**P21: Robert Kubica**" ++ LF
          ++ "Team: Unknown" ++ LF
          ++ "Points: 0 | Wins: 0" ++ LF
          ++ "Nationality: Polish" ++ LF ++ LF),
     ["2021/driverStandings"]).
Proof.
  apply (driver_standings_rendered
           (always (ok (standings.table_json "2021"
                          [standings.drivers_json "2021" season_2021])))
           (Some 2021) "2021" "2021" season_2021 []).
  reflexivity.
Defined.

Lemma year_zero_reads_as_current_witness :
  fst (run (always (ok (JDict []))) 0
         (standings_tools.get_current_standings (Some 0)))
  = fst (run (always (ok (JDict []))) 0
           (standings_tools.get_current_standings None))
  /\ snd (run (always (ok (JDict []))) 0
            (standings_tools.get_current_standings (Some 0)))
     = ["0/driverStandings"]
  /\ snd (run (always (ok (JDict []))) 0
            (standings_tools.get_current_standings None))
     = ["current/driverStandings"].
Proof.
  apply (year_zero_reads_as_current (always (ok (JDict [])))
           (always (ok (JDict []))) (JDict []));
    reflexivity.
Defined.

Lemma constructor_standings_rendered_witness :
  run (always (ok (standings.table_json "2021"
                     [standings.constructors_json "2021" teams_2021])))
    0 (standings_tools.get_constructor_standings None)
  = (inr ("**F1 2021 Constructor Championship Standings**" ++ LF ++ LF
          ++ "**P1: Mercedes**" ++ LF
          ++ "Nationality: German" ++ LF
          ++ "Points: 613.5 | Wins: 9" ++ LF ++ LF
          ++ "**P2: Red Bull**" ++ LF
          ++ "Nationality: Austrian" ++ LF
          ++ "Points: 585.5 | Wins: 11" ++ LF ++ LF),
     ["current/constructorStandings"]).
Proof.
  apply (constructor_standings_rendered
           (always (ok (standings.table_json "2021"
                          [standings.constructors_json "2021" teams_2021])))
           None "2021" "2021" teams_2021 []).
  reflexivity.
Defined.

Lemma calendar_counts_its_lines_witness :
  run (always (ok (schedule_json "2021" [sample_race; retired_race])))
    0 (historical_tools.get_historical_schedule 2021)
  = (inr ("**F1 2021 Calendar** (2 races)" ++ LF ++ LF
          ++ "R1: Bahrain Grand Prix - Sakhir (2021-03-28)" ++ LF
          ++ "R5: Monaco Grand Prix - Monte-Carlo (2021-05-23)" ++ LF),
     ["2021"]).
Proof.
  apply (calendar_counts_its_lines
           (always (ok (schedule_json "2021" [sample_race; retired_race])))
           2021 "2021" [sample_race; retired_race]).
  reflexivity.
Defined.

(** ** [int(str(n))] *)

Ltac read_digit :=
  match goal with
  | |- context [is_digit ?c] =>
      change (is_digit c) with true;
      let v := eval vm_compute in (digit_value c) in
      change (digit_value c) with v
  end.

Lemma digits_after (d : uint) (acc : positive) :
  digits_value (Zpos acc) true (NilEmpty.string_of_uint d)
  = Some (Zpos (Pos.of_uint_acc d acc)).
Proof.
  revert acc. induction d; intro acc;
    cbn [NilEmpty.string_of_uint Pos.of_uint_acc];
    [reflexivity|..];
    cbn [digits_value]; read_digit; rewrite <- IHd; f_equal; lia.
Qed.

Lemma digits_of_uint (d : uint) (after_digit : bool) :
  d <> Nil \/ after_digit = true ->
  digits_value 0 after_digit (NilEmpty.string_of_uint d)
  = Some (Z.of_N (Pos.of_uint d)).
Proof.
  revert after_digit. induction d; intros after_digit Hsome;
    cbn [NilEmpty.string_of_uint Pos.of_uint digits_value].
  - destruct Hsome as [H|H]; [contradiction|subst; reflexivity].
  - read_digit. apply IHd. now right.
  - read_digit. apply (digits_after d 1).
  - read_digit. apply (digits_after d 2).
  - read_digit. apply (digits_after d 3).
  - read_digit. apply (digits_after d 4).
  - read_digit. apply (digits_after d 5).
  - read_digit. apply (digits_after d 6).
  - read_digit. apply (digits_after d 7).
  - read_digit. apply (digits_after d 8).
  - read_digit. apply (digits_after d 9).
Qed.

Lemma rstrip_digits (d : uint) :
  rstrip_space (NilEmpty.string_of_uint d) = NilEmpty.string_of_uint d.
Proof.
  induction d; cbn [NilEmpty.string_of_uint rstrip_space];
    [reflexivity|..]; rewrite IHd;
    destruct (NilEmpty.string_of_uint d); reflexivity.
Qed.

Lemma strip_digits (d : uint) :
  d <> Nil ->
  rstrip_space (lstrip_space (NilEmpty.string_of_uint d))
  = NilEmpty.string_of_uint d.
Proof.
  intro Hnonnil. rewrite <- (rstrip_digits d) at 2. f_equal.
  destruct d; try contradiction; reflexivity.
Qed.

Lemma int_of_string_of_Z (z : Z) : int_of_string (string_of_Z z) = Some z.
Proof.
  unfold string_of_Z, int_of_string.
  destruct z as [|p|p]; [reflexivity| |];
    cbn [Z.to_int NilZero.string_of_int];
    pose proof (Unsigned.to_uint_nonnil p) as Hnonnil;
    pose proof (Unsigned.of_to p) as Hvalue;
    pose proof (digits_of_uint (Pos.to_uint p) false (or_introl Hnonnil))
      as Hdigits;
    rewrite Hvalue in Hdigits; cbn [Z.of_N] in Hdigits.
  - replace (NilZero.string_of_uint (Pos.to_uint p))
      with (NilEmpty.string_of_uint (Pos.to_uint p))
      by (destruct (Pos.to_uint p); [contradiction|reflexivity..]).
    rewrite (strip_digits _ Hnonnil). rewrite <- Hdigits.
    destruct (Pos.to_uint p); try contradiction; reflexivity.
  - replace (NilZero.string_of_uint (Pos.to_uint p))
      with (NilEmpty.string_of_uint (Pos.to_uint p))
      by (destruct (Pos.to_uint p); [contradiction|reflexivity..]).
    change (lstrip_space (String "-" ?s)) with (String "-" s).
    cbn [rstrip_space]. rewrite rstrip_digits.
    destruct (NilEmpty.string_of_uint (Pos.to_uint p)) eqn:Htext.
    + destruct (Pos.to_uint p); try contradiction; discriminate Htext.
    + rewrite Hdigits. reflexivity.
Qed.

(** The reference runtime reads back every numeral. *)
Lemma reference_reads_back (year : Z) :
  @reads_back reference_runtime year = true.
Proof.
  unfold reads_back, int_of_text. cbn [int_text reference_runtime].
  unfold reference.int. rewrite int_of_string_of_Z. apply Z.eqb_refl.
Qed.

(** ** [sorted] *)

Lemma insert_by_In {A} (key : A -> Z) (a x : A) (xs : list A) :
  In x (insert_by key a xs) <-> x = a \/ In x xs.
Proof.
  induction xs as [|y xs IH]; cbn [insert_by].
  - cbn. intuition congruence.
  - destruct (key a <=? key y); cbn [In] in *; rewrite ?IH; intuition congruence.
Qed.

Lemma sorted_by_In {A} (key : A -> Z) (x : A) (xs : list A) :
  In x (sorted_by key xs) <-> In x xs.
Proof.
  induction xs as [|a xs IH]; [reflexivity|].
  cbn [sorted_by fold_right]. fold (sorted_by key xs).
  rewrite insert_by_In, IH. cbn. intuition congruence.
Qed.

Lemma insert_by_permutation {A} (key : A -> Z) (a : A) (xs : list A) :
  Permutation (a :: xs) (insert_by key a xs).
Proof.
  induction xs as [|y xs IH]; cbn [insert_by]; [reflexivity|].
  destruct (key a <=? key y); [reflexivity|].
  rewrite perm_swap. now apply perm_skip.
Qed.

Lemma sorted_by_permutation {A} (key : A -> Z) (xs : list A) :
  Permutation xs (sorted_by key xs).
Proof.
  induction xs as [|a xs IH]; [reflexivity|].
  cbn [sorted_by fold_right]. fold (sorted_by key xs).
  rewrite <- insert_by_permutation. now apply perm_skip.
Qed.

Lemma insert_by_ordered {A} (key : A -> Z) (a : A) (xs : list A) :
  StronglySorted (fun x y => key x <= key y) xs ->
  StronglySorted (fun x y => key x <= key y) (insert_by key a xs).
Proof.
  induction 1 as [|y xs Hsorted IH Hall]; cbn [insert_by].
  - repeat constructor.
  - destruct (key a <=? key y) eqn:Hle.
    + apply Z.leb_le in Hle. constructor; [now constructor|].
      constructor; [exact Hle|].
      eapply Forall_impl; [|exact Hall]. cbn. intros; lia.
    + apply Z.leb_gt in Hle. constructor; [exact IH|].
      apply Forall_forall. intros x Hx. apply insert_by_In in Hx as [->|Hx];
        [lia|].
      rewrite Forall_forall in Hall. now apply Hall.
Qed.

Lemma sorted_by_ordered {A} (key : A -> Z) (xs : list A) :
  StronglySorted (fun x y => key x <= key y) (sorted_by key xs).
Proof.
  induction xs as [|a xs IH]; [constructor|].
  cbn [sorted_by fold_right]. now apply insert_by_ordered.
Qed.

(** The sort is stable: the elements of one key keep their order. *)
Lemma insert_by_stable {A} (key : A -> Z) (k : Z) (a : A) (xs : list A) :
  StronglySorted (fun x y => key x <= key y) xs ->
  filter (fun x => key x =? k) (insert_by key a xs)
  = filter (fun x => key x =? k) (a :: xs).
Proof.
  induction 1 as [|y xs Hsorted IH Hall]; cbn [insert_by]; [reflexivity|].
  destruct (key a <=? key y) eqn:Hle; [reflexivity|].
  apply Z.leb_gt in Hle. cbn [filter] in *. rewrite IH.
  destruct (key a =? k) eqn:Ha, (key y =? k) eqn:Hy; try reflexivity.
  apply Z.eqb_eq in Ha, Hy. lia.
Qed.

Lemma sorted_by_stable {A} (key : A -> Z) (k : Z) (xs : list A) :
  filter (fun x => key x =? k) (sorted_by key xs)
  = filter (fun x => key x =? k) xs.
Proof.
  induction xs as [|a xs IH]; [reflexivity|].
  cbn [sorted_by fold_right]. fold (sorted_by key xs).
  rewrite insert_by_stable by apply sorted_by_ordered.
  cbn [filter]. now rewrite IH.
Qed.

(** ** [get_all_seasons] *)

Section AllSeasons.
Context {RT : PyRuntime}.

Lemma group_season_year (decades : list (Z * list Z)) (year : Z) :
  reads_back year = true ->
  historical_tools.group_season decades (season_of year)
  = inr (historical_tools.record_year (decade_of year) year decades).
Proof.
  unfold reads_back, int_of_text, historical_tools.group_season, season_of.
  cbn [py_getitem lookup String.eqb Ascii.eqb Bool.eqb bind_outcome ok py_int].
  destruct (int_text (string_of_Z year)) as [complaint|n]; [discriminate|].
  intro Hyear. apply Z.eqb_eq in Hyear. subst n. reflexivity.
Qed.

Lemma group_seasons_years (years : list Z) :
  forallb reads_back years = true ->
  forall decades,
    for_each historical_tools.group_season (map season_of years) decades
    = inr (grouped years decades).
Proof.
  induction years as [|y years IH]; intros Hread decades; [reflexivity|].
  cbn [forallb] in Hread. apply andb_prop in Hread as [Hy Hyears].
  cbn [map for_each]. rewrite (group_season_year decades y Hy).
  cbn [bind_outcome]. apply (IH Hyears).
Qed.

Lemma record_year_keys (decade year : Z) (decades : list (Z * list Z)) :
  map fst (historical_tools.record_year decade year decades)
  = if existsb (fun k => k =? decade) (map fst decades) then map fst decades
    else (map fst decades ++ [decade])%list.
Proof.
  induction decades as [|[d ys] decades IH]; [reflexivity|].
  cbn [historical_tools.record_year map fst existsb].
  destruct (d =? decade); cbn [orb map fst]; [reflexivity|].
  rewrite IH. destruct (existsb (fun k => k =? decade) (map fst decades));
    reflexivity.
Qed.

Lemma grouped_keys (years : list Z) :
  forall decades,
    map fst (grouped years decades)
    = fold_left (fun seen x =>
                   if existsb (fun k => k =? x) seen then seen
                   else (seen ++ [x])%list)
        (map decade_of years) (map fst decades).
Proof.
  induction years as [|y years IH]; intro decades; [reflexivity|].
  cbn [grouped fold_left map]. fold (grouped years).
  rewrite IH, record_year_keys. reflexivity.
Qed.

Lemma record_year_lookup (d decade year : Z) (decades : list (Z * list Z)) :
  lookup_int d (historical_tools.record_year decade year decades)
  = if decade =? d
    then Some (members d decades ++ [year])%list
    else lookup_int d decades.
Proof.
  unfold members.
  induction decades as [|[k ys] decades IH];
    cbn [historical_tools.record_year lookup_int].
  - destruct (decade =? d); reflexivity.
  - destruct (Z.eqb_spec k decade) as [->|Hk]; cbn [lookup_int].
    + destruct (decade =? d); reflexivity.
    + rewrite IH. destruct (Z.eqb_spec k d) as [->|Hd]; [|reflexivity].
      destruct (Z.eqb_spec decade d); [congruence|reflexivity].
Qed.

Lemma grouped_members (d : Z) (years : list Z) :
  forall decades,
    members d (grouped years decades)
    = (members d decades ++ years_of d years)%list.
Proof.
  induction years as [|y years IH]; intro decades.
  - cbn. now rewrite app_nil_r.
  - cbn [grouped fold_left]. fold (grouped years). rewrite IH.
    unfold members at 1. rewrite record_year_lookup.
    unfold years_of. cbn [filter].
    destruct (decade_of y =? d); [now rewrite <- app_assoc|reflexivity].
Qed.

Lemma lookup_int_key {A} (d : Z) (items : list (Z * A)) :
  In d (map fst items) -> lookup_int d items <> None.
Proof.
  induction items as [|[k v] items IH]; [intros []|].
  cbn [map fst In lookup_int]. intros [->|Hin].
  - rewrite Z.eqb_refl. discriminate.
  - destruct (k =? d); [discriminate|now apply IH].
Qed.

Lemma decade_lines_text (decades : list (Z * list Z)) (ds : list Z) :
  (forall d, In d ds -> In d (map fst decades)) ->
  forall acc,
    for_each (historical_tools.decade_line decades) ds acc
    = inr (acc
           ++ fold_right append ""
                (map (fun d =>
                        "**" ++ string_of_Z d ++ "s:** "
                        ++ String.concat ", "
                             (map string_of_Z (sorted (members d decades)))
                        ++ LF) ds)).
Proof.
  induction ds as [|d ds IH]; intros Hkeys acc.
  - cbn. now rewrite string_app_nil.
  - cbn [for_each map fold_right]. unfold historical_tools.decade_line at 1.
    unfold members at 1.
    destruct (lookup_int d decades) as [ys|] eqn:Hlookup.
    + cbn [bind_outcome ok]. rewrite IH by (intros; apply Hkeys; now right).
      f_equal. strings.
    + exfalso. apply (lookup_int_key d decades); [|exact Hlookup].
      apply Hkeys. now left.
Qed.

Lemma last_of_map {A} (f : A -> json) (first : A) (rest : list A) :
  py_last (JList (map f (first :: rest))) = inr (f (last rest first)).
Proof.
  unfold py_last. rewrite <- map_rev.
  destruct (exists_last (l := first :: rest) ltac:(discriminate))
    as [front [final Hsplit]].
  assert (Hlast : last rest first = final).
  { transitivity (last (first :: rest) first).
    - destruct rest; reflexivity.
    - rewrite Hsplit. apply last_last. }
  rewrite Hsplit, rev_app_distr, Hlast. reflexivity.
Qed.

(** X25.  The seasons are grouped by decade: the decades are listed in
    increasing order, each with exactly the years of the envelope that
    fall in it, [(year // 10) * 10] being the decade, in increasing order;
    every season is thus listed once, under its decade.  The total is the
    number of seasons and the range shown is from the first to the last
    season of the envelope, as they came.  The seasons are numerals that
    [int] reads back, as it does every numeral [str] prints. *)
Theorem seasons_grouped_by_decade
    (fetcher : nat -> string -> outcome json) (first : Z) (rest : list Z) :
  forallb reads_back (first :: rest) = true ->
  fetcher 0%nat "seasons" = inr (seasons_json (first :: rest)) ->
  run fetcher 0 historical_tools.get_all_seasons
  = (inr ("**Available F1 Seasons**" ++ LF ++ LF
          ++ decades_text (first :: rest) ++ LF
          ++ "**Total Seasons:** "
          ++ string_of_Z (Z.of_nat (List.length (first :: rest)))
          ++ " (from " ++ string_of_Z first ++ " to "
          ++ string_of_Z (last rest first) ++ ")"),
     ["seasons"]).
Proof.
  intros Hread Hanswer. unfold historical_tools.get_all_seasons.
  rewrite run_single_request, Hanswer. cbn [bind_outcome].
  unfold historical_tools.render_seasons, seasons_json.
  cbn [lacks_table lacks_mrdata truthy py_contains py_getitem py_get lookup
       String.eqb Ascii.eqb Bool.eqb bind_outcome ok negb py_iter map].
  change (season_of first :: map season_of rest)
    with (map season_of (first :: rest)).
  rewrite (group_seasons_years _ Hread). cbn [bind_outcome].
  rewrite decade_lines_text
    by (intros d Hd; unfold sorted in Hd; apply sorted_by_In in Hd; exact Hd).
  cbn [bind_outcome py_len ok]. rewrite length_map.
  rewrite last_of_map.
  cbn [map py_first bind_outcome ok season_of py_getitem lookup String.eqb
       Ascii.eqb Bool.eqb py_str].
  do 2 f_equal. unfold decades_text.
  rewrite grouped_keys. cbn [map fst]. fold (first_occurrences (map decade_of (first :: rest))).
  rewrite (map_ext
             (fun d =>
                "**" ++ string_of_Z d ++ "s:** "
                ++ String.concat ", "
                     (map string_of_Z (sorted (members d (grouped (first :: rest) []))))
                ++ LF)
             (decade_text (first :: rest)))
    by (intro d; unfold decade_text; now rewrite grouped_members).
  strings.
Qed.

End AllSeasons.

Lemma seasons_grouped_by_decade_witness :
  run (always (ok (seasons_json [1950; 1951; 1960; 2021; 2020; 1959])))
    0 historical_tools.get_all_seasons
  = (inr ("**Available F1 Seasons**" ++ LF ++ LF
          ++ "**1950s:** 1950, 1951, 1959" ++ LF
          ++ "**1960s:** 1960" ++ LF
          ++ "**2020s:** 2020, 2021" ++ LF ++ LF
          ++ "**Total Seasons:** 6 (from 1950 to 1959)"),
     ["seasons"]).
Proof.
  apply (seasons_grouped_by_decade
           (always (ok (seasons_json [1950; 1951; 1960; 2021; 2020; 1959])))
           1950 [1951; 1960; 2021; 2020; 1959]);
    reflexivity.
Defined.

(** ** [get_qualifying_results] *)

Lemma min_by_least {A} (key : A -> Z) (xs : list A) :
  forall best,
    In (min_by key best xs) (best :: xs)
    /\ forall x, In x (best :: xs) -> key (min_by key best xs) <= key x.
Proof.
  induction xs as [|y xs IH]; intro best; cbn [min_by].
  - split; [now left|]. intros x [->|[]]. lia.
  - destruct (IH (if key y <? key best then y else best)) as [Hin Hleast].
    split.
    + destruct Hin as [Hin|Hin]; [|now right; right].
      rewrite <- Hin. destruct (key y <? key best); [right|]; now left.
    + intros x Hx.
      assert (Hfirst : key (min_by key (if key y <? key best then y else best) xs)
                       <= key (if key y <? key best then y else best))
        by (apply Hleast; now left).
      destruct Hx as [->|[->|Hx]].
      * destruct (key y <? key x) eqn:Hlt; [apply Z.ltb_lt in Hlt; lia|exact Hfirst].
      * destruct (key x <? key best) eqn:Hlt; [exact Hfirst|].
        apply Z.ltb_ge in Hlt. lia.
      * apply Hleast. now right.
Qed.

Lemma insert_by_decorated {A B} (key : A -> Z) (f : A -> B) (a : A)
    (xs : list A) :
  insert_by fst (key a, f a) (map (fun x => (key x, f x)) xs)
  = map (fun x => (key x, f x)) (insert_by key a xs).
Proof.
  induction xs as [|y xs IH]; [reflexivity|].
  cbn [map insert_by fst]. destruct (key a <=? key y); cbn [map];
    [reflexivity|now rewrite IH].
Qed.

Lemma sorted_by_decorated {A B} (key : A -> Z) (f : A -> B) (xs : list A) :
  map snd (sorted_by fst (map (fun x => (key x, f x)) xs))
  = map f (sorted_by key xs).
Proof.
  assert (H : sorted_by fst (map (fun x => (key x, f x)) xs)
              = map (fun x => (key x, f x)) (sorted_by key xs)).
  { induction xs as [|a xs IH]; [reflexivity|].
    cbn [map sorted_by fold_right].
    fold (sorted_by fst (map (fun x => (key x, f x)) xs)).
    fold (sorted_by key xs). now rewrite IH, insert_by_decorated. }
  rewrite H, map_map. reflexivity.
Qed.

Lemma min_by_decorated {A B} (key : A -> Z) (f : A -> B) (xs : list A) :
  forall best,
    min_by fst (key best, f best) (map (fun x => (key x, f x)) xs)
    = (key (min_by key best xs), f (min_by key best xs)).
Proof.
  induction xs as [|y xs IH]; intro best; [reflexivity|].
  cbn [map min_by fst]. destruct (key y <? key best); apply IH.
Qed.

Lemma sessions_partition (entries : list qualifying.Entry) :
  Permutation (by_session entries) (filter timed entries).
Proof.
  unfold by_session.
  induction entries as [|e entries IH]; [reflexivity|].
  cbn [filter]. unfold in_q3 at 1, in_q2 at 1, in_q1 at 1, timed at 1.
  destruct (qualifying.q3 e), (qualifying.q2 e), (qualifying.q1 e);
    cbn [app]; try (now apply perm_skip); try exact IH.
  - rewrite <- app_comm_cons, <- Permutation_middle. now apply perm_skip.
  - rewrite <- app_comm_cons, <- Permutation_middle. now apply perm_skip.
  - rewrite app_assoc, <- Permutation_middle, <- app_assoc.
    now apply perm_skip.
Qed.

Section QualifyingResults.
Context {RT : PyRuntime}.

Lemma classify_typed (st : grid.sessions) (e : qualifying.Entry) :
  placed e = true ->
  grid.classify st (qualifying.entry_json e) = inr (classify_entry st e).
Proof.
  destruct e as [position [given family] [team] q1 q2 q3].
  unfold placed. cbn [qualifying.position].
  destruct position as [p|]; [intros _|discriminate].
  destruct q1, q2, q3; reflexivity.
Qed.

Lemma classify_all (entries : list qualifying.Entry) :
  forallb placed entries = true ->
  forall st,
    for_each grid.classify (map qualifying.entry_json entries) st
    = inr (grid.mkSessions
             (grid.q3_drivers st
              ++ map classified_of (filter in_q3 entries))%list
             (grid.q2_drivers st
              ++ map classified_of (filter in_q2 entries))%list
             (grid.q1_drivers st
              ++ map classified_of (filter in_q1 entries))%list).
Proof.
  induction entries as [|e entries IH]; intros Hplaced st.
  - cbn. rewrite !app_nil_r. now destruct st.
  - cbn [forallb] in Hplaced. apply andb_prop in Hplaced as [He Hrest].
    cbn [map for_each]. rewrite (classify_typed st e He). cbn [bind_outcome].
    rewrite (IH Hrest). unfold classify_entry. cbn [filter].
    destruct (in_q3 e) eqn:H3, (in_q2 e) eqn:H2, (in_q1 e) eqn:H1;
      try (exfalso; unfold in_q3, in_q2, in_q1 in H3, H2, H1;
           destruct (qualifying.q3 e), (qualifying.q2 e), (qualifying.q1 e);
           discriminate);
      cbn [grid.q3_drivers grid.q2_drivers grid.q1_drivers map];
      rewrite <- ?app_assoc; reflexivity.
Qed.

Lemma keyed_typed (entries : list qualifying.Entry) :
  forallb placed entries = true ->
  grid.keyed (map classified_of entries)
  = inr (map (fun e => (rank e, classified_of e)) entries).
Proof.
  induction entries as [|e entries IH]; intro Hplaced; [reflexivity|].
  cbn [forallb] in Hplaced. apply andb_prop in Hplaced as [He Hrest].
  cbn [map grid.keyed]. rewrite (IH Hrest).
  unfold placed in He. unfold rank. unfold classified_of at 1.
  cbn [grid.position py_int].
  destruct (qualifying.position e) as [p|]; [|discriminate].
  unfold int_of_text in *.
  destruct (int_text p) as [complaint|n]; [discriminate|reflexivity].
Qed.

Lemma grid_line_text (acc : string) (e : qualifying.Entry) :
  grid.grid_line acc (classified_of e) = inr (acc ++ grid_text e).
Proof.
  destruct e as [position [given family] [team] q1 q2 q3].
  cbn. f_equal. strings.
Qed.

Lemma forallb_permutation {A} (f : A -> bool) (xs ys : list A) :
  Permutation xs ys -> forallb f xs = true -> forallb f ys = true.
Proof.
  intros Hperm Hall. rewrite forallb_forall in *.
  intros x Hx. apply Hall. now apply (Permutation_in x (Permutation_sym Hperm)).
Qed.

Lemma forallb_filter {A} (f g : A -> bool) (xs : list A) :
  forallb f xs = true -> forallb f (filter g xs) = true.
Proof.
  rewrite !forallb_forall. intros Hall x Hx. apply Hall.
  now apply filter_In in Hx.
Qed.

Lemma pole_position_text (entries : list qualifying.Entry)
    (response : string) :
  forallb placed entries = true ->
  grid.pole_position (map classified_of (filter in_q3 entries)) response
  = inr (response ++ pole_text entries).
Proof.
  intro Hplaced. unfold pole_text, grid.pole_position.
  pose proof (keyed_typed (filter in_q3 entries)
                (forallb_filter placed in_q3 entries Hplaced)) as Hkeys.
  destruct (filter in_q3 entries) as [|first others].
  - cbn. now rewrite string_app_nil.
  - cbn [map] in *. rewrite Hkeys. cbn [bind_outcome].
    rewrite (min_by_decorated rank classified_of others first). cbn [snd].
    generalize (min_by rank first others). intro pole.
    destruct pole as [position [given family] [team] q1 q2 q3].
    cbn. f_equal. unfold pole_line. cbn. strings.
Qed.

(** X26.  The starting grid lists the drivers who set a time in some
    session, and only them, each once, in the order of their positions
    read as integers; a driver with a position but no time is left out.
    Each line shows the time of the last session the driver took part in
    and the mark of that session.  (The statement gives the text, and the
    two facts that make [starting_grid] a grid: it is a permutation of the
    timed entries, and it is sorted by position.) *)
Theorem grid_is_sorted_by_position
    (fetcher : nat -> string -> outcome json) (year round_num : Z)
    (race : ergast.Race) (entries : list qualifying.Entry)
    (others : list json) :
  forallb placed entries = true ->
  fetcher 0%nat
    (string_of_Z year ++ "/" ++ grid.round_identifier round_num
     ++ "/qualifying")
  = inr (qualifying.table_json
           (qualifying.session_json race entries :: others)) ->
  fst (run fetcher 0 (grid.get_qualifying_results year round_num))
  = inr (grid_header race
         ++ fold_right append "" (map grid_text (starting_grid entries))
         ++ LF ++ pole_text entries ++ LF ++ grid_legend)
  /\ Permutation (starting_grid entries) (filter timed entries)
  /\ StronglySorted (fun a b => rank a <= rank b) (starting_grid entries).
Proof.
  intros Hplaced Hanswer.
  split; [|split].
  - unfold grid.get_qualifying_results.
    rewrite run_single_request, Hanswer. cbn [fst bind_outcome].
    unfold grid.render, qualifying.table_json, qualifying.session_json,
      grid.lacks_results.
    cbn [lacks_mrdata truthy py_contains py_getitem py_get lookup
         String.eqb Ascii.eqb Bool.eqb bind_outcome ok negb py_first py_iter
         py_str].
    rewrite (classify_all entries Hplaced). cbn [bind_outcome].
    cbn [grid.q3_drivers grid.q2_drivers grid.q1_drivers].
    change (py_getitem (ergast.circuit_json (ergast.circuit race)) "circuitName")
      with (ok (JStr (ergast.circuitName (ergast.circuit race))) : outcome json).
    cbn [bind_outcome ok py_str].
    rewrite !app_nil_l, <- !map_app. fold (by_session entries).
    unfold grid.grid_order.
    rewrite keyed_typed
      by (apply (forallb_permutation placed (filter timed entries));
          [symmetry; apply sessions_partition
          |now apply forallb_filter]).
    cbn [bind_outcome ok]. rewrite sorted_by_decorated.
    fold (starting_grid entries).
    rewrite (for_each_texts grid.grid_line classified_of grid_text
               grid_line_text).
    cbn [bind_outcome]. rewrite (pole_position_text entries _ Hplaced).
    cbn [bind_outcome]. f_equal. unfold grid_header, grid_legend. strings.
  - unfold starting_grid. rewrite <- sorted_by_permutation.
    apply sessions_partition.
  - apply sorted_by_ordered.
Qed.

(** X27.  The pole position goes to a driver of Q3 whose position, read
    as an integer, is the least among the drivers of Q3, and the line shows
    that driver's Q3 time; without a driver in Q3 there is no such line. *)
Theorem pole_is_best_of_q3 (entries : list qualifying.Entry)
    (response : string) :
  forallb placed entries = true ->
  match filter in_q3 entries with
  | [] =>
      grid.pole_position (map classified_of (filter in_q3 entries)) response
      = inr response
  | _ :: _ =>
      exists pole,
        In pole entries /\ in_q3 pole = true
        /\ (forall e, In e entries -> in_q3 e = true -> rank pole <= rank e)
        /\ grid.pole_position (map classified_of (filter in_q3 entries))
             response
           = inr (response ++ pole_line pole)
  end.
Proof.
  intro Hplaced.
  pose proof (pole_position_text entries response Hplaced) as Htext.
  unfold pole_text in Htext.
  destruct (filter in_q3 entries) as [|first others] eqn:Hq3.
  - now rewrite string_app_nil in Htext.
  - exists (min_by rank first others).
    destruct (min_by_least rank others first) as [Hin Hleast].
    rewrite <- Hq3 in Hin. apply filter_In in Hin as [Hin Hthird].
    split; [exact Hin|]. split; [exact Hthird|]. split; [|exact Htext].
    intros e He Hthird'. apply Hleast. rewrite <- Hq3.
    apply filter_In. now split.
Qed.

End QualifyingResults.

Lemma grid_is_sorted_by_position_witness :
  fst (run (always (ok (qualifying.table_json
                          [qualifying.session_json sample_race wet_session])))
         0 (grid.get_qualifying_results 2021 1))
  = inr ("⏱️ **Bahrain Grand Prix - Qualifying Results**" ++ LF ++ LF
         ++ "**Circuit:** Bahrain International Circuit" ++ LF
         ++ "📅 **Date:** 2021-03-28" ++ LF ++ LF
         ++ "**🏁 STARTING GRID:**" ++ LF
         ++ "P1: 🏆 Max Verstappen (Red Bull) - 1:28.9" ++ LF
         ++ "P2: 🏆 Lewis Hamilton (Mercedes) - 1:29.4" ++ LF
         ++ "P3: ⚡ Carlos Sainz (Ferrari) - 1:30.4" ++ LF
         ++ "P4: 📊 Lando Norris (McLaren) - 1:31.0" ++ LF
         ++ LF
         ++ "**🏆 POLE POSITION:** Max Verstappen (Red Bull) - 1:28.9" ++ LF
         ++ LF
         ++ "🏆 Q3 (Top 10) | ⚡ Q2 (P11-15) | 📊 Q1 (P16-20)")
  /\ Permutation (starting_grid wet_session) (filter timed wet_session)
  /\ StronglySorted (fun a b => rank a <= rank b) (starting_grid wet_session).
Proof.
  assert (Hplaced : forallb placed wet_session = true)
    by (vm_compute; reflexivity).
  destruct (grid_is_sorted_by_position
              (always (ok (qualifying.table_json
                             [qualifying.session_json sample_race wet_session])))
              2021 1 sample_race wet_session [] Hplaced eq_refl)
    as [Htext Hgrid].
  split; [|exact Hgrid].
  rewrite Htext. vm_compute. reflexivity.
Defined.

Lemma pole_is_best_of_q3_witness :
  exists pole,
    In pole wet_session /\ in_q3 pole = true
    /\ (forall e, In e wet_session -> in_q3 e = true -> rank pole <= rank e)
    /\ grid.pole_position (map classified_of (filter in_q3 wet_session)) ""
       = inr ("" ++ pole_line pole).
Proof.
  apply (pole_is_best_of_q3 wet_session ""). reflexivity.
Defined.

(** ** [get_sprint_results] *)

Section SprintResults.
Context {RT : PyRuntime}.

Lemma sprint_lines_text (rs : list ergast.Result) :
  forallb has_position rs = true ->
  forall acc,
    for_each racing_tools.sprint_line (map ergast.result_json rs) acc
    = inr (acc ++ analysis_lines rs).
Proof. exact (result_lines_text rs). Qed.

(** X28.  The sprint results are written with the line of the race
    analysis, but for every result of the first race, not for the first
    ten only, and without the lines about the winner: the text is the
    header of the sprint followed by one line per result, in the order of
    the envelope. *)
Theorem sprint_lists_every_result
    (fetcher : nat -> string -> outcome json) (year round_num : Z)
    (race : ergast.Race) (others : list ergast.Race) :
  fetcher 0%nat
    (string_of_Z year ++ "/" ++ racing_tools.round_identifier round_num
     ++ "/sprint")
  = inr (sprint_table_json (race :: others)) ->
  forallb has_position (ergast.results race) = true ->
  run fetcher 0 (racing_tools.get_sprint_results year round_num)
  = (inr (sprint_header race ++ analysis_lines (ergast.results race)),
     [string_of_Z year ++ "/" ++ racing_tools.round_identifier round_num
      ++ "/sprint"]).
Proof.
  intros Hanswer Hall. unfold racing_tools.get_sprint_results.
  rewrite run_single_request, Hanswer. cbn [bind_outcome].
  unfold racing_tools.render_sprint, sprint_table_json,
    racing_tools.lacks_sprint.
  cbn [lacks_table lacks_mrdata truthy py_contains py_getitem py_get lookup
       String.eqb Ascii.eqb Bool.eqb bind_outcome ok negb py_first py_iter
       py_str map sprint_json].
  destruct race as [race_name round date [circuit_name [locality country]] rs].
  cbn [ergast.circuit_json ergast.location_json ergast.raceName ergast.round
       ergast.date ergast.circuit ergast.circuitName ergast.location
       ergast.locality ergast.country ergast.results
       lacks_table lacks_mrdata truthy py_contains py_getitem py_get lookup
       String.eqb Ascii.eqb Bool.eqb bind_outcome ok negb py_first py_iter
       py_str] in *.
  rewrite (sprint_lines_text rs Hall). unfold sprint_header. reflexivity.
Qed.

End SprintResults.

Lemma sprint_lists_every_result_witness :
  List.length (ergast.results full_race) = 11%nat
  /\ run (always (ok (sprint_table_json [full_race]))) 0
       (racing_tools.get_sprint_results 2021 0)
     = (inr (sprint_header full_race ++ analysis_lines (ergast.results full_race)),
        ["2021/last/sprint"]).
Proof.
  split; [reflexivity|].
  apply (sprint_lists_every_result
           (always (ok (sprint_table_json [full_race]))) 2021 0 full_race []);
    reflexivity.
Defined.

Section GridOrder.
Context {RT : PyRuntime}.

(** X29.  The grid order is that of a stable sort on the positions read
    as integers: the sorted list holds the same tuples, in nondecreasing
    position, and the tuples of one position keep the order they had, so
    that among equals the drivers of Q3 come before those of Q2 and those
    before the drivers of Q1. *)
Theorem grid_order_is_stable (entries : list qualifying.Entry) :
  forallb placed entries = true ->
  exists ordered,
    grid.grid_order (map classified_of entries)
    = inr (map classified_of ordered)
    /\ Permutation ordered entries
    /\ StronglySorted (fun a b => rank a <= rank b) ordered
    /\ forall k,
         filter (fun e => rank e =? k) ordered
         = filter (fun e => rank e =? k) entries.
Proof.
  intro Hplaced. exists (sorted_by rank entries). split; [|split; [|split]].
  - unfold grid.grid_order. rewrite (keyed_typed entries Hplaced).
    cbn [bind_outcome ok]. now rewrite sorted_by_decorated.
  - symmetry. apply sorted_by_permutation.
  - apply sorted_by_ordered.
  - intro k. apply sorted_by_stable.
Qed.

End GridOrder.

Lemma grid_order_is_stable_witness :
  exists ordered,
    grid.grid_order (map classified_of wet_session)
    = inr (map classified_of ordered)
    /\ Permutation ordered wet_session
    /\ StronglySorted (fun a b => rank a <= rank b) ordered
    /\ forall k,
         filter (fun e => rank e =? k) ordered
         = filter (fun e => rank e =? k) wet_session.
Proof.
  apply (grid_order_is_stable wet_session). reflexivity.
Defined.
